(** * Catalogo de juegos y resenias: normalizacion y agregacion

    Shallow embedding of the JavaScript sources of the catalogue service:
    the two field mappers ([utils/transformer.js] at the repository root and
    [src/utils/transformer.js]), the request validators, the CRUD controllers
    and services over the document store, and the statistics service.

    JavaScript values are modelled by [JsVal]; an exception is a [Throw] in
    the [Res] monad; a JavaScript object is a finite map from property names
    to values, so that "property present with value undefined" and "property
    absent" are different states. The store is a pair of collections that
    the handlers thread through explicitly.

    What the sources take from the JavaScript runtime, from Mongoose and
    from the server (number and date conversions, the regular expression
    engine, the order of BSON values, schema casting and validation) enters
    through the records [Runtime] and [Mongo.Odm]; [RegExp] gives the
    meaning of the patterns built from literal characters, [.], [^], [$]
    and groups. A finite number is a rational; the arithmetic of JavaScript
    and of the server rounds its results to binary64 ([Num.binary64]). *)

From Stdlib Require Import QArith Qpower Qround Qabs Lqa Ascii Sorted.
From Stdlib Require Qcanon.
From stdpp Require Import gmap strings list fin_maps.

Set Warnings "-register-all".
Local Open Scope Z_scope.

(** ** JavaScript values *)

Module Js.

(** A JavaScript number. A finite value is a rational: the numbers that the
    operations of [Num] produce are binary64 numbers, a stored number may be
    any rational. There is no negative zero. *)
Inductive JsNum :=
| NaN
| Inf (positivo : bool)
| Fin (q : Q).

Inductive JsVal :=
| VUndefined
| VNull
| VBool (b : bool)
| VNum (n : JsNum)
| VStr (s : string)
| VOid (hex : string)            (* an ObjectId, printed as its hex digits *)
| VDate (t : Z)                  (* a valid Date, milliseconds since the epoch *)
| VObj (o : gmap string JsVal)   (* a plain object or a hydrated document *)
| VArr (l : list JsVal).

(** What an operation throws. [Error] is an error the sources construct
    themselves ([new Error(mensaje)], with the [statusCode] that [crearError]
    attaches); [Envuelto prefijo causa] is
    [new Error(`${prefijo}${causa.message}`)]. *)
Inductive JsError :=
| TypeError
| RangeError
| SyntaxError
| CastError
| ValidationError
| MongoError (code : Z)
| Error (mensaje : string) (statusCode : option Z)
| Envuelto (prefijo : string) (causa : JsError).

Inductive Res (A : Type) :=
| Ok (a : A)
| Throw (e : JsError).
Arguments Ok {A} a.
Arguments Throw {A} e.

Definition bind {A B} (m : Res A) (f : A -> Res B) : Res B :=
  match m with
  | Ok a => f a
  | Throw e => Throw e
  end.

(** [try { cuerpo } catch (error) { manejador(error) }] *)
Definition try_catch {A} (cuerpo : Res A) (manejador : JsError -> Res A) : Res A :=
  match cuerpo with
  | Ok a => Ok a
  | Throw e => manejador e
  end.

Fixpoint mapM {A B} (f : A -> Res B) (l : list A) : Res (list B) :=
  match l with
  | [] => Ok []
  | x :: xs => bind (f x) (fun y => bind (mapM f xs) (fun ys => Ok (y :: ys)))
  end.

(** The parts of the JavaScript runtime that the sources call and that are
    not reproduced here. *)
Record Runtime := {
  StringToNumber : string -> JsNum;      (* Number("...") *)
  NumberToString : JsNum -> string;      (* String(n) *)
  DateToString : Z -> string;            (* String(date) *)
  ArrayToString : list JsVal -> string;  (* String(array) *)
  DateParse : string -> option Z;        (* Date.parse, None for NaN *)
  ISOString : Z -> string;               (* date.toISOString() of a valid time *)
  trim : string -> string;               (* String.prototype.trim *)
  RegExpI : string -> Res (string -> bool);
     (* new RegExp(fuente, "i"): a SyntaxError, or the regex's [test] *)
  anioActual : Z;                        (* new Date().getFullYear() *)
  DateNow : Z                            (* Date.now() *)
}.

Definition is_undefined (v : JsVal) : bool :=
  match v with VUndefined => true | _ => false end.

Definition is_null (v : JsVal) : bool :=
  match v with VNull => true | _ => false end.

Definition is_nullish (v : JsVal) : bool :=
  match v with VUndefined | VNull => true | _ => false end.

(** [Boolean(v)], the truthiness used by [!v], [a || b] and [c ? x : y]. *)
Definition truthy (v : JsVal) : bool :=
  match v with
  | VUndefined | VNull => false
  | VBool b => b
  | VNum NaN => false
  | VNum (Inf _) => true
  | VNum (Fin q) => negb (Qeq_bool q 0)
  | VStr s => negb (String.eqb s "")
  | VOid _ | VDate _ | VObj _ | VArr _ => true
  end.

(** [a || b] *)
Definition or_ (a b : JsVal) : JsVal := if truthy a then a else b.

Definition typeof (v : JsVal) : string :=
  match v with
  | VUndefined => "undefined"
  | VNull | VOid _ | VDate _ | VObj _ | VArr _ => "object"
  | VBool _ => "boolean"
  | VNum _ => "number"
  | VStr _ => "string"
  end.

Definition ToString (rt : Runtime) (v : JsVal) : string :=
  match v with
  | VUndefined => "undefined"
  | VNull => "null"
  | VBool true => "true"
  | VBool false => "false"
  | VNum n => NumberToString rt n
  | VStr s => s
  | VOid hex => hex
  | VDate t => DateToString rt t
  | VObj _ => "[object Object]"
  | VArr l => ArrayToString rt l
  end.

(** [Number(v)] *)
Definition Number (rt : Runtime) (v : JsVal) : JsNum :=
  match v with
  | VUndefined => NaN
  | VNull => Fin 0
  | VBool true => Fin 1
  | VBool false => Fin 0
  | VNum n => n
  | VStr s => StringToNumber rt s
  | VOid hex => StringToNumber rt hex
  | VDate t => Fin (inject_Z t)
  | VObj _ => NaN
  | VArr l => StringToNumber rt (ArrayToString rt l)
  end.

(** Reading a property of an object: [undefined] when it is absent. *)
Definition leer (o : gmap string JsVal) (k : string) : JsVal :=
  default VUndefined (o !! k).

(** Property read [v.k]. Reading a property of [undefined] or [null] throws;
    a primitive has none of the data properties the sources read; a Mongoose
    ObjectId answers [_id] with itself. *)
Definition prop (v : JsVal) (k : string) : Res JsVal :=
  match v with
  | VUndefined | VNull => Throw TypeError
  | VObj o => Ok (leer o k)
  | VOid hex => Ok (if String.eqb k "_id" then VOid hex else VUndefined)
  | VBool _ | VNum _ | VStr _ | VDate _ | VArr _ => Ok VUndefined
  end.

(** Method call [v.toString()] *)
Definition toString (rt : Runtime) (v : JsVal) : Res JsVal :=
  if is_nullish v then Throw TypeError else Ok (VStr (ToString rt v)).

(** The time value of [new Date(v)]; [None] is an invalid date. *)
Definition timeClip (t : Z) : option Z :=
  if Z.abs t <=? 8640000000000000 then Some t else None.

Definition newDate (rt : Runtime) (v : JsVal) : option Z :=
  match v with
  | VDate t => Some t
  | VUndefined => None
  | VNum NaN | VNum (Inf _) => None
  | VNum (Fin q) => timeClip (Z.quot (Qnum q) (Z.pos (Qden q)))
  | VNull | VBool false => Some 0
  | VBool true => Some 1
  | VStr s => DateParse rt s
  | VOid _ | VObj _ | VArr _ => DateParse rt (ToString rt v)
  end.

(** [new Date(v).toISOString()], a RangeError on an invalid date. *)
Definition toISOString (rt : Runtime) (v : JsVal) : Res JsVal :=
  match newDate rt v with
  | Some t => Ok (VStr (ISOString rt t))
  | None => Throw RangeError
  end.

(** [c ? new Date(c).toISOString() : null] *)
Definition fechaISO (rt : Runtime) (v : JsVal) : Res JsVal :=
  if truthy v then toISOString rt v else Ok VNull.

End Js.
Export Js.

Notation "x <- m ;; k" := (bind m (fun x => k))
  (at level 100, m at next level, right associativity).

(** ** utils/transformer.js (repository root): the mapper of the first schema *)

Module TransformerLegacy.

(** The loop [Object.entries(o).forEach(([clave, valor]) => ...)] that copies
    the entries accepted by [incluir] into a fresh [resultado]. *)
Definition copiarEntradas (incluir : string -> JsVal -> bool)
    (entradas : list (string * JsVal)) : gmap string JsVal :=
  foldl (fun resultado '(clave, valor) =>
           if incluir clave valor then <[clave := valor]> resultado else resultado)
        ∅ entradas.

Definition esRequeridoJuego (clave : string) : bool :=
  String.eqb clave "titulo" || String.eqb clave "genero" || String.eqb clave "plataforma".

Definition transformarABackend (juegoFrontend : JsVal) : Res (gmap string JsVal) :=
  nombre <- prop juegoFrontend "nombre" ;;
  anio <- prop juegoFrontend "año" ;;
  imagen <- prop juegoFrontend "imagen" ;;
  resena <- prop juegoFrontend "resena" ;;
  genero <- prop juegoFrontend "genero" ;;
  plataforma <- prop juegoFrontend "plataforma" ;;
  tienda <- prop juegoFrontend "tienda" ;;
  desarrollador <- prop juegoFrontend "desarrollador" ;;
  completado <- prop juegoFrontend "completado" ;;
  horasJugadas <- prop juegoFrontend "horasJugadas" ;;
  let juegoBackend :=
    [ ("titulo", nombre);
      ("añoLanzamiento", anio);
      ("imagenPortada", or_ imagen (VStr ""));
      ("descripcion", or_ resena (VStr ""));
      ("genero", genero);
      ("plataforma", plataforma);
      ("tienda", or_ tienda (VStr ""));
      ("desarrollador", or_ desarrollador (VStr ""));
      ("completado", if negb (is_undefined completado) then completado else VBool false);
      ("horasJugadas", if negb (is_undefined horasJugadas) then horasJugadas else VNum (Fin 0)) ] in
  Ok (copiarEntradas
        (fun clave valor => esRequeridoJuego clave || negb (is_undefined valor))
        juegoBackend).

Definition transformarAFrontend (rt : Runtime) (juegoBackend : JsVal) : Res JsVal :=
  if negb (truthy juegoBackend) then Ok VNull else
  _id <- prop juegoBackend "_id" ;;
  id <- toString rt _id ;;
  titulo <- prop juegoBackend "titulo" ;;
  anioLanzamiento <- prop juegoBackend "añoLanzamiento" ;;
  imagenPortada <- prop juegoBackend "imagenPortada" ;;
  descripcion <- prop juegoBackend "descripcion" ;;
  genero <- prop juegoBackend "genero" ;;
  plataforma <- prop juegoBackend "plataforma" ;;
  tienda <- prop juegoBackend "tienda" ;;
  desarrollador <- prop juegoBackend "desarrollador" ;;
  completado <- prop juegoBackend "completado" ;;
  horasJugadas <- prop juegoBackend "horasJugadas" ;;
  fechaCreacion <- prop juegoBackend "fechaCreacion" ;;
  fecha <- fechaISO rt fechaCreacion ;;
  Ok (VObj (list_to_map
    [ ("id", id);
      ("nombre", titulo);
      ("año", anioLanzamiento);
      ("imagen", or_ imagenPortada (VStr ""));
      ("resena", or_ descripcion (VStr ""));
      ("genero", genero);
      ("plataforma", plataforma);
      ("tienda", or_ tienda (VStr ""));
      ("desarrollador", or_ desarrollador (VStr ""));
      ("completado", VBool (truthy completado));
      ("horasJugadas", or_ horasJugadas (VNum (Fin 0)));
      ("fechaCreacion", fecha) ])).

Definition transformarArrayAFrontend (rt : Runtime) (juegosBackend : JsVal)
    : Res (list JsVal) :=
  match juegosBackend with
  | VArr l =>
      mapeados <- mapM (transformarAFrontend rt) l ;;
      Ok (filter (fun v => truthy v = true) mapeados)
  | _ => Ok []
  end.

(** [reseniaFrontend = {}] is the default of a missing argument. *)
Definition transformarReseniaABackend (rt : Runtime) (arg : JsVal)
    : Res (gmap string JsVal) :=
  let reseniaFrontend := if is_undefined arg then VObj ∅ else arg in
  juegoId <- prop reseniaFrontend "juegoId" ;;
  puntuacion <- prop reseniaFrontend "puntuacion" ;;
  texto <- prop reseniaFrontend "texto" ;;
  horasJugadas <- prop reseniaFrontend "horasJugadas" ;;
  dificultad <- prop reseniaFrontend "dificultad" ;;
  recomendaria <- prop reseniaFrontend "recomendaria" ;;
  let reseniaBackend :=
    [ ("juegoId", juegoId);
      ("puntuacion",
        if negb (is_nullish puntuacion) then VNum (Number rt puntuacion) else VUndefined);
      ("textoResena",
        match texto with VStr s => VStr (trim rt s) | _ => VUndefined end);
      ("horasJugadas",
        if negb (is_nullish horasJugadas) then VNum (Number rt horasJugadas) else VUndefined);
      ("dificultad", dificultad);
      ("recomendaria",
        if negb (is_undefined recomendaria) then VBool (truthy recomendaria) else VUndefined) ] in
  Ok (copiarEntradas (fun _ valor => negb (is_undefined valor)) reseniaBackend).

Definition transformarReseniaAFrontend (rt : Runtime) (reseniaBackend : JsVal)
    : Res JsVal :=
  if negb (truthy reseniaBackend) then Ok VNull else
  _id <- prop reseniaBackend "_id" ;;
  id <- toString rt _id ;;
  juegoId <- prop reseniaBackend "juegoId" ;;
  juegoIdTexto <-
    (if String.eqb (typeof juegoId) "object" && negb (is_null juegoId)
     then toString rt juegoId
     else Ok (or_ juegoId (VStr ""))) ;;
  puntuacion <- prop reseniaBackend "puntuacion" ;;
  textoResena <- prop reseniaBackend "textoResena" ;;
  horasJugadas <- prop reseniaBackend "horasJugadas" ;;
  dificultad <- prop reseniaBackend "dificultad" ;;
  recomendaria <- prop reseniaBackend "recomendaria" ;;
  fechaCreacion <- prop reseniaBackend "fechaCreacion" ;;
  creacion <- fechaISO rt fechaCreacion ;;
  fechaActualizacion <- prop reseniaBackend "fechaActualizacion" ;;
  actualizacion <- fechaISO rt fechaActualizacion ;;
  Ok (VObj (list_to_map
    [ ("id", id);
      ("juegoId", juegoIdTexto);
      ("puntuacion",
        if negb (is_nullish puntuacion) then VNum (Number rt puntuacion) else VNull);
      ("texto", or_ textoResena (VStr ""));
      ("horasJugadas",
        if negb (is_nullish horasJugadas) then VNum (Number rt horasJugadas) else VNull);
      ("dificultad", or_ dificultad (VStr ""));
      ("recomendaria", VBool (truthy recomendaria));
      ("fechaCreacion", creacion);
      ("fechaActualizacion", actualizacion) ])).

Definition transformarArrayReseniasAFrontend (rt : Runtime) (reseniasBackend : JsVal)
    : Res (list JsVal) :=
  match reseniasBackend with
  | VArr l =>
      mapeados <- mapM (transformarReseniaAFrontend rt) l ;;
      Ok (filter (fun v => truthy v = true) mapeados)
  | _ => Ok []
  end.

End TransformerLegacy.

(** ** src/utils/transformer.js: the mapper of the second schema *)

Module Transformer.

Definition copiarEntradas := TransformerLegacy.copiarEntradas.

Definition esRequeridoJuego (clave : string) : bool :=
  bool_decide (clave ∈ ["nombre"; "genero"; "plataforma"; "año"]).

Definition transformarABackend (rt : Runtime) (juegoFrontend : JsVal)
    : Res (gmap string JsVal) :=
  if negb (truthy juegoFrontend) || negb (String.eqb (typeof juegoFrontend) "object")
  then Throw (Error "Datos de juego inválidos para transformar" None) else
  nombre <- prop juegoFrontend "nombre" ;;
  anio <- prop juegoFrontend "año" ;;
  imagen <- prop juegoFrontend "imagen" ;;
  resena <- prop juegoFrontend "resena" ;;
  genero <- prop juegoFrontend "genero" ;;
  plataforma <- prop juegoFrontend "plataforma" ;;
  tienda <- prop juegoFrontend "tienda" ;;
  desarrollador <- prop juegoFrontend "desarrollador" ;;
  completado <- prop juegoFrontend "completado" ;;
  horasJugadas <- prop juegoFrontend "horasJugadas" ;;
  let juegoBackend :=
    [ ("nombre", nombre);
      ("año", anio);
      ("imagen", or_ imagen (VStr ""));
      ("resena", or_ resena (VStr ""));
      ("genero", genero);
      ("plataforma", plataforma);
      ("tienda", or_ tienda (VStr ""));
      ("desarrollador", or_ desarrollador (VStr ""));
      ("completado",
        if negb (is_undefined completado) then VBool (truthy completado) else VBool false);
      ("horasJugadas",
        if negb (is_undefined horasJugadas)
        then or_ (VNum (Number rt horasJugadas)) (VNum (Fin 0))
        else VNum (Fin 0)) ] in
  Ok (copiarEntradas
        (fun clave valor => esRequeridoJuego clave || negb (is_nullish valor))
        juegoBackend).

Definition transformarAFrontend (rt : Runtime) (juegoBackend : JsVal) : Res JsVal :=
  if negb (truthy juegoBackend) then Ok VNull else
  try_catch
    (_id <- prop juegoBackend "_id" ;;
     id <- (if truthy _id then toString rt _id else Ok (VStr "")) ;;
     nombre <- prop juegoBackend "nombre" ;;
     titulo <- prop juegoBackend "titulo" ;;
     anio <- prop juegoBackend "año" ;;
     anioLanzamiento <- prop juegoBackend "añoLanzamiento" ;;
     imagen <- prop juegoBackend "imagen" ;;
     imagenPortada <- prop juegoBackend "imagenPortada" ;;
     resena <- prop juegoBackend "resena" ;;
     descripcion <- prop juegoBackend "descripcion" ;;
     genero <- prop juegoBackend "genero" ;;
     plataforma <- prop juegoBackend "plataforma" ;;
     tienda <- prop juegoBackend "tienda" ;;
     desarrollador <- prop juegoBackend "desarrollador" ;;
     completado <- prop juegoBackend "completado" ;;
     horasJugadas <- prop juegoBackend "horasJugadas" ;;
     fechaCreacion <- prop juegoBackend "fechaCreacion" ;;
     creacion <- fechaISO rt fechaCreacion ;;
     fechaActualizacion <- prop juegoBackend "fechaActualizacion" ;;
     actualizacion <- fechaISO rt fechaActualizacion ;;
     Ok (VObj (list_to_map
       [ ("id", id);
         ("nombre", or_ (or_ nombre titulo) (VStr ""));
         ("año", or_ (or_ anio anioLanzamiento) (VNum (Fin (inject_Z (anioActual rt)))));
         ("imagen", or_ (or_ imagen imagenPortada) (VStr ""));
         ("resena", or_ (or_ resena descripcion) (VStr ""));
         ("genero", or_ genero (VStr ""));
         ("plataforma", or_ plataforma (VStr ""));
         ("tienda", or_ tienda (VStr ""));
         ("desarrollador", or_ desarrollador (VStr ""));
         ("completado", VBool (truthy completado));
         ("horasJugadas", or_ (VNum (Number rt horasJugadas)) (VNum (Fin 0)));
         ("fechaCreacion", creacion);
         ("fechaActualizacion", actualizacion) ])))
    (fun _ => Ok VNull).

Definition transformarArrayAFrontend (rt : Runtime) (juegosBackend : JsVal)
    : Res (list JsVal) :=
  match juegosBackend with
  | VArr l =>
      mapeados <- mapM (transformarAFrontend rt) l ;;
      Ok (filter (fun juego => is_null juego = false) mapeados)
  | _ => Ok []
  end.

Definition transformarReseniaABackend (rt : Runtime) (arg : JsVal)
    : Res (gmap string JsVal) :=
  let reseniaFrontend := if is_undefined arg then VObj ∅ else arg in
  if negb (truthy reseniaFrontend) || negb (String.eqb (typeof reseniaFrontend) "object")
  then Throw (Error "Datos de reseña inválidos para transformar" None) else
  juegoId <- prop reseniaFrontend "juegoId" ;;
  contenido <- prop reseniaFrontend "contenido" ;;
  texto <- prop reseniaFrontend "texto" ;;
  textoResena <- prop reseniaFrontend "textoResena" ;;
  calificacion <- prop reseniaFrontend "calificacion" ;;
  puntuacion <- prop reseniaFrontend "puntuacion" ;;
  autor <- prop reseniaFrontend "autor" ;;
  dificultad <- prop reseniaFrontend "dificultad" ;;
  recomendaria <- prop reseniaFrontend "recomendaria" ;;
  horasJugadas <- prop reseniaFrontend "horasJugadas" ;;
  let reseniaBackend :=
    [ ("juegoId", juegoId);
      ("contenido", or_ (or_ contenido texto) textoResena);
      ("calificacion", or_ calificacion puntuacion);
      ("autor", or_ autor (VStr "Anónimo"));
      ("dificultad", or_ dificultad (VStr "Normal"));
      ("recomendaria",
        if negb (is_undefined recomendaria) then VBool (truthy recomendaria) else VBool true);
      ("horasJugadas",
        if truthy horasJugadas then VNum (Number rt horasJugadas) else VNum (Fin 0)) ] in
  Ok (copiarEntradas
        (fun _ valor =>
           negb (is_nullish valor) &&
           negb (match valor with VStr s => String.eqb s "" | _ => false end))
        reseniaBackend).

Definition transformarReseniaAFrontend (rt : Runtime) (reseniaBackend : JsVal)
    : Res JsVal :=
  if negb (truthy reseniaBackend) then Ok VNull else
  try_catch
    (_id <- prop reseniaBackend "_id" ;;
     id <- (if truthy _id then toString rt _id else Ok (VStr "")) ;;
     contenido <- prop reseniaBackend "contenido" ;;
     textoResena <- prop reseniaBackend "textoResena" ;;
     calificacion <- prop reseniaBackend "calificacion" ;;
     puntuacion <- prop reseniaBackend "puntuacion" ;;
     autor <- prop reseniaBackend "autor" ;;
     dificultad <- prop reseniaBackend "dificultad" ;;
     recomendaria <- prop reseniaBackend "recomendaria" ;;
     horasJugadas <- prop reseniaBackend "horasJugadas" ;;
     fechaCreacion <- prop reseniaBackend "fechaCreacion" ;;
     creacion <- fechaISO rt fechaCreacion ;;
     fechaActualizacion <- prop reseniaBackend "fechaActualizacion" ;;
     actualizacion <- fechaISO rt fechaActualizacion ;;
     let resultado : gmap string JsVal := list_to_map
       [ ("id", id);
         ("juegoId", VStr "");
         ("contenido", or_ (or_ contenido textoResena) (VStr ""));
         ("calificacion",
           or_ (VNum (Number rt (or_ calificacion puntuacion))) (VNum (Fin 1)));
         ("autor", or_ autor (VStr "Anónimo"));
         ("dificultad", or_ dificultad (VStr "Normal"));
         ("recomendaria", VBool (truthy recomendaria));
         ("horasJugadas", or_ (VNum (Number rt horasJugadas)) (VNum (Fin 0)));
         ("fechaCreacion", creacion);
         ("fechaActualizacion", actualizacion) ] in
     juegoId <- prop reseniaBackend "juegoId" ;;
     if truthy juegoId then
       juegoId_id <- prop juegoId "_id" ;;
       if String.eqb (typeof juegoId) "object" && truthy juegoId_id then
         idTexto <- toString rt juegoId_id ;;
         juegoNombre <- prop juegoId "nombre" ;;
         juegoTitulo <- prop juegoId "titulo" ;;
         juegoGenero <- prop juegoId "genero" ;;
         Ok (VObj (<["juegoGenero" := juegoGenero]>
                  (<["juegoNombre" := or_ juegoNombre juegoTitulo]>
                  (<["juegoId" := idTexto]> resultado))))
       else
         idTexto <- toString rt juegoId ;;
         Ok (VObj (<["juegoId" := idTexto]> resultado))
     else Ok (VObj resultado))
    (fun _ => Ok VNull).

Definition transformarArrayReseniasAFrontend (rt : Runtime) (reseniasBackend : JsVal)
    : Res (list JsVal) :=
  match reseniasBackend with
  | VArr l =>
      mapeados <- mapM (transformarReseniaAFrontend rt) l ;;
      Ok (filter (fun resenia => is_null resenia = false) mapeados)
  | _ => Ok []
  end.

End Transformer.

(** ** Characters and regular expressions *)

Module Caracteres.

Definition codigo (c : ascii) : N := N_of_ascii c.

Definition entre (lo hi : N) (c : ascii) : bool :=
  ((lo <=? codigo c) && (codigo c <=? hi))%N.

Definition esDigito : ascii -> bool := entre 48 57.
Definition esMayuscula : ascii -> bool := entre 65 90.
Definition esMinuscula : ascii -> bool := entre 97 122.

(** [[0-9a-fA-F]] *)
Definition esHex (c : ascii) : bool :=
  esDigito c || entre 97 102 c || entre 65 70 c.

Definition aMinuscula (c : ascii) : ascii :=
  if esMayuscula c then ascii_of_N (codigo c + 32) else c.

Definition aMayuscula (c : ascii) : ascii :=
  if esMinuscula c then ascii_of_N (codigo c - 32) else c.

Fixpoint todos (p : ascii -> bool) (s : string) : bool :=
  match s with
  | EmptyString => true
  | String c s' => p c && todos p s'
  end.

Fixpoint mapear (f : ascii -> ascii) (s : string) : string :=
  match s with
  | EmptyString => EmptyString
  | String c s' => String (f c) (mapear f s')
  end.

End Caracteres.

(** The regular expressions the sources build with [new RegExp(fuente, "i")],
    for the fragment of the pattern syntax made of literal characters, [.],
    [^], [$] and capture groups. A pattern that uses any other syntax
    character ([\ * + ? | [ ] { }]) or a character outside ASCII is outside
    the fragment: [nuevo] answers [None] for it. Inside the fragment a group
    only delimits, so a pattern is the sequence of its atoms. *)
Module RegExp.
Import Caracteres.

Inductive Atomo :=
| Lit (c : ascii)
| Cualquiera     (* . *)
| Inicio         (* ^ *)
| Final.         (* $ *)

Definition fueraDeFragmento (c : ascii) : bool :=
  (127 <? codigo c)%N ||
  bool_decide (c ∈ ["\"; "*"; "+"; "?"; "|"; "["; "]"; "{"; "}"]%char).

(** The atoms of a pattern; [profundidad] counts the groups still open.
    An unmatched [)] and an unterminated group are syntax errors. *)
Fixpoint atomos (profundidad : nat) (fuente : string) : Res (list Atomo) :=
  match fuente with
  | EmptyString =>
      match profundidad with
      | O => Ok []
      | S _ => Throw SyntaxError
      end
  | String c resto =>
      if Ascii.eqb c "(" then atomos (S profundidad) resto
      else if Ascii.eqb c ")" then
        match profundidad with
        | O => Throw SyntaxError
        | S p => atomos p resto
        end
      else
        ats <- atomos profundidad resto ;;
        Ok ((if Ascii.eqb c "." then Cualquiera
             else if Ascii.eqb c "^" then Inicio
             else if Ascii.eqb c "$" then Final
             else Lit c) :: ats)
  end.

(** [new RegExp(fuente, "i")] *)
Definition nuevo (fuente : string) : option (Res (list Atomo)) :=
  if todos (fun c => negb (fueraDeFragmento c)) fuente
  then Some (atomos 0 fuente)
  else None.

(** Case-insensitive comparison of two characters (flag [i], ASCII). *)
Definition igualSinCaja (a b : ascii) : bool :=
  Ascii.eqb (aMayuscula a) (aMayuscula b).

Definition esTerminadorDeLinea (c : ascii) : bool :=
  Ascii.eqb c "010" || Ascii.eqb c "013".

(** Does the pattern match at position [i], where [s] is the rest of the
    subject from that position on? *)
Fixpoint coincideAqui (p : list Atomo) (i : nat) (s : string) : bool :=
  match p with
  | [] => true
  | Inicio :: p' => Nat.eqb i 0 && coincideAqui p' i s
  | Final :: p' =>
      match s with
      | EmptyString => coincideAqui p' i s
      | String _ _ => false
      end
  | Lit c :: p' =>
      match s with
      | EmptyString => false
      | String x s' => igualSinCaja c x && coincideAqui p' (S i) s'
      end
  | Cualquiera :: p' =>
      match s with
      | EmptyString => false
      | String x s' => negb (esTerminadorDeLinea x) && coincideAqui p' (S i) s'
      end
  end.

Fixpoint buscar (p : list Atomo) (i : nat) (s : string) : bool :=
  coincideAqui p i s ||
  match s with
  | EmptyString => false
  | String _ s' => buscar p (S i) s'
  end.

(** [regex.test(s)]: is there a match starting at some position of [s]? *)
Definition test (p : list Atomo) (s : string) : bool := buscar p 0 s.

End RegExp.

(** ** utils/validation.js *)

Module Validation.
Import Caracteres.

(** [/^[0-9a-fA-F]{24}$/.test(id)] on a string *)
Definition validarObjectIdTexto (id : string) : bool :=
  Nat.eqb (String.length id) 24 && todos esHex id.

(** [validarObjectId(id)]: the argument is converted to a string first. *)
Definition validarObjectId (rt : Runtime) (id : JsVal) : bool :=
  validarObjectIdTexto (ToString rt id).

End Validation.

(** ** Numbers: arithmetic, rounding and [parseInt] *)

Module Num.
Import Caracteres.

Definition esCero (q : Q) : bool := Qeq_bool q 0.
Definition esPositivo (q : Q) : bool := negb (Qle_bool q 0).

(** An integer written as a number, without rounding. *)
Definition deZ (z : Z) : JsNum := Fin (inject_Z z).

(** Rounding to the nearest integer, a tie going to the even neighbour. *)
Definition mitadPar (q : Q) : Z :=
  let piso := Qfloor q in
  match Qcompare (q - inject_Z piso) (1 # 2) with
  | Lt => piso
  | Gt => piso + 1
  | Eq => if Z.even piso then piso else piso + 1
  end.

(** *** binary64 *)

(** The exponent of the binade of a positive rational: the [k] with
    [2 ^ k <= q < 2 ^ (k + 1)]. *)
Definition binada (q : Q) : Z :=
  let k := Z.log2 (Qnum q) - Z.log2 (Z.pos (Qden q)) in
  if Qle_bool (2 ^ k) q then k else k - 1.

(** The binary64 number nearest to a positive rational, a tie going to the
    even significand: a significand of 53 bits, no exponent below -1074;
    [None] is the overflow to infinity, from 2^1024 on. *)
Definition cercano (q : Q) : option Q :=
  let e := Z.max (binada q - 52) (-1074) in
  let r := (inject_Z (mitadPar (q / 2 ^ e)) * 2 ^ e)%Q in
  if Qle_bool (2 ^ 1024) r then None else Some (Qred r).

(** The result of an operation whose exact value is [q]. *)
Definition binary64 (q : Q) : JsNum :=
  match (q ?= 0)%Q with
  | Eq => Fin 0
  | Gt => from_option Fin (Inf true) (cercano q)
  | Lt => from_option (fun r => Fin (- r)) (Inf false) (cercano (- q))
  end.

(** The conversion of an integer to a number: exact below 2^53. *)
Definition aDoble (z : Z) : JsNum := binary64 (inject_Z z).

(** [a + b] *)
Definition sumar (a b : JsNum) : JsNum :=
  match a, b with
  | NaN, _ | _, NaN => NaN
  | Inf p, Inf p' => if Bool.eqb p p' then Inf p else NaN
  | Inf p, Fin _ | Fin _, Inf p => Inf p
  | Fin x, Fin y => binary64 (x + y)
  end.

(** [a * b] *)
Definition multiplicar (a b : JsNum) : JsNum :=
  match a, b with
  | NaN, _ | _, NaN => NaN
  | Inf p, Inf p' => Inf (Bool.eqb p p')
  | Inf p, Fin x | Fin x, Inf p =>
      if esCero x then NaN else Inf (Bool.eqb p (esPositivo x))
  | Fin x, Fin y => binary64 (x * y)
  end.

(** [a / b] in JavaScript *)
Definition dividir (a b : JsNum) : JsNum :=
  match a, b with
  | NaN, _ | _, NaN => NaN
  | Inf _, Inf _ => NaN
  | Inf p, Fin y => Inf (Bool.eqb p (Qle_bool 0 y))
  | Fin _, Inf _ => Fin 0
  | Fin x, Fin y =>
      if esCero y then (if esCero x then NaN else Inf (esPositivo x))
      else binary64 (x / y)
  end.

(** [a <= b] and [a < b] on numbers; every comparison with NaN is false. *)
Definition menorIgualNum (a b : JsNum) : bool :=
  match a, b with
  | NaN, _ | _, NaN => false
  | Inf p, Inf p' => implb p p'
  | Inf p, Fin _ => negb p
  | Fin _, Inf p => p
  | Fin x, Fin y => Qle_bool x y
  end.

Definition menorNum (a b : JsNum) : bool :=
  menorIgualNum a b && negb (menorIgualNum b a).

(** [Math.ceil] *)
Definition ceil (a : JsNum) : JsNum :=
  match a with
  | Fin x => deZ (Qceiling x)
  | _ => a
  end.

(** The decimal number with [lugares] decimals nearest to a rational, a tie
    going to the even last digit. *)
Definition redondear (lugares : Z) (q : Q) : Q :=
  inject_Z (mitadPar (q * inject_Z (10 ^ lugares))) / inject_Z (10 ^ lugares).

(** The white space and the line terminators of one byte: TAB, LF, VT, FF,
    CR and the space. *)
Definition esEspacio (c : ascii) : bool :=
  entre 9 13 c || Ascii.eqb c " ".

(** U+00A0 in UTF-8 *)
Definition esEspacioDeDos (a b : ascii) : bool :=
  (codigo a =? 194)%N && (codigo b =? 160)%N.

(** U+1680, U+2000 to U+200A, U+2028, U+2029, U+202F, U+205F, U+3000 and
    U+FEFF in UTF-8 *)
Definition esEspacioDeTres (a b c : ascii) : bool :=
  ((codigo a =? 225) && (codigo b =? 154) && (codigo c =? 128))%N
  || ((codigo a =? 226)%N && (codigo b =? 128)%N
      && (entre 128 138 c || entre 168 169 c || (codigo c =? 175)%N))
  || ((codigo a =? 226) && (codigo b =? 129) && (codigo c =? 159))%N
  || ((codigo a =? 227) && (codigo b =? 128) && (codigo c =? 128))%N
  || ((codigo a =? 239) && (codigo b =? 187) && (codigo c =? 191))%N.

(** The string without the leading white space and line terminators that
    [parseInt] skips; the characters are encoded in UTF-8. *)
Fixpoint quitarEspacios (s : string) : string :=
  match s with
  | String a s1 =>
      if esEspacio a then quitarEspacios s1 else
      match s1 with
      | String b s2 =>
          if esEspacioDeDos a b then quitarEspacios s2 else
          match s2 with
          | String c s3 => if esEspacioDeTres a b c then quitarEspacios s3 else s
          | EmptyString => s
          end
      | EmptyString => s
      end
  | EmptyString => s
  end.

Definition valorDigito (c : ascii) : option Z :=
  if esDigito c then Some (Z.of_N (codigo c) - 48)
  else if esMinuscula c then Some (Z.of_N (codigo c) - 87)
  else if esMayuscula c then Some (Z.of_N (codigo c) - 55)
  else None.

(** The value of the longest prefix of digits in base [R]; [acc] is [None]
    as long as no digit has been read. *)
Fixpoint leerDigitos (R : Z) (acc : option Z) (s : string) : option Z :=
  match s with
  | EmptyString => acc
  | String c s' =>
      match valorDigito c with
      | Some d => if d <? R then leerDigitos R (Some (default 0 acc * R + d)) s' else acc
      | None => acc
      end
  end.

(** The integer that [parseInt(s)] reads, without a radix; [None] is NaN.
    The number that [parseInt] returns is the binary64 number nearest to
    this integer ([deEntero]). *)
Definition parseIntTexto (s : string) : option Z :=
  let s1 := quitarEspacios s in
  let '(signo, s2) :=
    match s1 with
    | String c r =>
        if Ascii.eqb c "-" then (-1, r)
        else if Ascii.eqb c "+" then (1, r) else (1, s1)
    | EmptyString => (1, s1)
    end in
  let '(R, s3) :=
    match s2 with
    | String c (String x r) =>
        if Ascii.eqb c "0" && (Ascii.eqb x "x" || Ascii.eqb x "X") then (16, r)
        else (10, s2)
    | _ => (10, s2)
    end in
  z ← leerDigitos R None s3; Some (signo * z).

(** The integer that [parseInt(v)] reads: the argument is converted to a
    string first; an integer below 10^21 prints as its decimal digits. *)
Definition parseInt (rt : Runtime) (v : JsVal) : option Z :=
  match v with
  | VStr s => parseIntTexto s
  | VNum (Fin q) =>
      if Qeq_bool q (inject_Z (Qfloor q)) && (Z.abs (Qfloor q) <? 10 ^ 21)
      then Some (Qfloor q)
      else parseIntTexto (ToString rt v)
  | _ => parseIntTexto (ToString rt v)
  end.

(** The number that [parseInt] returns for the integer it read. *)
Definition deEntero (n : option Z) : JsNum :=
  match n with
  | Some z => aDoble z
  | None => NaN
  end.

Definition esNaN (n : JsNum) : bool :=
  match n with NaN => true | _ => false end.

(** The integer that a number is, if it is one. *)
Definition enteroDe (n : JsNum) : option Z :=
  match n with
  | Fin q => if Qeq_bool q (inject_Z (Qfloor q)) then Some (Qfloor q) else None
  | _ => None
  end.

End Num.

(** ** The document store behind the Mongoose models *)

Module Mongo.
Import Caracteres.

(** The two collections, each in insertion order. *)
Record Store := {
  juegos : list (gmap string JsVal);
  resenias : list (gmap string JsVal)
}.

(** What Mongoose and the server contribute and the repository does not
    define: the order of BSON values used by [sort], [$min] and [$max], and
    the document a model builds from a payload under its schema (casting,
    trimming, defaults) or the error its validators raise on [save]. *)
Record Odm := {
  bsonLeb : JsVal -> JsVal -> bool;
  nuevoJuego : gmap string JsVal -> Res (gmap string JsVal);
  nuevaResenia : gmap string JsVal -> Res (gmap string JsVal)
}.

(** The static defaults that [reseniaSchema] declares. *)
Definition reseniaSchemaDefaults : gmap string JsVal :=
  list_to_map
    [ ("autor", VStr "Anónimo");
      ("dificultad", VStr "Normal");
      ("recomendaria", VBool true);
      ("horasJugadas", VNum (Fin 0));
      ("likes", VNum (Fin 0));
      ("dislikes", VNum (Fin 0)) ].

(** The defaults of [reseniaSchema] at the time [ahora]: the two dates
    default to [Date.now] and the array of tags to an empty array. *)
Definition reseniaSchemaDefaultsEn (ahora : Z) : gmap string JsVal :=
  <["fechaCreacion" := VDate ahora]>
    (<["fechaActualizacion" := VDate ahora]>
       (<["tags" := VArr []]> reseniaSchemaDefaults)).

(** The paths of [reseniaSchema], with the two that every schema has. *)
Definition reseniaSchemaRutas : list string :=
  [ "_id"; "__v"; "juegoId"; "contenido"; "calificacion"; "autor"; "dificultad";
    "recomendaria"; "horasJugadas"; "fechaCreacion"; "fechaActualizacion";
    "tags"; "likes"; "dislikes" ].

(** The document that a model builds from a stored record, as the property
    reads of the sources see it: only the paths of the schema are
    properties of the document, and a path that the record leaves undefined
    holds the default of the schema. The stored values are taken to be of
    the types of the schema: their cast is not modelled. *)
Definition hidratar (rutas : list string) (defaults d : gmap string JsVal)
    : gmap string JsVal :=
  filter (fun kv => kv.1 ∈ rutas /\ is_undefined kv.2 = false) d ∪ defaults.

(** A document of the model [Resenia] *)
Definition hidratarResenia (ahora : Z) (d : gmap string JsVal) : gmap string JsVal :=
  hidratar reseniaSchemaRutas (reseniaSchemaDefaultsEn ahora) d.

(** The cast of a query value to an ObjectId: a string of 24 hex digits
    denotes the identifier with these digits, whatever their case; any other
    string is a cast error. *)
Definition castObjectId (v : JsVal) : Res (option string) :=
  match v with
  | VUndefined | VNull => Ok None
  | VOid hex => Ok (Some hex)
  | VStr s =>
      if Validation.validarObjectIdTexto s
      then Ok (Some (mapear aMinuscula s))
      else Throw CastError
  | VBool _ | VNum _ | VDate _ | VObj _ | VArr _ => Throw CastError
  end.

Definition tieneId (hex : string) (d : gmap string JsVal) : bool :=
  match d !! "_id" with
  | Some (VOid h) => String.eqb h hex
  | _ => false
  end.

(** [Modelo.findById(id)] *)
Definition findById (coleccion : list (gmap string JsVal)) (id : JsVal)
    : Res (option (gmap string JsVal)) :=
  c <- castObjectId id ;;
  Ok (match c with
      | Some hex => List.find (tieneId hex) coleccion
      | None => None
      end).

(** The collection without the first document that satisfies [p]. *)
Fixpoint quitar {A} (p : A -> bool) (l : list A) : list A :=
  match l with
  | [] => []
  | x :: l' => if p x then l' else x :: quitar p l'
  end.

(** [Modelo.findByIdAndDelete(id)]: the deleted document, if any, and the
    collection that remains. *)
Definition findByIdAndDelete (coleccion : list (gmap string JsVal)) (id : JsVal)
    : Res (option (gmap string JsVal) * list (gmap string JsVal)) :=
  c <- castObjectId id ;;
  Ok (match c with
      | Some hex => (List.find (tieneId hex) coleccion, quitar (tieneId hex) coleccion)
      | None => (None, coleccion)
      end).

(** The insert behind [documento.save()] for a new document whose generated
    identifier is [hex]; the server refuses a duplicate [_id]. *)
Definition insertar (hex : string) (campos : gmap string JsVal)
    (coleccion : list (gmap string JsVal))
    : Res (gmap string JsVal * list (gmap string JsVal)) :=
  let doc := <["_id" := VOid hex]> campos in
  if existsb (tieneId hex) coleccion
  then Throw (MongoError 11000)
  else Ok (doc, coleccion ++ [doc]).

(** [.select(campos)]: the listed paths and [_id]. *)
Definition select (campos : list string) (d : gmap string JsVal) : gmap string JsVal :=
  filter (fun '(k, _) => k = "_id" \/ k ∈ campos) d.

(** [.populate(ruta, campos)]: the reference is replaced by the selected
    fields of the document it resolves to, or by [null]. *)
Definition populate (ruta : string) (campos : list string)
    (referidos : list (gmap string JsVal)) (d : gmap string JsVal) : gmap string JsVal :=
  match d !! ruta with
  | Some (VOid hex) =>
      <[ruta := match List.find (tieneId hex) referidos with
                | Some j => VObj (select campos j)
                | None => VNull
                end]> d
  | _ => d
  end.

(** *** Query predicates *)

Inductive Condicion :=
| Coincide (campo : string) (re : string -> bool)        (* { campo: /re/i } *)
| Igual (campo : string) (v : JsVal)                     (* { campo: v } *)
| Rango (campo : string) (gt gte lte : option JsNum)     (* { campo: { $gt, $gte, $lte } } *)
| Alguna (alternativas : list (string * (string -> bool))). (* { $or: [{ campo: /re/i }, ...] } *)

Definition coincideCampo (d : gmap string JsVal) (campo : string) (re : string -> bool) : bool :=
  match d !! campo with
  | Some (VStr s) => re s
  | _ => false
  end.

Definition igualBson (a b : JsVal) : bool :=
  match a, b with
  | VBool x, VBool y => Bool.eqb x y
  | VStr x, VStr y => String.eqb x y
  | VOid x, VOid y => String.eqb x y
  | VDate x, VDate y => x =? y
  | VNum (Fin x), VNum (Fin y) => Qeq_bool x y
  | VNum NaN, VNum NaN => true
  | VNum (Inf p), VNum (Inf p') => Bool.eqb p p'
  | (VNull | VUndefined), (VNull | VUndefined) => true
  | _, _ => false
  end.

(** A comparison operator only matches values of the type of its bound. *)
Definition enRango (v : JsVal) (gt gte lte : option JsNum) : bool :=
  match v with
  | VNum n =>
      from_option (fun b => Num.menorNum b n) true gt &&
      from_option (fun b => Num.menorIgualNum b n) true gte &&
      from_option (fun b => Num.menorIgualNum n b) true lte
  | _ => false
  end.

Definition cumple (d : gmap string JsVal) (c : Condicion) : bool :=
  match c with
  | Coincide campo re => coincideCampo d campo re
  | Igual campo v => igualBson (leer d campo) v
  | Rango campo gt gte lte => enRango (leer d campo) gt gte lte
  | Alguna alternativas => existsb (fun '(campo, re) => coincideCampo d campo re) alternativas
  end.

(** A filter is the conjunction of its conditions. *)
Definition evaluar (filtro : list Condicion) (d : gmap string JsVal) : bool :=
  forallb (cumple d) filtro.

(** *** Sorting, skipping and limiting *)

Fixpoint insertarOrdenado {A} (le : A -> A -> bool) (x : A) (l : list A) : list A :=
  match l with
  | [] => [x]
  | y :: l' => if le x y then x :: y :: l' else y :: insertarOrdenado le x l'
  end.

Definition ordenar {A} (le : A -> A -> bool) (l : list A) : list A :=
  foldr (insertarOrdenado le) [] l.

(** [.sort({ [campo]: direccion })]: ascending for [1], descending otherwise *)
Definition sort (odm : Odm) (campo : string) (direccion : Z)
    (docs : list (gmap string JsVal)) : list (gmap string JsVal) :=
  if direccion =? 1
  then ordenar (fun a b => bsonLeb odm (leer a campo) (leer b campo)) docs
  else ordenar (fun a b => bsonLeb odm (leer b campo) (leer a campo)) docs.

(** A query under construction: what [find], [sort], [limit] and [skip] have
    recorded. A limit or a skip that was set is an integer, or a number that
    is none, NaN or an infinity ([None]). *)
Record Consulta := {
  filtro : list Condicion;
  orden : option (string * Z);
  limite : option (option Z);
  salto : option (option Z)
}.

Definition find (f : list Condicion) : Consulta :=
  {| filtro := f; orden := None; limite := None; salto := None |}.

Definition conSort (campo : string) (direccion : Z) (c : Consulta) : Consulta :=
  {| filtro := filtro c; orden := Some (campo, direccion);
     limite := limite c; salto := salto c |}.

Definition conLimit (n : option Z) (c : Consulta) : Consulta :=
  {| filtro := filtro c; orden := orden c; limite := Some n; salto := salto c |}.

Definition conSkip (n : option Z) (c : Consulta) : Consulta :=
  {| filtro := filtro c; orden := orden c; limite := limite c; salto := Some n |}.

(** The server skips before it limits, whatever the order of the calls; a
    limit of zero is no limit and a negative one asks for a single batch of
    that size; a negative skip and a number that is no integer are
    rejected. *)
Definition exec (odm : Odm) (c : Consulta) (coleccion : list (gmap string JsVal))
    : Res (list (gmap string JsVal)) :=
  let encontrados := List.filter (evaluar (filtro c)) coleccion in
  let ordenados :=
    match orden c with
    | Some (campo, direccion) => sort odm campo direccion encontrados
    | None => encontrados
    end in
  saltados <-
    match salto c with
    | None => Ok ordenados
    | Some None => Throw CastError
    | Some (Some n) =>
        if n <? 0 then Throw (MongoError 2) else Ok (drop (Z.to_nat n) ordenados)
    end ;;
  match limite c with
  | None => Ok saltados
  | Some None => Throw CastError
  | Some (Some n) =>
      if n =? 0 then Ok saltados else Ok (take (Z.to_nat (Z.abs n)) saltados)
  end.

(** [Modelo.countDocuments(query)] *)
Definition countDocuments (f : list Condicion) (coleccion : list (gmap string JsVal)) : Z :=
  Z.of_nat (length (List.filter (evaluar f) coleccion)).

(** [Modelo.findOne(query)] *)
Definition findOne (f : list Condicion) (coleccion : list (gmap string JsVal))
    : option (gmap string JsVal) :=
  List.find (evaluar f) coleccion.

End Mongo.

(** ** HTTP handlers and services *)

Module Http.

(** What a handler does with the request: it answers with a status and a
    JSON body, or hands an error to [next]. *)
Inductive Respuesta :=
| Json (status : Z) (cuerpo : JsVal)
| Next (error : JsError).

(** What the environment decides for one request: the identifier generated
    for a new document and the clock. *)
Record Entorno := {
  nuevoId : string;
  ahora : Z
}.

(** [crearError(mensaje, statusCode)] of middleware/errorHandler.js *)
Definition crearError (mensaje : string) (statusCode : Z) : JsError :=
  Error mensaje (Some statusCode).

(** A destructuring default: [const { x = d } = o] *)
Definition porDefecto (v d : JsVal) : JsVal :=
  if is_undefined v then d else v.

(** The own properties that [{ ...v }] copies from an object; the indexed
    entries of a string or an array are not modelled. *)
Definition propias (v : JsVal) : gmap string JsVal :=
  match v with
  | VObj o => o
  | _ => ∅
  end.

Definition objeto (entradas : list (string * JsVal)) : JsVal :=
  VObj (list_to_map entradas).

(** [v === "texto"] *)
Definition esTexto (v : JsVal) (texto : string) : bool :=
  match v with
  | VStr s => String.eqb s texto
  | _ => false
  end.

End Http.
Export Http.

(** *** src/middleware/validacion.js *)

Module Validacion.



End Validacion.

(** *** src/controllers/juegoController.js (the handlers that query the model) *)

Module JuegoController.
Import Mongo.

Definition ordenamientoValido : list string :=
  ["nombre"; "año"; "fechaCreacion"; "genero"; "plataforma"].

(** [ordenamientoValido.includes(ordenarPor)] *)
Definition incluye (l : list string) (v : JsVal) : bool :=
  match v with
  | VStr s => bool_decide (s ∈ l)
  | _ => false
  end.

(** The query that [obtenerTodosLosJuegos] builds from [req.query]. *)
Definition consultaTodosLosJuegos (rt : Runtime) (query : gmap string JsVal)
    : Res Consulta :=
  let limite := leer query "limite" in
  let genero := leer query "genero" in
  let plataforma := leer query "plataforma" in
  let buscar := leer query "buscar" in
  let completado := leer query "completado" in
  let ordenarPor := porDefecto (leer query "ordenarPor") (VStr "fechaCreacion") in
  let orden := porDefecto (leer query "orden") (VStr "desc") in
  f1 <- (if truthy genero
         then re <- RegExpI rt (ToString rt genero) ;; Ok [Coincide "genero" re]
         else Ok []) ;;
  f2 <- (if truthy plataforma
         then re <- RegExpI rt (ToString rt plataforma) ;; Ok [Coincide "plataforma" re]
         else Ok []) ;;
  let f3 := if negb (is_undefined completado)
            then [Igual "completado" (VBool (esTexto completado "true"))] else [] in
  f4 <- (if truthy buscar
         then re <- RegExpI rt (ToString rt buscar) ;;
              Ok [Alguna [("nombre", re); ("desarrollador", re); ("tienda", re)]]
         else Ok []) ;;
  let query0 := find (f1 ++ f2 ++ f3 ++ f4) in
  let query1 :=
    if incluye ordenamientoValido ordenarPor
    then conSort (ToString rt ordenarPor) (if esTexto orden "asc" then 1 else -1) query0
    else query0 in
  let query2 :=
    if truthy limite
       && negb (match Number rt limite with NaN => true | _ => false end)
       && Num.menorNum (Fin 0) (Number rt limite)
    then conLimit (Num.enteroDe (Num.deEntero (Num.parseInt rt limite))) query1
    else query1 in
  Ok query2.

Definition obtenerTodosLosJuegos (rt : Runtime) (odm : Odm)
    (query : gmap string JsVal) (s : Store) : Respuesta :=
  match
    (consulta <- consultaTodosLosJuegos rt query ;;
     juegos <- exec odm consulta (juegos s) ;;
     juegosFormateados <- Transformer.transformarArrayAFrontend rt (VArr (VObj <$> juegos)) ;;
     Ok (Json 200 (VArr juegosFormateados)))
  with
  | Ok r => r
  | Throw e => Next e
  end.

Definition obtenerJuegoPorId (rt : Runtime) (id : JsVal) (s : Store) : Respuesta :=
  match
    (juegoEncontrado <- findById (juegos s) id ;;
     match juegoEncontrado with
     | None => Ok (Next (crearError "Juego no encontrado" 404))
     | Some juego =>
         juegoFormateado <- Transformer.transformarAFrontend rt (VObj juego) ;;
         Ok (Json 200 juegoFormateado)
     end)
  with
  | Ok r => r
  | Throw e => Next e
  end.

Definition crearJuego (rt : Runtime) (odm : Odm) (env : Entorno)
    (body : JsVal) (s : Store) : Respuesta * Store :=
  match
    (nombre <- prop body "nombre" ;;
     re <- RegExpI rt ("^" +:+ ToString rt nombre +:+ "$") ;;
     match findOne [Coincide "nombre" re] (juegos s) with
     | Some _ => Ok (Next (crearError "Ya existe un juego con ese nombre" 409), s)
     | None =>
         campos <- nuevoJuego odm (<["fechaCreacion" := VDate (ahora env)]> (propias body)) ;;
         guardado <- insertar (nuevoId env) campos (juegos s) ;;
         let s' := {| juegos := guardado.2; resenias := resenias s |} in
         match Transformer.transformarAFrontend rt (VObj guardado.1) with
         | Ok juegoFormateado =>
             Ok (Json 201 (objeto [("mensaje", VStr "Juego creado exitosamente");
                                   ("juego", juegoFormateado)]), s')
         | Throw e => Ok (Next e, s')
         end
     end)
  with
  | Ok r => r
  | Throw e => (Next e, s)
  end.

Definition eliminarJuego (id : JsVal) (s : Store) : Respuesta * Store :=
  match findByIdAndDelete (juegos s) id with
  | Throw e => (Next e, s)
  | Ok (None, _) => (Next (crearError "Juego no encontrado" 404), s)
  | Ok (Some juegoEliminado, restantes) =>
      (Json 200 (objeto [("mensaje", VStr "Juego eliminado exitosamente");
                         ("juego", objeto [("id", leer juegoEliminado "_id");
                                           ("nombre", leer juegoEliminado "nombre")])]),
       {| juegos := restantes; resenias := resenias s |})
  end.

End JuegoController.

(** *** src/services/juegoService.js *)

Module JuegoService.
Import Mongo.

Record Listado := {
  juegos : list JsVal;
  paginaActual : JsNum;
  totalPaginas : JsNum;
  totalJuegos : Z;
  juegosPorPagina : JsNum
}.

(** [(parseInt(pagina) - 1) * parseInt(limite)] *)
Definition calcularSkip (pagina limite : option Z) : JsNum :=
  Num.multiplicar (Num.sumar (Num.deEntero pagina) (Fin (-1))) (Num.deEntero limite).

(** A bound of a range that was set and is NaN. *)
Definition cotaNaN (cota : option JsNum) : bool :=
  from_option Num.esNaN false cota.

(** The query that [obtenerTodos] builds from its filters. The patterns are
    compiled while the filter is built; the filter is cast when the query
    runs, and a NaN does not cast to the Number of the path [año]. *)
Definition consultaObtenerTodos (rt : Runtime) (filtros : gmap string JsVal)
    : Res Consulta :=
  let genero := leer filtros "genero" in
  let plataforma := leer filtros "plataforma" in
  let completado := leer filtros "completado" in
  let buscar := leer filtros "buscar" in
  let anioDesde := leer filtros "añoDesde" in
  let anioHasta := leer filtros "añoHasta" in
  let limite := porDefecto (leer filtros "limite") (VNum (Fin 100)) in
  let pagina := porDefecto (leer filtros "pagina") (VNum (Fin 1)) in
  let ordenarPor := porDefecto (leer filtros "ordenarPor") (VStr "fechaCreacion") in
  let orden := porDefecto (leer filtros "orden") (VStr "desc") in
  f1 <- (if truthy genero
         then re <- RegExpI rt (ToString rt genero) ;; Ok [Coincide "genero" re]
         else Ok []) ;;
  f2 <- (if truthy plataforma
         then re <- RegExpI rt (ToString rt plataforma) ;; Ok [Coincide "plataforma" re]
         else Ok []) ;;
  let f3 := if negb (is_undefined completado)
            then [Igual "completado" (VBool (esTexto completado "true"))] else [] in
  let desde := if truthy anioDesde
               then Some (Num.deEntero (Num.parseInt rt anioDesde)) else None in
  let hasta := if truthy anioHasta
               then Some (Num.deEntero (Num.parseInt rt anioHasta)) else None in
  let f4 := if truthy anioDesde || truthy anioHasta
            then [Rango "año" None desde hasta]
            else [] in
  f5 <- (if truthy buscar
         then re <- RegExpI rt (ToString rt buscar) ;;
              Ok [Alguna [("nombre", re); ("desarrollador", re);
                          ("tienda", re); ("resena", re)]]
         else Ok []) ;;
  let skip := calcularSkip (Num.parseInt rt pagina) (Num.parseInt rt limite) in
  if cotaNaN desde || cotaNaN hasta then Throw CastError else
  Ok (conSkip (Num.enteroDe skip)
       (conLimit (Num.enteroDe (Num.deEntero (Num.parseInt rt limite)))
         (conSort (ToString rt ordenarPor) (if esTexto orden "asc" then 1 else -1)
           (find (f1 ++ f2 ++ f3 ++ f4 ++ f5))))).

Definition obtenerTodos (rt : Runtime) (odm : Odm) (filtros : gmap string JsVal)
    (s : Store) : Res Listado :=
  try_catch
    (let limite := porDefecto (leer filtros "limite") (VNum (Fin 100)) in
     let pagina := porDefecto (leer filtros "pagina") (VNum (Fin 1)) in
     consulta <- consultaObtenerTodos rt filtros ;;
     encontrados <- exec odm consulta (Mongo.juegos s) ;;
     let total := countDocuments (filtro consulta) (Mongo.juegos s) in
     formateados <- Transformer.transformarArrayAFrontend rt (VArr (VObj <$> encontrados)) ;;
     Ok {| juegos := formateados;
           paginaActual := Num.deEntero (Num.parseInt rt pagina);
           totalPaginas :=
             Num.ceil (Num.dividir (Num.aDoble total)
                         (Num.deEntero (Num.parseInt rt limite)));
           totalJuegos := total;
           juegosPorPagina := Num.deEntero (Num.parseInt rt limite) |})
    (fun error => Throw (Envuelto "Error obteniendo juegos: " error)).

Definition obtenerPorId (rt : Runtime) (id : JsVal) (s : Store) : Res JsVal :=
  try_catch
    (juego <- findById (Mongo.juegos s) id ;;
     match juego with
     | None => Throw (Error "Juego no encontrado" None)
     | Some juego => Transformer.transformarAFrontend rt (VObj juego)
     end)
    (fun error => Throw (Envuelto "Error obteniendo juego: " error)).

Definition crear (rt : Runtime) (odm : Odm) (env : Entorno)
    (datosJuego : JsVal) (s : Store) : Res JsVal * Store :=
  match
    (nombre <- prop datosJuego "nombre" ;;
     re <- RegExpI rt ("^" +:+ ToString rt nombre +:+ "$") ;;
     match findOne [Coincide "nombre" re] (Mongo.juegos s) with
     | Some _ => Throw (Error "Ya existe un juego con ese nombre" None)
     | None =>
         campos <- nuevoJuego odm
                     (<["fechaCreacion" := VDate (ahora env)]> (propias datosJuego)) ;;
         guardado <- insertar (nuevoId env) campos (Mongo.juegos s) ;;
         Ok (guardado.1, {| Mongo.juegos := guardado.2; resenias := resenias s |})
     end)
  with
  | Ok (juegoGuardado, s') =>
      (try_catch (Transformer.transformarAFrontend rt (VObj juegoGuardado))
         (fun error => Throw (Envuelto "Error creando juego: " error)), s')
  | Throw error => (Throw (Envuelto "Error creando juego: " error), s)
  end.

Definition eliminar (id : JsVal) (s : Store) : Res JsVal * Store :=
  match findByIdAndDelete (Mongo.juegos s) id with
  | Throw error => (Throw (Envuelto "Error eliminando juego: " error), s)
  | Ok (None, _) =>
      (Throw (Envuelto "Error eliminando juego: " (Error "Juego no encontrado" None)), s)
  | Ok (Some juegoEliminado, restantes) =>
      (Ok (objeto [("id", leer juegoEliminado "_id");
                   ("nombre", leer juegoEliminado "nombre");
                   ("mensaje", VStr "Juego eliminado exitosamente")]),
       {| Mongo.juegos := restantes; resenias := resenias s |})
  end.

End JuegoService.

(** *** src/controllers/reseniaController.js and src/services/reseniaService.js *)

Module ReseniaController.
Import Mongo.

(** [findById] answers a document of the model, which is what the mapper
    reads. *)
Definition obtenerReseniaPorId (rt : Runtime) (id : JsVal) (s : Store) : Respuesta :=
  match
    (encontrada <- findById (resenias s) id ;;
     match encontrada with
     | None => Ok (Next (crearError "Reseña no encontrada" 404))
     | Some resenia =>
         let reseniaEncontrada :=
           populate "juegoId" ["nombre"; "genero"] (juegos s)
             (hidratarResenia (DateNow rt) resenia) in
         reseniaFormateada <- Transformer.transformarReseniaAFrontend rt (VObj reseniaEncontrada) ;;
         Ok (Json 200 reseniaFormateada)
     end)
  with
  | Ok r => r
  | Throw e => Next e
  end.

End ReseniaController.

Module ReseniaService.
Import Mongo.

Definition crear (rt : Runtime) (odm : Odm) (env : Entorno)
    (datosResenia : JsVal) (s : Store) : Res JsVal * Store :=
  match
    (juegoId <- prop datosResenia "juegoId" ;;
     contenido <- prop datosResenia "contenido" ;;
     calificacion <- prop datosResenia "calificacion" ;;
     autor <- prop datosResenia "autor" ;;
     juegoExiste <- findById (juegos s) juegoId ;;
     match juegoExiste with
     | None => Throw (Error "Juego no encontrado" None)
     | Some _ =>
         referencia <- castObjectId juegoId ;;
         reseniaExistente <-
           (if truthy autor && negb (esTexto autor "Anónimo")
            then Ok (findOne [Igual "juegoId" (from_option VOid VNull referencia);
                              Igual "autor" autor] (resenias s))
            else Ok None) ;;
         match reseniaExistente with
         | Some _ => Throw (Error "Ya tienes una reseña para este juego" None)
         | None =>
             recortado <- match contenido with
                          | VStr texto => Ok (VStr (trim rt texto))
                          | _ => Throw TypeError
                          end ;;
             campos <- nuevaResenia odm (list_to_map
                         [ ("juegoId", juegoId);
                           ("contenido", recortado);
                           ("calificacion", calificacion);
                           ("autor", or_ autor (VStr "Anónimo"));
                           ("fechaCreacion", VDate (ahora env)) ]) ;;
             guardada <- insertar (nuevoId env) campos (resenias s) ;;
             Ok (guardada.1, {| juegos := juegos s; resenias := guardada.2 |})
         end
     end)
  with
  | Ok (reseniaGuardada, s') =>
      (try_catch
         (reseniaCompleta <- findById (resenias s') (leer reseniaGuardada "_id") ;;
          Transformer.transformarReseniaAFrontend rt
            (from_option
               (fun r => VObj (populate "juegoId" ["nombre"; "genero"] (juegos s')
                                 (hidratarResenia (DateNow rt) r)))
               VNull reseniaCompleta))
         (fun error => Throw (Envuelto "Error creando reseña: " error)), s')
  | Throw error => (Throw (Envuelto "Error creando reseña: " error), s)
  end.

End ReseniaService.

(** *** funciones/resenias/post.js *)

Module FuncionesResenias.
Import Mongo.

Definition crearResenia (rt : Runtime) (odm : Odm) (env : Entorno)
    (body : JsVal) (s : Store) : Respuesta * Store :=
  match
    (juegoId <- prop body "juegoId" ;;
     comentario <- prop body "comentario" ;;
     puntuacion <- prop body "puntuacion" ;;
     nombreUsuario <- prop body "nombreUsuario" ;;
     if negb (Validation.validarObjectId rt juegoId)
     then Ok (Json 400 (objeto [("error", VStr "ID de juego no válido")]), s) else
     juegoExiste <- findById (juegos s) juegoId ;;
     match juegoExiste with
     | None => Ok (Json 404 (objeto [("error", VStr "Juego no encontrado")]), s)
     | Some _ =>
         if negb (truthy comentario) || negb (truthy puntuacion) || negb (truthy nombreUsuario)
         then Ok (Json 400 (objeto
                    [("error", VStr "Faltan datos requeridos");
                     ("detalles",
                       VArr [VStr "comentario"; VStr "puntuacion";
                             VStr "nombreUsuario son requeridos"])]), s)
         else if Num.menorNum (Number rt puntuacion) (Fin 1)
                 || Num.menorNum (Fin 5) (Number rt puntuacion)
         then Ok (Json 400 (objeto
                    [("error", VStr "Puntuación inválida");
                     ("detalles", VArr [VStr "La puntuación debe estar entre 1 y 5"])]), s)
         else
           campos <- nuevaResenia odm (list_to_map
                       [ ("juegoId", juegoId);
                         ("comentario", comentario);
                         ("puntuacion", puntuacion);
                         ("nombreUsuario", nombreUsuario);
                         ("fechaCreacion", VDate (ahora env)) ]) ;;
           guardada <- insertar (nuevoId env) campos (resenias s) ;;
           Ok (Json 201 (VObj (populate "juegoId" ["titulo"] (juegos s) guardada.1)),
               {| juegos := juegos s; resenias := guardada.2 |})
     end)
  with
  | Ok r => r
  | Throw e => (Next e, s)
  end.

End FuncionesResenias.

(** *** src/services/estadisticasService.js *)

Module EstadisticasService.
Import Mongo.

(** The truth value of an expression in [$cond]. *)
Definition condVerdadero (v : JsVal) : bool :=
  match v with
  | VUndefined | VNull | VBool false => false
  | VNum (Fin q) => negb (Num.esCero q)
  | _ => true
  end.

(** [{ $sum: { $cond: [c, 1, 0] } }] and [{ $sum: 1 }]: an integer count,
    which the arithmetic operators convert to binary64 ([Num.aDoble]). *)
Definition contar {A} (c : A -> bool) (docs : list A) : Z :=
  Z.of_nat (length (List.filter c docs)).

Definition numeros (vs : list JsVal) : list JsNum :=
  omap (fun v => match v with VNum n => Some n | _ => None end) vs.

(** [{ $sum: "$campo" }]: the values that are not numbers are ignored. The
    sum is rounded after each addition; the server keeps a more precise
    accumulator, so its last digits may differ. *)
Definition acumSum (vs : list JsVal) : JsNum :=
  foldl Num.sumar (Fin 0) (numeros vs).

(** [{ $avg: "$campo" }]: [null] when no value is a number. *)
Definition acumAvg (vs : list JsVal) : JsVal :=
  match numeros vs with
  | [] => VNull
  | ns => VNum (Num.dividir (foldl Num.sumar (Fin 0) ns)
                  (Num.aDoble (Z.of_nat (length ns))))
  end.

(** [{ $min: "$campo" }] and [{ $max: "$campo" }]: [null] and missing values
    are ignored. *)
Definition acumExtremo (le : JsVal -> JsVal -> bool) (vs : list JsVal) : JsVal :=
  foldl (fun m v => if is_nullish v then m
                    else if is_nullish m then v
                    else if le v m then v else m) VNull vs.

(** [{ $divide: [a, b] }]: the server refuses a zero divisor. *)
Definition divide (a b : JsNum) : Res JsNum :=
  match b with
  | Fin y => if Num.esCero y then Throw (MongoError 16608) else Ok (Num.dividir a b)
  | _ => Ok (Num.dividir a b)
  end.

(** [{ $round: [x, lugares] }] on a double: the binary64 number nearest to
    the decimal rounding of the value of [x]. *)
Definition round (lugares : Z) (x : JsNum) : JsNum :=
  match x with
  | Fin q => Num.binary64 (Num.redondear lugares q)
  | _ => x
  end.

Definition roundVal (lugares : Z) (v : JsVal) : JsVal :=
  match v with
  | VNum n => VNum (round lugares n)
  | _ => VNull
  end.

Record GrupoJuegos := {
  g_totalJuegos : Z;
  g_juegsCompletados : Z;
  g_horasTotales : JsNum;
  g_promedioHoras : JsVal;
  g_añoMasAntiguo : JsVal;
  g_añoMasReciente : JsVal;
  g_juegsConImagen : Z
}.

(** The [$group] stage with [_id: null]: one group for a collection that is
    not empty, no group at all for an empty one. *)
Definition agrupar (odm : Odm) (docs : list (gmap string JsVal)) : list GrupoJuegos :=
  match docs with
  | [] => []
  | _ =>
      [ {| g_totalJuegos := contar (fun _ => true) docs;
           g_juegsCompletados := contar (fun d => condVerdadero (leer d "completado")) docs;
           g_horasTotales := acumSum ((fun d => leer d "horasJugadas") <$> docs);
           g_promedioHoras := acumAvg ((fun d => leer d "horasJugadas") <$> docs);
           g_añoMasAntiguo := acumExtremo (bsonLeb odm) ((fun d => leer d "año") <$> docs);
           g_añoMasReciente :=
             acumExtremo (fun a b => bsonLeb odm b a) ((fun d => leer d "año") <$> docs);
           g_juegsConImagen :=
             contar (fun d => negb (igualBson (leer d "imagen") (VStr ""))) docs |} ]
  end.

(** The object that [obtenerEstadisticasJuegos] returns; the fallback object
    has no year and no image percentage. *)
Record EstadisticasJuegos := {
  totalJuegos : Z;
  juegsCompletados : Z;
  juegosPendientes : Z;
  horasTotales : JsNum;
  promedioHoras : JsVal;
  añoMasAntiguo : option JsVal;
  añoMasReciente : option JsVal;
  porcentajeCompletado : JsNum;
  porcentajeConImagen : option JsNum
}.

(** The [$project] stage. *)
Definition proyectar (g : GrupoJuegos) : Res EstadisticasJuegos :=
  fraccionCompletado <-
    divide (Num.aDoble (g_juegsCompletados g)) (Num.aDoble (g_totalJuegos g)) ;;
  fraccionConImagen <-
    divide (Num.aDoble (g_juegsConImagen g)) (Num.aDoble (g_totalJuegos g)) ;;
  Ok {| totalJuegos := g_totalJuegos g;
        juegsCompletados := g_juegsCompletados g;
        juegosPendientes := g_totalJuegos g - g_juegsCompletados g;
        horasTotales := round 1 (g_horasTotales g);
        promedioHoras := roundVal 1 (g_promedioHoras g);
        añoMasAntiguo := Some (g_añoMasAntiguo g);
        añoMasReciente := Some (g_añoMasReciente g);
        porcentajeCompletado :=
          round 1 (Num.multiplicar fraccionCompletado (Fin 100));
        porcentajeConImagen :=
          Some (round 1 (Num.multiplicar fraccionConImagen (Fin 100))) |}.

Definition obtenerEstadisticasJuegos (odm : Odm) (s : Store) : Res EstadisticasJuegos :=
  try_catch
    (estadisticas <- mapM proyectar (agrupar odm (juegos s)) ;;
     Ok (match estadisticas with
         | primera :: _ => primera
         | [] => {| totalJuegos := 0;
                    juegsCompletados := 0;
                    juegosPendientes := 0;
                    horasTotales := Fin 0;
                    promedioHoras := VNum (Fin 0);
                    añoMasAntiguo := None;
                    añoMasReciente := None;
                    porcentajeCompletado := Fin 0;
                    porcentajeConImagen := None |}
         end))
    (fun error => Throw (Envuelto "Error obteniendo estadísticas de juegos: " error)).

(** [obtenerJuegosMasJugados(limite = 10)] *)
Definition obtenerJuegosMasJugados (odm : Odm) (limite : option Z) (s : Store)
    : Res (list (gmap string JsVal)) :=
  try_catch
    (encontrados <-
       exec odm
         (conLimit (Some (default 10 limite))
            (conSort "horasJugadas" (-1)
               (find [Rango "horasJugadas" (Some (Fin 0)) None None])))
         (juegos s) ;;
     Ok (select ["nombre"; "genero"; "plataforma"; "horasJugadas"; "completado"; "imagen"]
           <$> encontrados))
    (fun error => Throw (Envuelto "Error obteniendo juegos más jugados: " error)).

End EstadisticasService.

(** ** Specification vocabulary *)

Module Vocabulario.
Import Caracteres.

(** The runtime's regular expressions agree with the fragment of [RegExp]
    wherever the fragment is defined, on every string. [RegExp] matches
    byte by byte, so this describes the runtime of [Prueba]; a JavaScript
    engine, which matches character by character, agrees with the fragment
    on ASCII strings, and on every string for the patterns of
    [conformeLiteral]. *)
Definition conforme (rt : Runtime) : Prop :=
  forall fuente r,
    RegExp.nuevo fuente = Some r ->
    RegExpI rt fuente =
    match r with
    | Ok p => Ok (RegExp.test p)
    | Throw e => Throw e
    end.

(** A title without any syntax character of the pattern language. *)
Definition esLiteral (c : ascii) : bool :=
  negb (RegExp.fueraDeFragmento c) &&
  negb (bool_decide (c ∈ ["("; ")"; "."; "^"; "$"]%char)).

Definition tituloSencillo (nombre : string) : bool := todos esLiteral nombre.

(** The atoms of a pattern made of literal characters only. *)
Fixpoint literales (s : string) : list RegExp.Atomo :=
  match s with
  | EmptyString => []
  | String c s' => RegExp.Lit c :: literales s'
  end.

(** Equality of two titles up to the case of their ASCII letters. *)
Fixpoint igualSinCaja (a b : string) : bool :=
  match a, b with
  | EmptyString, EmptyString => true
  | String x a', String y b' => RegExp.igualSinCaja x y && igualSinCaja a' b'
  | _, _ => false
  end.

(** Some stored item has the given title up to case. *)
Definition existeTitulo (nombre : string) (juegos : list (gmap string JsVal)) : bool :=
  existsb (fun d => match d !! "nombre" with
                    | Some (VStr s) => igualSinCaja nombre s
                    | _ => false
                    end) juegos.

(** What a JavaScript engine does with the pattern [^nombre$] and the flag
    [i] when the title has no syntax character: the pattern matches the
    strings equal to the title up to the case of the ASCII letters. The
    tested string is arbitrary: a character outside ASCII equals no ASCII
    letter, in whatever case. *)
Definition conformeLiteral (rt : Runtime) : Prop :=
  forall nombre,
    tituloSencillo nombre = true ->
    exists re,
      RegExpI rt ("^" +:+ nombre +:+ "$") = Ok re /\
      forall s, re s = igualSinCaja nombre s.

(** The identifiers the driver generates: 24 hex digits in lower case. *)
Definition idCanonico (hex : string) : bool :=
  Nat.eqb (String.length hex) 24 &&
  todos (fun c => esDigito c || entre 97 102 c) hex.

(** A date field of a stored record converts without error. *)
Definition fechaValida (rt : Runtime) (v : JsVal) : Prop :=
  truthy v = true -> is_Some (newDate rt v).



(** A field of a stored record holds the boolean [true]. *)
Definition verdadero (campo : string) (d : gmap string JsVal) : bool :=
  match leer d campo with
  | VBool true => true
  | _ => false
  end.

(** A field of a stored record holds a boolean, as the schema declares. *)
Definition booleano (campo : string) (d : gmap string JsVal) : Prop :=
  exists b, leer d campo = VBool b.

(** The percentage that the server computes from two counts:
    [{ $round: [{ $multiply: [{ $divide: [c, t] }, 100] }, 1] }]. *)
Definition porcentaje (c t : Z) : JsNum :=
  EstadisticasService.round 1
    (Num.multiplicar (Num.dividir (Num.aDoble c) (Num.aDoble t)) (Fin 100)).

(** A number between 0 and 100 at distance at most 0.05 + 10^-13 from the
    share [c / t * 100]. *)
Definition cercaDeLaCuota (c t : Z) (x : JsNum) : Prop :=
  exists p,
    x = Fin p /\
    (0 <= p <= 100)%Q /\
    (Qabs (p - inject_Z c / inject_Z t * 100) <= (1 # 20) + (1 # 10000000000000))%Q.


End Vocabulario.

(** ** Concrete requests and stores *)

Module Prueba.
Import Mongo.

Definition RegExpFragmento (fuente : string) : Res (string -> bool) :=
  match RegExp.nuevo fuente with
  | Some (Ok p) => Ok (RegExp.test p)
  | Some (Throw e) => Throw e
  | None => Throw SyntaxError
  end.

Definition rt : Runtime := {|
  StringToNumber := fun s => Num.deEntero (Num.parseIntTexto s);
  NumberToString := fun _ => "NaN";
  DateToString := fun _ => "Thu Jan 01 1970";
  ArrayToString := fun _ => "";
  DateParse := fun _ => None;
  ISOString := fun _ => "1970-01-01T00:00:00.000Z";
  trim := fun s => s;
  RegExpI := RegExpFragmento;
  anioActual := 2025;
  DateNow := 1750000000000
|}.

Definition odm : Odm := {|
  bsonLeb := fun a b =>
    match a, b with
    | VNum x, VNum y => Num.menorIgualNum x y
    | _, _ => true
    end;
  nuevoJuego := Ok;
  nuevaResenia := Ok
|}.

Definition env : Entorno :=
  {| nuevoId := "65f0c0ffee00000000000002"; ahora := 1700000000000 |}.

Definition juego (hex nombre : string) (horas : Q) (completado : bool)
    : gmap string JsVal :=
  list_to_map
    [ ("_id", VOid hex);
      ("nombre", VStr nombre);
      ("año", VNum (Fin 2001));
      ("genero", VStr "Acción");
      ("plataforma", VStr "PC");
      ("completado", VBool completado);
      ("horasJugadas", VNum (Fin horas)) ].

Definition halo : gmap string JsVal :=
  juego "65f0c0ffee00000000000001" "Halo (2001)" 5 false.

Definition resenia : gmap string JsVal :=
  list_to_map
    [ ("_id", VOid "65f0c0ffee0000000000000a");
      ("juegoId", VOid "65f0c0ffee00000000000001");
      ("contenido", VStr "Una campaña memorable");
      ("calificacion", VNum (Fin 5));
      ("fechaCreacion", VDate 1700000000000) ].

Definition biblioteca : Store :=
  {| juegos := [halo]; resenias := [resenia] |}.

(** A request to create an item whose title is the stored one up to case. *)
Definition haloRepetido : JsVal :=
  objeto [ ("nombre", VStr "HALO (2001)");
           ("año", VNum (Fin 2001));
           ("genero", VStr "Acción");
           ("plataforma", VStr "Xbox") ].

(** Two requests to review an item that is not stored: one with a well
    formed identifier, one with a malformed identifier. *)
Definition reseniaSinJuego : gmap string JsVal :=
  list_to_map
    [ ("juegoId", VStr "65f0c0ffee000000000000ff");
      ("contenido", VStr "Una reseña cualquiera") ].

Definition reseniaIdMalformado : gmap string JsVal :=
  list_to_map
    [ ("juegoId", VStr "abc");
      ("contenido", VStr "Una reseña cualquiera") ].



(** The titles of a listing. *)
Definition nombres (l : list JsVal) : list JsVal :=
  fmap (fun j => match prop j "nombre" with
                 | Ok n => n
                 | Throw _ => VUndefined
                 end) l.

(** Three items with 0, 5 and 10 hours. *)
Definition tresJuegos : Store :=
  {| juegos := [ juego "65f0c0ffee00000000000011" "Tetris" 0 false;
                 juego "65f0c0ffee00000000000012" "Doom" 5 true;
                 juego "65f0c0ffee00000000000013" "Quake" 10 false ];
     resenias := [] |}.

End Prueba.

(** ** utils/validation.js: validation of items and of listing parameters *)

Module ValidationJuegos.

(** [parseInt(s, 10)]: the digits are decimal and a [0x] prefix is not
    recognised; [None] is NaN. *)
Definition parseIntTexto10 (s : string) : option Z :=
  let s1 := Num.quitarEspacios s in
  let '(signo, s2) :=
    match s1 with
    | String c r =>
        if Ascii.eqb c "-" then (-1, r)
        else if Ascii.eqb c "+" then (1, r) else (1, s1)
    | EmptyString => (1, s1)
    end in
  z ← Num.leerDigitos 10 None s2; Some (signo * z).

Definition parseInt10 (rt : Runtime) (v : JsVal) : option Z :=
  match v with
  | VStr s => parseIntTexto10 s
  | VNum (Fin q) =>
      if Qeq_bool q (inject_Z (Qfloor q)) && (Z.abs (Qfloor q) <? 10 ^ 21)
      then Some (Qfloor q)
      else parseIntTexto10 (ToString rt v)
  | _ => parseIntTexto10 (ToString rt v)
  end.

(** [!v || typeof v !== "string" || v.trim() === ""] *)
Definition textoAusente (rt : Runtime) (v : JsVal) : bool :=
  negb (truthy v) ||
  match v with
  | VStr s => String.eqb (trim rt s) ""
  | _ => true
  end.

Definition mensajeAnio (rt : Runtime) : string :=
  "El año de lanzamiento debe estar entre 1950 y "
  +:+ NumberToString rt (Num.deZ (anioActual rt + 5)).

Record Validacion := {
  valido : bool;
  errores : list string
}.

(** [validarJuego(datos)]: the messages are pushed in this order. *)
Definition validarJuego (rt : Runtime) (datos : gmap string JsVal) : Validacion :=
  let e1 := if textoAusente rt (leer datos "titulo")
            then ["El título es requerido y debe ser un texto válido"] else [] in
  let e2 := if textoAusente rt (leer datos "genero")
            then ["El género es requerido"] else [] in
  let e3 := if textoAusente rt (leer datos "plataforma")
            then ["La plataforma es requerida"] else [] in
  let anio := leer datos "añoLanzamiento" in
  let e4 :=
    if negb (is_nullish anio) && negb (esTexto anio "")
    then match parseInt10 rt anio with
         | None => [mensajeAnio rt]
         | Some a =>
             if (a <? 1950) || (anioActual rt + 5 <? a) then [mensajeAnio rt] else []
         end
    else [] in
  let tienda := leer datos "tienda" in
  let e5 :=
    if negb (is_nullish tienda)
    then match tienda with
         | VStr _ => []
         | _ => ["La tienda debe ser un texto válido"]
         end
    else [] in
  let errores := e1 ++ e2 ++ e3 ++ e4 ++ e5 in
  {| valido := match errores with [] => true | _ => false end;
     errores := errores |}.

(** The object that [sanitizarConsulta] returns: a key that was not set is
    [None]. *)
Record ConsultaSanitizada := {
  c_limite : option Z;
  c_genero : option string;
  c_plataforma : option string;
  c_buscar : option string
}.

(** [consulta.campo.toString().trim()] for a truthy value *)
Definition textoRecortado (rt : Runtime) (v : JsVal) : option string :=
  if truthy v then Some (trim rt (ToString rt v)) else None.

Definition sanitizarConsulta (rt : Runtime) (consulta : gmap string JsVal)
    : ConsultaSanitizada :=
  {| c_limite :=
       if truthy (leer consulta "limite")
       then match parseInt10 rt (leer consulta "limite") with
            | Some limite =>
                if (0 <? limite) && (limite <=? 100) then Some limite else Some 50
            | None => Some 50
            end
       else None;
     c_genero := textoRecortado rt (leer consulta "genero");
     c_plataforma := textoRecortado rt (leer consulta "plataforma");
     c_buscar := textoRecortado rt (leer consulta "buscar") |}.

End ValidationJuegos.

(** ** funciones/juegos: the handlers of the first schema *)

Module FuncionesJuegos.
Import Mongo.

Definition errorInterno : Respuesta :=
  Json 500 (objeto [("error", VStr "Error interno del servidor")]).

(** get.js *)
Definition obtenerJuegoPorId (rt : Runtime) (id : JsVal) (s : Store) : Respuesta :=
  match
    (if negb (Validation.validarObjectId rt id)
     then Ok (Json 400 (objeto [("error", VStr "ID no válido")])) else
     juegoEncontrado <- findById (juegos s) id ;;
     match juegoEncontrado with
     | None => Ok (Json 404 (objeto [("error", VStr "Juego no encontrado")]))
     | Some juego =>
         juegoFormateado <- TransformerLegacy.transformarAFrontend rt (VObj juego) ;;
         Ok (Json 200 juegoFormateado)
     end)
  with
  | Ok r => r
  | Throw _ => errorInterno
  end.

(** The query that [obtenerTodosLosJuegos] of get.js builds. *)
Definition consultaTodosLosJuegos (rt : Runtime) (query : gmap string JsVal)
    : Res Consulta :=
  let consultaSanitizada := ValidationJuegos.sanitizarConsulta rt query in
  f1 <- match ValidationJuegos.c_genero consultaSanitizada with
        | Some genero =>
            if negb (String.eqb genero "")
            then re <- RegExpI rt genero ;; Ok [Coincide "genero" re]
            else Ok []
        | None => Ok []
        end ;;
  f2 <- match ValidationJuegos.c_plataforma consultaSanitizada with
        | Some plataforma =>
            if negb (String.eqb plataforma "")
            then re <- RegExpI rt plataforma ;; Ok [Coincide "plataforma" re]
            else Ok []
        | None => Ok []
        end ;;
  f3 <- match ValidationJuegos.c_buscar consultaSanitizada with
        | Some buscar =>
            if negb (String.eqb buscar "")
            then re <- RegExpI rt buscar ;; Ok [Coincide "titulo" re]
            else Ok []
        | None => Ok []
        end ;;
  let query0 := find (f1 ++ f2 ++ f3) in
  Ok match ValidationJuegos.c_limite consultaSanitizada with
     | Some limite => if limite =? 0 then query0 else conLimit (Some limite) query0
     | None => query0
     end.

Definition obtenerTodosLosJuegos (rt : Runtime) (odm : Odm)
    (query : gmap string JsVal) (s : Store) : Respuesta :=
  match
    (consulta <- consultaTodosLosJuegos rt query ;;
     juegos <- exec odm consulta (juegos s) ;;
     juegosFormateados <-
       TransformerLegacy.transformarArrayAFrontend rt (VArr (VObj <$> juegos)) ;;
     Ok (Json 200 (VArr juegosFormateados)))
  with
  | Ok r => r
  | Throw _ => errorInterno
  end.

(** post.js *)
Definition crearJuego (rt : Runtime) (odm : Odm) (env : Entorno)
    (body : JsVal) (s : Store) : Respuesta * Store :=
  match
    (datosBackend <- TransformerLegacy.transformarABackend body ;;
     let validacion := ValidationJuegos.validarJuego rt datosBackend in
     if negb (ValidationJuegos.valido validacion)
     then Ok (Json 400 (objeto
                [("error", VStr "Datos de validación incorrectos");
                 ("detalles", VArr (VStr <$> ValidationJuegos.errores validacion))]), s)
     else
       campos <- nuevoJuego odm (<["fechaCreacion" := VDate (ahora env)]> datosBackend) ;;
       guardado <- insertar (nuevoId env) campos (juegos s) ;;
       let s' := {| juegos := guardado.2; resenias := resenias s |} in
       match TransformerLegacy.transformarAFrontend rt (VObj guardado.1) with
       | Ok juegoFormateado => Ok (Json 201 juegoFormateado, s')
       | Throw e => Ok (Next e, s')
       end)
  with
  | Ok r => r
  | Throw e => (Next e, s)
  end.

(** What delete.js answers: a JSON response, or a status without a body. *)
Inductive Salida :=
| Con (respuesta : Respuesta)
| SinCuerpo (status : Z).

(** delete.js *)
Definition eliminarJuego (rt : Runtime) (id : JsVal) (s : Store) : Salida * Store :=
  if negb (Validation.validarObjectId rt id)
  then (Con (Json 400 (objeto [("error", VStr "ID no válido")])), s) else
  match findByIdAndDelete (juegos s) id with
  | Throw _ => (Con errorInterno, s)
  | Ok (None, _) => (Con (Json 404 (objeto [("error", VStr "Juego no encontrado")])), s)
  | Ok (Some _, restantes) =>
      (SinCuerpo 204, {| juegos := restantes; resenias := resenias s |})
  end.

End FuncionesJuegos.

(** ** src/middleware/validacion.js and src/middleware/errorHandler.js *)

Module Middleware.

(** Two more functions of the runtime that the middleware calls. *)
Record Texto := {
  parseFloatTexto : string -> JsNum;    (* parseFloat("...") *)
  longitud : string -> Z                (* s.length, in UTF-16 code units *)
}.

(** [v.trim()]: only a string has the method. *)
Definition recortar (rt : Runtime) (v : JsVal) : Res JsVal :=
  match v with
  | VStr s => Ok (VStr (trim rt s))
  | _ => Throw TypeError
  end.

(** [parseFloat(v)] *)
Definition parseFloat (rt : Runtime) (tx : Texto) (v : JsVal) : JsNum :=
  match v with
  | VNum n => n
  | VStr s => parseFloatTexto tx s
  | _ => parseFloatTexto tx (ToString rt v)
  end.

(** [if (datos.campo) sanitizado.campo = datos.campo.trim()] *)
Definition copiarRecortado (rt : Runtime) (datos : JsVal) (campo : string)
    (sanitizado : gmap string JsVal) : Res (gmap string JsVal) :=
  v <- prop datos campo ;;
  if truthy v
  then recortado <- recortar rt v ;; Ok (<[campo := recortado]> sanitizado)
  else Ok sanitizado.

Definition sanitizarJuego (rt : Runtime) (tx : Texto) (datos : JsVal)
    : Res (gmap string JsVal) :=
  s1 <- copiarRecortado rt datos "nombre" ∅ ;;
  s2 <- copiarRecortado rt datos "genero" s1 ;;
  s3 <- copiarRecortado rt datos "plataforma" s2 ;;
  s4 <- copiarRecortado rt datos "imagen" s3 ;;
  s5 <- copiarRecortado rt datos "resena" s4 ;;
  s6 <- copiarRecortado rt datos "desarrollador" s5 ;;
  s7 <- copiarRecortado rt datos "tienda" s6 ;;
  anio <- prop datos "año" ;;
  let s8 := if truthy anio
            then <["año" := VNum (Num.deEntero (Num.parseInt rt anio))]> s7 else s7 in
  horasJugadas <- prop datos "horasJugadas" ;;
  let s9 := if truthy horasJugadas
            then <["horasJugadas" := VNum (parseFloat rt tx horasJugadas)]> s8 else s8 in
  completado <- prop datos "completado" ;;
  Ok (if negb (is_undefined completado)
      then <["completado" := VBool (truthy completado)]> s9 else s9).

Definition sanitizarResenia (rt : Runtime) (datos : JsVal) : Res (gmap string JsVal) :=
  juegoId <- prop datos "juegoId" ;;
  let s1 : gmap string JsVal := if truthy juegoId then {[ "juegoId" := juegoId ]} else ∅ in
  s2 <- copiarRecortado rt datos "contenido" s1 ;;
  calificacion <- prop datos "calificacion" ;;
  let s3 := if truthy calificacion
            then <["calificacion" := VNum (Num.deEntero (Num.parseInt rt calificacion))]> s2
            else s2 in
  copiarRecortado rt datos "autor" s3.

(** [!v || typeof v !== 'string' || v.trim().length === 0] *)
Definition textoAusente (rt : Runtime) (v : JsVal) : bool :=
  negb (truthy v) ||
  match v with
  | VStr s => String.eqb (trim rt s) ""
  | _ => true
  end.

(** [Number.isInteger(v)], with the integer when it holds *)
Definition entero (v : JsVal) : option Z :=
  match v with
  | VNum (Fin q) => if Qeq_bool q (inject_Z (Qfloor q)) then Some (Qfloor q) else None
  | _ => None
  end.

(** [v.length] *)
Definition propLength (tx : Texto) (v : JsVal) : JsVal :=
  match v with
  | VStr s => VNum (Num.deZ (longitud tx s))
  | VArr l => VNum (Num.deZ (Z.of_nat (length l)))
  | VObj o => leer o "length"
  | _ => VUndefined
  end.

(** [v && v.length > n] *)
Definition excede (rt : Runtime) (tx : Texto) (v : JsVal) (n : Z) : bool :=
  truthy v && Num.menorNum (Num.deZ n) (Number rt (propLength tx v)).

(** [v && typeof v !== 'string'] *)
Definition noEsTexto (v : JsVal) : bool :=
  truthy v && match v with VStr _ => false | _ => true end.

Definition mensajeAnio (rt : Runtime) : string :=
  "Año debe ser un número entero entre 1970 y "
  +:+ NumberToString rt (Num.deZ (anioActual rt + 2)).

(** The messages that [validarJuego] pushes for a body, in order. *)
Definition erroresJuego (rt : Runtime) (tx : Texto) (body : gmap string JsVal)
    : list string :=
  let nombre := leer body "nombre" in
  let anio := leer body "año" in
  let genero := leer body "genero" in
  let plataforma := leer body "plataforma" in
  let imagen := leer body "imagen" in
  let resena := leer body "resena" in
  (if textoAusente rt nombre
   then ["Nombre es requerido y debe ser un texto válido"] else []) ++
  (if negb (truthy anio) ||
      match entero anio with
      | Some a => (a <? 1970) || (anioActual rt + 2 <? a)
      | None => true
      end
   then [mensajeAnio rt] else []) ++
  (if textoAusente rt genero then ["Género es requerido"] else []) ++
  (if textoAusente rt plataforma then ["Plataforma es requerida"] else []) ++
  (if noEsTexto imagen then ["Imagen debe ser una URL válida"] else []) ++
  (if noEsTexto resena then ["Reseña debe ser texto válido"] else []) ++
  (if excede rt tx nombre 100 then ["Nombre no puede exceder 100 caracteres"] else []) ++
  (if excede rt tx resena 1000 then ["Reseña no puede exceder 1000 caracteres"] else []).

(** [errores.join(", ")] *)
Fixpoint unir (errores : list string) : string :=
  match errores with
  | [] => ""
  | [e] => e
  | e :: resto => e +:+ ", " +:+ unir resto
  end.

(** [validarJuego]: the error handed to [next], or the sanitized body that
    replaces [req.body]; an exception leaves the middleware as it is. *)
Definition validarJuego (rt : Runtime) (tx : Texto) (body : JsVal)
    : Res (JsError + gmap string JsVal) :=
  _ <- prop body "nombre" ;;
  match erroresJuego rt tx (propias body) with
  | [] => sanitizado <- sanitizarJuego rt tx body ;; Ok (inr sanitizado)
  | errores => Ok (inl (crearError ("Errores de validación: " +:+ unir errores) 400))
  end.

(** The status of the response of [errorHandler] and the [mensaje] of its
    body. The errors of the model carry what the handler inspects: a
    ValidationError and a CastError their [name], a MongoError its [code],
    an error made by [crearError] its [statusCode]; every other error has
    none of them. For a duplicate key the [mensaje] of the details, spread
    last into the body, replaces "Recurso duplicado"; the key is [_id], the
    only unique index of the two collections. *)
Definition errorHandler (error : JsError) : Z * string :=
  match error with
  | ValidationError => (400, "Error de validación")
  | MongoError code =>
      if code =? 11000 then (409, "Ya existe un registro con ese _id")
      else (500, "Error interno del servidor")
  | CastError => (400, "Formato de datos inválido")
  | Error mensaje (Some statusCode) =>
      if statusCode =? 0 then (500, "Error interno del servidor")
      else (statusCode, mensaje)
  | _ => (500, "Error interno del servidor")
  end.

(** The status of the HTTP response once the error handler has run. *)
Definition estadoFinal (r : Respuesta) : Z :=
  match r with
  | Json status _ => status
  | Next error => (errorHandler error).1
  end.

End Middleware.

(** ** src/controllers/juegoController.js (the handlers that call the service) *)

Module JuegoControllerServicio.
Import Mongo.

Definition listado (l : JuegoService.Listado) : JsVal :=
  objeto
    [ ("juegos", VArr (JuegoService.juegos l));
      ("paginacion", objeto
         [ ("paginaActual", VNum (JuegoService.paginaActual l));
           ("totalPaginas", VNum (JuegoService.totalPaginas l));
           ("totalJuegos", VNum (Num.deZ (JuegoService.totalJuegos l)));
           ("juegosPorPagina", VNum (JuegoService.juegosPorPagina l)) ]) ].

Definition obtenerTodosLosJuegos (rt : Runtime) (odm : Odm)
    (query : gmap string JsVal) (s : Store) : Respuesta :=
  match JuegoService.obtenerTodos rt odm query s with
  | Ok resultado =>
      if negb (truthy (leer query "pagina"))
      then Json 200 (VArr (JuegoService.juegos resultado))
      else Json 200 (listado resultado)
  | Throw error => Next error
  end.

Definition obtenerJuegoPorId (rt : Runtime) (id : JsVal) (s : Store) : Respuesta :=
  match JuegoService.obtenerPorId rt id s with
  | Ok juego => Json 200 juego
  | Throw error => Next error
  end.

Definition crearJuego (rt : Runtime) (odm : Odm) (env : Entorno)
    (body : JsVal) (s : Store) : Respuesta * Store :=
  match prop body "nombre" with
  | Throw error => (Next error, s)
  | Ok _ =>
      match JuegoService.crear rt odm env body s with
      | (Ok juego, s') =>
          (Json 201 (objeto [("mensaje", VStr "Juego creado exitosamente");
                             ("juego", juego)]), s')
      | (Throw error, s') => (Next error, s')
      end
  end.

Definition eliminarJuego (id : JsVal) (s : Store) : Respuesta * Store :=
  match JuegoService.eliminar id s with
  | (Ok resultado, s') => (Json 200 resultado, s')
  | (Throw error, s') => (Next error, s')
  end.

End JuegoControllerServicio.

(** ** src/services/juegoService.js: the listings by completion *)

Module JuegoServiceListados.
Import Mongo.



End JuegoServiceListados.

(** ** src/services/estadisticasService.js: reviews, distributions, comparison *)

Module EstadisticasReportes.
Import Mongo EstadisticasService.

Record EstadisticasResenias := {
  totalResenias : Z;
  promedioCalificacion : JsVal;
  calificacionMaxima : option JsVal;
  calificacionMinima : option JsVal;
  recomendaciones : option Z;
  porcentajeRecomendacion : JsNum
}.

(** The [$group] stage with [_id: null] followed by the [$project] stage. *)
Definition resumirResenias (odm : Odm) (docs : list (gmap string JsVal))
    : Res (list EstadisticasResenias) :=
  match docs with
  | [] => Ok []
  | _ =>
      let total := contar (fun _ => true) docs in
      let recomiendan := contar (fun d => condVerdadero (leer d "recomendaria")) docs in
      let calificaciones := (fun d => leer d "calificacion") <$> docs in
      fraccion <- divide (Num.aDoble recomiendan) (Num.aDoble total) ;;
      Ok [ {| totalResenias := total;
              promedioCalificacion := roundVal 2 (acumAvg calificaciones);
              calificacionMaxima :=
                Some (acumExtremo (fun a b => bsonLeb odm b a) calificaciones);
              calificacionMinima := Some (acumExtremo (bsonLeb odm) calificaciones);
              recomendaciones := Some recomiendan;
              porcentajeRecomendacion :=
                round 1 (Num.multiplicar fraccion (Fin 100)) |} ]
  end.

Definition obtenerEstadisticasResenias (odm : Odm) (s : Store) : Res EstadisticasResenias :=
  try_catch
    (estadisticas <- resumirResenias odm (resenias s) ;;
     Ok (match estadisticas with
         | primera :: _ => primera
         | [] => {| totalResenias := 0;
                    promedioCalificacion := VNum (Fin 0);
                    calificacionMaxima := None;
                    calificacionMinima := None;
                    recomendaciones := None;
                    porcentajeRecomendacion := Fin 0 |}
         end))
    (fun error => Throw (Envuelto "Error obteniendo estadísticas de reseñas: " error)).

(** *** Grouping by the value of a field *)

(** A missing field is grouped under [null]. *)
Definition claveGrupo (v : JsVal) : JsVal :=
  if is_undefined v then VNull else v.

(** The server puts two documents in the same group when their keys compare
    equal in its order of BSON values. The groups are listed here in the
    order in which their keys first occur. *)
Definition mismaClave (odm : Odm) (a b : JsVal) : bool :=
  bsonLeb odm a b && bsonLeb odm b a.

Fixpoint agregarAGrupo (odm : Odm) (clave : JsVal) (d : gmap string JsVal)
    (grupos : list (JsVal * list (gmap string JsVal)))
    : list (JsVal * list (gmap string JsVal)) :=
  match grupos with
  | [] => [(clave, [d])]
  | (k, ds) :: resto =>
      if mismaClave odm k clave then (k, ds ++ [d]) :: resto
      else (k, ds) :: agregarAGrupo odm clave d resto
  end.

Definition agruparPor (odm : Odm) (campo : string) (docs : list (gmap string JsVal))
    : list (JsVal * list (gmap string JsVal)) :=
  foldl (fun grupos d => agregarAGrupo odm (claveGrupo (leer d campo)) d grupos) [] docs.

(** One row of a distribution; the platform rows have no average. *)
Record Distribucion := {
  valor : JsVal;
  cantidad : Z;
  completados : Z;
  pendientes : Z;
  d_horasTotales : JsNum;
  d_promedioHoras : option JsVal;
  d_porcentajeCompletado : JsNum
}.

Definition proyectarDistribucion (conPromedio : bool)
    (grupo : JsVal * list (gmap string JsVal)) : Res Distribucion :=
  let docs := grupo.2 in
  let n := contar (fun _ => true) docs in
  let c := contar (fun d => condVerdadero (leer d "completado")) docs in
  let horas := (fun d => leer d "horasJugadas") <$> docs in
  fraccion <- divide (Num.aDoble c) (Num.aDoble n) ;;
  Ok {| valor := grupo.1;
        cantidad := n;
        completados := c;
        pendientes := n - c;
        d_horasTotales := round 1 (acumSum horas);
        d_promedioHoras := if conPromedio then Some (roundVal 1 (acumAvg horas)) else None;
        d_porcentajeCompletado := round 1 (Num.multiplicar fraccion (Fin 100)) |}.

(** [{ $sort: { cantidad: -1 } }] *)
Definition porCantidad (filas : list Distribucion) : list Distribucion :=
  ordenar (fun a b => cantidad b <=? cantidad a) filas.

Definition obtenerDistribucionGeneros (odm : Odm) (s : Store) : Res (list Distribucion) :=
  try_catch
    (filas <- mapM (proyectarDistribucion true) (agruparPor odm "genero" (juegos s)) ;;
     Ok (porCantidad filas))
    (fun error => Throw (Envuelto "Error obteniendo distribución por géneros: " error)).

Definition obtenerDistribucionPlataformas (odm : Odm) (s : Store)
    : Res (list Distribucion) :=
  try_catch
    (filas <- mapM (proyectarDistribucion false) (agruparPor odm "plataforma" (juegos s)) ;;
     Ok (porCantidad filas))
    (fun error => Throw (Envuelto "Error obteniendo distribución por plataformas: " error)).

(** *** obtenerComparativaGeneros *)

Record FilaComparativa := {
  f_genero : JsVal;
  f_cantidad : Z;
  f_horasPromedio : JsVal;
  f_porcentajeCompletado : JsVal
}.

Definition filaComparativa (grupo : JsVal * list (gmap string JsVal)) : FilaComparativa :=
  let docs := grupo.2 in
  {| f_genero := grupo.1;
     f_cantidad := contar (fun _ => true) docs;
     f_horasPromedio := roundVal 1 (acumAvg ((fun d => leer d "horasJugadas") <$> docs));
     f_porcentajeCompletado :=
       roundVal 1 (acumAvg ((fun d => if condVerdadero (leer d "completado")
                                      then VNum (Fin 100) else VNum (Fin 0)) <$> docs)) |}.

(** [array.reduce(f)] without an initial value: a TypeError on an empty
    array. *)
Definition reduce {A} (f : A -> A -> A) (l : list A) : Res A :=
  match l with
  | [] => Throw TypeError
  | x :: xs => Ok (foldl f x xs)
  end.

(** [a > b] *)
Definition mayor (rt : Runtime) (a b : JsVal) : bool :=
  Num.menorNum (Number rt b) (Number rt a).

Record ComparativaGeneros := {
  comparativa : list FilaComparativa;
  masPopular : JsVal;
  masJugado : JsVal;
  masCompletado : JsVal
}.

Definition obtenerComparativaGeneros (rt : Runtime) (odm : Odm) (s : Store)
    : Res ComparativaGeneros :=
  try_catch
    (let comparativa :=
       ordenar (fun a b => f_cantidad b <=? f_cantidad a)
               (filaComparativa <$> agruparPor odm "genero" (juegos s)) in
     let masPopular := head comparativa in
     masJugado <- reduce (fun prev current =>
                    if mayor rt (f_horasPromedio prev) (f_horasPromedio current)
                    then prev else current) comparativa ;;
     masCompletado <- reduce (fun prev current =>
                        if mayor rt (f_porcentajeCompletado prev)
                                    (f_porcentajeCompletado current)
                        then prev else current) comparativa ;;
     Ok {| comparativa := comparativa;
           masPopular := from_option f_genero VUndefined masPopular;
           masJugado := f_genero masJugado;
           masCompletado := f_genero masCompletado |})
    (fun error => Throw (Envuelto "Error en comparativa de géneros: " error)).

End EstadisticasReportes.

(** ** More concrete requests and stores *)

Module Casos.
Import Mongo.

Definition tx : Middleware.Texto := {|
  Middleware.parseFloatTexto := fun s => Num.deEntero (Num.parseIntTexto s);
  Middleware.longitud := fun s => Z.of_nat (String.length s)
|}.

(** A review of the stored item signed by Ana, and the store that holds it. *)
Definition reseniaDeAna : gmap string JsVal :=
  <["autor" := VStr "Ana"]> Prueba.resenia.

Definition bibliotecaConAna : Store :=
  {| juegos := [Prueba.halo]; resenias := [reseniaDeAna] |}.

(** A second review of the same item by the same author. *)
Definition otraReseniaDeAna : gmap string JsVal :=
  list_to_map
    [ ("juegoId", VStr "65f0c0ffee00000000000001");
      ("contenido", VStr "La vuelvo a jugar cada año");
      ("calificacion", VNum (Fin 4));
      ("autor", VStr "Ana") ].

(** A body that passes every check of [validarJuego] and whose developer
    is a number. *)
Definition juegoConDesarrolladorNumerico : gmap string JsVal :=
  list_to_map
    [ ("nombre", VStr "Portal");
      ("año", VNum (Fin 2007));
      ("genero", VStr "Puzzle");
      ("plataforma", VStr "PC");
      ("desarrollador", VNum (Fin 5)) ].

(** Eighty items, of which the first twenty-three are completed. *)
Definition numerado (n : nat) : gmap string JsVal :=
  let cifras := String (ascii_of_nat (48 + n / 10))
                  (String (ascii_of_nat (48 + n mod 10)) "") in
  Prueba.juego ("65f0c0ffee000000000000" +:+ cifras) ("Juego " +:+ cifras) 1
    (n <? 23)%nat.

Definition ochentaJuegos : Store :=
  {| juegos := numerado <$> seq 0 80; resenias := [] |}.

End Casos.

(** * Properties *)

(** ** The field mappers *)

Section Mapeo.
Import TransformerLegacy.

Lemma copiarEntradas_snoc incluir l c x :
  copiarEntradas incluir (l ++ [(c, x)]) =
  if incluir c x then <[c := x]> (copiarEntradas incluir l)
  else copiarEntradas incluir l.
Proof. unfold copiarEntradas. by rewrite foldl_app. Qed.

(** With distinct keys, the copy holds exactly the accepted entries. *)
Lemma copiarEntradas_lookup incluir l k v :
  NoDup l.*1 ->
  copiarEntradas incluir l !! k = Some v <->
  (k, v) ∈ l /\ incluir k v = true.
Proof.
  induction l as [|[c x] l IH] using rev_ind; intros Hnd.
  - split; [done|]. intros [H _]. by apply elem_of_nil in H.
  - rewrite fmap_app in Hnd. apply NoDup_app in Hnd as (Hl & Hfresh & _).
    rewrite copiarEntradas_snoc, elem_of_app, list_elem_of_singleton.
    specialize (IH Hl).
    assert (Hc : c ∉ l.*1).
    { intros Hin. apply (Hfresh c Hin). simpl. by apply list_elem_of_singleton. }
    destruct (incluir c x) eqn:Hinc.
    + destruct (decide (c = k)) as [->|Hne].
      * rewrite lookup_insert_eq. split.
        -- intros [= ->]. auto.
        -- intros [[Hin | [= ->]] _]; [|done].
           exfalso. apply Hc. apply list_elem_of_fmap. by exists (k, v).
      * rewrite lookup_insert_ne by done. rewrite IH. split.
        -- intros [? ?]; auto.
        -- intros [[? | [= -> ->]] ?]; [done | congruence].
    + rewrite IH. split.
      * intros [? ?]; auto.
      * intros [[? | [= -> ->]] ?]; [done | congruence].
Qed.

End Mapeo.

Ltac claves_distintas :=
  apply NoDup_ListNoDup; vm_compute; repeat constructor; simpl; intuition discriminate.

Ltac entrada_presente :=
  apply copiarEntradas_lookup; [claves_distintas | split; [set_solver | done]].

Ltac entrada_de H :=
  apply copiarEntradas_lookup in H; [|claves_distintas].

Ltac buscar_entrada Hin :=
  repeat (apply elem_of_cons in Hin as [Hin|Hin]; [try discriminate Hin|]);
  [.. | by apply elem_of_nil in Hin].

(** C4, as the code has it. The item mapper of utils/transformer.js always
    emits titulo, genero and plataforma, even when they are undefined, and
    emits no other field with the value undefined: a missing año is left
    out and the other optional fields receive their defaults. The review
    mapper leaves out every field whose mapped value is undefined, the
    required juegoId, puntuacion and textoResena included. *)
Theorem transformarABackend_campos (rt : Runtime) (o : gmap string JsVal) :
  (exists juego,
      TransformerLegacy.transformarABackend (VObj o) = Ok juego /\
      juego !! "titulo" = Some (leer o "nombre") /\
      juego !! "genero" = Some (leer o "genero") /\
      juego !! "plataforma" = Some (leer o "plataforma") /\
      (forall k, juego !! k = Some VUndefined ->
                 k ∈ ["titulo"; "genero"; "plataforma"]) /\
      (leer o "año" = VUndefined -> juego !! "añoLanzamiento" = None) /\
      (leer o "imagen" = VUndefined -> juego !! "imagenPortada" = Some (VStr "")) /\
      (leer o "resena" = VUndefined -> juego !! "descripcion" = Some (VStr "")) /\
      (leer o "tienda" = VUndefined -> juego !! "tienda" = Some (VStr "")) /\
      (leer o "desarrollador" = VUndefined -> juego !! "desarrollador" = Some (VStr "")) /\
      (leer o "completado" = VUndefined -> juego !! "completado" = Some (VBool false)) /\
      (leer o "horasJugadas" = VUndefined ->
       juego !! "horasJugadas" = Some (VNum (Fin 0)))) /\
  (exists resenia,
      TransformerLegacy.transformarReseniaABackend rt (VObj o) = Ok resenia /\
      (forall k, resenia !! k <> Some VUndefined) /\
      (leer o "juegoId" = VUndefined -> resenia !! "juegoId" = None) /\
      (leer o "puntuacion" = VUndefined -> resenia !! "puntuacion" = None) /\
      (leer o "texto" = VUndefined -> resenia !! "textoResena" = None)).
Proof.
  split.
  - eexists. split; [reflexivity|].
    split; [entrada_presente|]. split; [entrada_presente|]. split; [entrada_presente|].
    split.
    { intros k Hk. entrada_de Hk. destruct Hk as [_ Hk].
      rewrite orb_false_r in Hk. unfold TransformerLegacy.esRequeridoJuego in Hk.
      apply orb_true_iff in Hk as [Hk|Hk]; [apply orb_true_iff in Hk as [Hk|Hk]|];
        apply String.eqb_eq in Hk as ->; set_solver. }
    split.
    { intros Ho. apply eq_None_not_Some. intros [v Hv]. entrada_de Hv.
      destruct Hv as [Hin Hv]. buscar_entrada Hin.
      injection Hin as ->. by rewrite Ho in Hv. }
    repeat split; intros Ho; rewrite Ho; entrada_presente.
  - eexists. split; [reflexivity|].
    split.
    { intros k Hk. entrada_de Hk. by destruct Hk as [_ Hk]. }
    repeat split; intros Ho; apply eq_None_not_Some; intros [v Hv]; entrada_de Hv;
      destruct Hv as [Hin Hv]; buscar_entrada Hin; injection Hin as ->;
      by rewrite Ho in Hv.
Qed.

(** C4 as stated fails for reviews: a payload without juegoId, puntuacion
    and texto is mapped to an object without the three required fields. It
    also fails for the optional fields of an item, which are not left out
    but emitted with their defaults. *)
Lemma transformarReseniaABackend_omite_requeridos :
  exists resenia juego,
    TransformerLegacy.transformarReseniaABackend Prueba.rt (VObj ∅) = Ok resenia /\
    resenia !! "juegoId" = None /\
    resenia !! "puntuacion" = None /\
    resenia !! "textoResena" = None /\
    TransformerLegacy.transformarABackend (VObj ∅) = Ok juego /\
    juego !! "imagenPortada" = Some (VStr "") /\
    juego !! "completado" = Some (VBool false).
Proof. do 2 eexists. repeat split; vm_compute; reflexivity. Qed.

Section MapeoAFrontend.
Import Vocabulario.

Lemma mapM_app {A B} (f : A -> Res B) l1 l2 :
  mapM f (l1 ++ l2) =
  (xs <- mapM f l1 ;; ys <- mapM f l2 ;; Ok (xs ++ ys)).
Proof.
  induction l1 as [|x l1 IH]; simpl.
  - by destruct (mapM f l2).
  - destruct (f x); simpl; [|done]. rewrite IH.
    destruct (mapM f l1); simpl; [|done]. by destruct (mapM f l2).
Qed.

(** An element that is mapped to a value the filter rejects can be dropped
    from the array without changing the outcome, errors included. *)
Lemma mapM_descarta {A B} (f : A -> Res B) (P : B -> Prop)
    `{!forall y, Decision (P y)} l1 v l2 y :
  f v = Ok y -> ~ P y ->
  (ms <- mapM f (l1 ++ v :: l2) ;; Ok (filter P ms)) =
  (ms <- mapM f (l1 ++ l2) ;; Ok (filter P ms)).
Proof.
  intros Hv HP. rewrite !mapM_app. simpl. rewrite Hv. simpl.
  destruct (mapM f l1) as [xs|]; simpl; [|done].
  destruct (mapM f l2) as [ys|]; simpl; [|done].
  by rewrite !filter_app, filter_cons_False by done.
Qed.

Lemma legacy_transformarAFrontend_falsy rt v :
  truthy v = false -> TransformerLegacy.transformarAFrontend rt v = Ok VNull.
Proof. intros H. unfold TransformerLegacy.transformarAFrontend. by rewrite H. Qed.

Lemma transformarAFrontend_falsy rt v :
  truthy v = false -> Transformer.transformarAFrontend rt v = Ok VNull.
Proof. intros H. unfold Transformer.transformarAFrontend. by rewrite H. Qed.


Lemma transformarReseniaAFrontend_total rt v :
  exists r, Transformer.transformarReseniaAFrontend rt v = Ok r.
Proof.
  unfold Transformer.transformarReseniaAFrontend.
  destruct (negb (truthy v)); [eauto|].
  match goal with |- exists r, try_catch ?c _ = _ => destruct c end; simpl; eauto.
Qed.

Lemma fechaISO_valida rt v : fechaValida rt v -> exists s, fechaISO rt v = Ok s.
Proof.
  unfold fechaValida, fechaISO, toISOString. destruct (truthy v); [|eauto].
  intros H. destruct (H eq_refl) as [t ->]. eauto.
Qed.



End MapeoAFrontend.

(** C5, as the code has it. A falsy record (null, undefined, 0, the empty
    string, false, NaN) is mapped to null by both frontend-bound mappers
    without raising, and the array variants drop it: the list with the
    record maps like the list without it. *)
Theorem transformarAFrontend_registro_falsy (rt : Runtime) (v : JsVal) :
  truthy v = false ->
  TransformerLegacy.transformarAFrontend rt v = Ok VNull /\
  Transformer.transformarAFrontend rt v = Ok VNull /\
  forall l1 l2,
    TransformerLegacy.transformarArrayAFrontend rt (VArr (l1 ++ v :: l2)) =
    TransformerLegacy.transformarArrayAFrontend rt (VArr (l1 ++ l2)) /\
    Transformer.transformarArrayAFrontend rt (VArr (l1 ++ v :: l2)) =
    Transformer.transformarArrayAFrontend rt (VArr (l1 ++ l2)).
Proof.
  intros H.
  split; [by apply legacy_transformarAFrontend_falsy|].
  split; [by apply transformarAFrontend_falsy|].
  intros l1 l2. split.
  - apply (mapM_descarta _ (fun v => truthy v = true) _ _ _ VNull);
      [by apply legacy_transformarAFrontend_falsy | done].
  - apply (mapM_descarta _ (fun v => is_null v = false) _ _ _ VNull);
      [by apply transformarAFrontend_falsy | done].
Qed.

Lemma transformarAFrontend_registro_falsy_witness :
  truthy VNull = false /\
  (TransformerLegacy.transformarAFrontend Prueba.rt VNull = Ok VNull /\
   Transformer.transformarAFrontend Prueba.rt VNull = Ok VNull /\
   forall l1 l2,
     TransformerLegacy.transformarArrayAFrontend Prueba.rt (VArr (l1 ++ VNull :: l2)) =
     TransformerLegacy.transformarArrayAFrontend Prueba.rt (VArr (l1 ++ l2)) /\
     Transformer.transformarArrayAFrontend Prueba.rt (VArr (l1 ++ VNull :: l2)) =
     Transformer.transformarArrayAFrontend Prueba.rt (VArr (l1 ++ l2))).
Proof.
  split; [reflexivity|].
  apply (transformarAFrontend_registro_falsy Prueba.rt VNull). reflexivity.
Defined.

(** C5 as stated fails on the number 42, a record that is not an object:
    the mapper of utils/transformer.js raises a TypeError, which the array
    variant propagates for the whole list, and the mapper of
    src/utils/transformer.js answers a record of defaults instead of null. *)
Lemma transformarAFrontend_no_objeto :
  typeof (VNum (Fin 42)) <> "object" /\
  TransformerLegacy.transformarAFrontend Prueba.rt (VNum (Fin 42)) = Throw TypeError /\
  TransformerLegacy.transformarArrayAFrontend Prueba.rt
    (VArr [VObj Prueba.halo; VNum (Fin 42)]) = Throw TypeError /\
  (exists o, Transformer.transformarAFrontend Prueba.rt (VNum (Fin 42)) = Ok (VObj o)) /\
  (exists o, Transformer.transformarArrayAFrontend Prueba.rt (VArr [VNum (Fin 42)])
             = Ok [VObj o]).
Proof.
  split; [done|]. split; [reflexivity|]. split; [vm_compute; reflexivity|].
  split; eexists; vm_compute; reflexivity.
Qed.

Section Hidratacion.
Import Mongo Vocabulario.





End Hidratacion.




(** ** The statistics service *)

Section Estadisticas.
Import Mongo EstadisticasService Vocabulario.

Lemma mitadPar_cerca q :
  (- (1 # 2) <= inject_Z (Num.mitadPar q) - q <= 1 # 2)%Q.
Proof.
  unfold Num.mitadPar.
  pose proof (Qfloor_le q) as Hlo. pose proof (Qlt_floor q) as Hhi.
  rewrite inject_Z_plus in Hhi. change (inject_Z 1) with 1%Q in Hhi.
  destruct (Qcompare_spec (q - inject_Z (Qfloor q)) (1 # 2)) as [He|Hl|Hg].
  - destruct (Z.even (Qfloor q)); rewrite ?inject_Z_plus;
      change (inject_Z 1) with 1%Q; lra.
  - lra.
  - rewrite inject_Z_plus. change (inject_Z 1) with 1%Q. lra.
Qed.

Lemma mitadPar_entre q (n : Z) :
  (0 <= q <= inject_Z n)%Q -> 0 <= Num.mitadPar q <= n.
Proof.
  intros [H0 Hn]. unfold Num.mitadPar.
  pose proof (Qfloor_le q) as Hlo. pose proof (Qlt_floor q) as Hhi.
  rewrite inject_Z_plus in Hhi. change (inject_Z 1) with 1%Q in Hhi.
  assert (Hf0 : 0 <= Qfloor q).
  { change 0 with (Qfloor 0). by apply Qfloor_resp_le. }
  assert (Hfn : Qfloor q <= n).
  { rewrite <- (Qfloor_Z n). by apply Qfloor_resp_le. }
  destruct (Qcompare_spec (q - inject_Z (Qfloor q)) (1 # 2)) as [He|Hl|Hg].
  - destruct (Z.even (Qfloor q)); [lia|].
    destruct (decide (Qfloor q = n)) as [E|E]; [|lia].
    rewrite E in He. lra.
  - lia.
  - destruct (decide (Qfloor q = n)) as [E|E]; [|lia].
    rewrite E in Hg. lra.
Qed.

Lemma redondear_1_decimal q :
  exists k, (Num.redondear 1 q == inject_Z k / 10)%Q /\
            (Qabs (Num.redondear 1 q - q) <= 1 # 20)%Q.
Proof.
  exists (Num.mitadPar (q * 10)). unfold Num.redondear.
  change (inject_Z (10 ^ 1)) with 10%Q. split; [reflexivity|].
  apply Qabs_Qle_condition.
  pose proof (mitadPar_cerca (q * 10)) as H.
  set (m := inject_Z (Num.mitadPar (q * 10))) in *.
  unfold Qdiv. change (/ 10)%Q with (1 # 10)%Q.
  split; lra.
Qed.

Lemma redondear_1_entre q :
  (0 <= q <= 100)%Q -> (0 <= Num.redondear 1 q <= 100)%Q.
Proof.
  intros H. unfold Num.redondear. change (inject_Z (10 ^ 1)) with 10%Q.
  assert (Hm : 0 <= Num.mitadPar (q * 10) <= 1000).
  { apply mitadPar_entre. change (inject_Z 1000) with 1000%Q. lra. }
  destruct Hm as [H1 H2].
  assert (0 <= inject_Z (Num.mitadPar (q * 10)))%Q.
  { change 0%Q with (inject_Z 0). by rewrite <- Zle_Qle. }
  assert (inject_Z (Num.mitadPar (q * 10)) <= 1000)%Q.
  { change 1000%Q with (inject_Z 1000). by rewrite <- Zle_Qle. }
  set (m := inject_Z (Num.mitadPar (q * 10))) in *.
  unfold Qdiv. change (/ 10)%Q with (1 # 10)%Q.
  split; lra.
Qed.

(** ** binary64 *)

Lemma mitadPar_comp q q' : (q == q')%Q -> Num.mitadPar q = Num.mitadPar q'.
Proof.
  intros H. unfold Num.mitadPar.
  assert (Hf : Qfloor q = Qfloor q') by (by rewrite H).
  rewrite Hf.
  assert (Hc : (q - inject_Z (Qfloor q') ?= 1 # 2)%Q = (q' - inject_Z (Qfloor q') ?= 1 # 2)%Q)
    by (by rewrite H).
  by rewrite Hc.
Qed.

Lemma mitadPar_entero z : Num.mitadPar (inject_Z z) = z.
Proof.
  unfold Num.mitadPar. rewrite Qfloor_Z.
  destruct (Qcompare_spec (inject_Z z - inject_Z z) (1 # 2)) as [H|H|H]; [lra|done|lra].
Qed.

Lemma dos_positivo e : (0 < 2 ^ e)%Q.
Proof. by apply Qpower_0_lt. Qed.

Lemma dos_mas_uno e : (2 ^ (e + 1) == 2 ^ e * 2)%Q.
Proof. rewrite Qpower_plus by done. reflexivity. Qed.

Lemma dos_entero n : 0 <= n -> (inject_Z (2 ^ n) == 2 ^ n)%Q.
Proof. intros H. by rewrite Zpower_Qpower. Qed.

Lemma binada_spec q :
  (0 < q)%Q -> (2 ^ Num.binada q <= q /\ q < 2 ^ (Num.binada q + 1))%Q.
Proof.
  intros Hq. unfold Num.binada.
  destruct q as [n d]. cbn [Qnum Qden].
  assert (Hn : 0 < n) by (unfold Qlt in Hq; simpl in Hq; lia).
  set (a := Z.log2 n). set (b := Z.log2 (Z.pos d)).
  assert (Ha : 0 <= a) by apply Z.log2_nonneg.
  assert (Hb : 0 <= b) by apply Z.log2_nonneg.
  destruct (Z.log2_spec n Hn) as [Ha1 Ha2].
  destruct (Z.log2_spec (Z.pos d) ltac:(lia)) as [Hb1 Hb2].
  fold a in Ha1, Ha2. fold b in Hb1, Hb2.
  rewrite <- Z.add_1_r in Ha2, Hb2.
  rewrite Zle_Qle in Ha1, Hb1. rewrite Zlt_Qlt in Ha2, Hb2.
  rewrite dos_entero in Ha1, Ha2, Hb1, Hb2 by lia.
  rewrite dos_mas_uno in Ha2, Hb2.
  pose proof (dos_positivo a) as HA. pose proof (dos_positivo b) as HB.
  assert (Hk : (2 ^ (a - b) * 2 ^ b == 2 ^ a)%Q).
  { rewrite Qpower_minus by done. field. intros E. rewrite E in HB. lra. }
  assert (Hqd : ((n # d) * inject_Z (Z.pos d) == inject_Z n)%Q).
  { rewrite (Qmake_Qdiv n d). field. intros E.
    unfold Qeq in E. simpl in E. lia. }
  pose proof (dos_positivo (a - b)) as HK.
  set (A := (2 ^ a)%Q) in *. set (B := (2 ^ b)%Q) in *.
  set (K := (2 ^ (a - b))%Q) in *.
  set (N := inject_Z n) in *. set (D := inject_Z (Z.pos d)) in *.
  set (q := n # d) in *.
  destruct (Qle_bool K q) eqn:E.
  - apply Qle_bool_iff in E. split; [done|].
    rewrite dos_mas_uno. fold K. nra.
  - assert (Hlt : (q < K)%Q).
    { apply Qnot_le_lt. intros H. apply Qle_bool_iff in H. congruence. }
    replace (a - b - 1 + 1) with (a - b) by lia. fold K. split; [|done].
    assert (Hm : (2 ^ (a - b - 1) * 2 == K)%Q).
    { rewrite <- dos_mas_uno. replace (a - b - 1 + 1) with (a - b) by lia. reflexivity. }
    set (K' := (2 ^ (a - b - 1))%Q) in *. nra.
Qed.

Lemma binada_unica q k :
  (0 < q)%Q -> (2 ^ k <= q)%Q -> (q < 2 ^ (k + 1))%Q -> Num.binada q = k.
Proof.
  intros Hq H1 H2. destruct (binada_spec q Hq) as [H3 H4].
  assert (k < Num.binada q + 1).
  { apply (Qpower_lt_compat_l_inv 2); [|done]. lra. }
  assert (Num.binada q < k + 1).
  { apply (Qpower_lt_compat_l_inv 2); [|done]. lra. }
  lia.
Qed.

Lemma binada_comp q q' : (0 < q)%Q -> (q == q')%Q -> Num.binada q = Num.binada q'.
Proof.
  intros Hq H. assert (Hq' : (0 < q')%Q) by (by rewrite <- H).
  destruct (binada_spec q' Hq') as [H1 H2].
  apply binada_unica; [done| |]; by rewrite H.
Qed.

Lemma cercano_comp q q' : (0 < q)%Q -> (q == q')%Q -> Num.cercano q = Num.cercano q'.
Proof.
  intros Hq H. unfold Num.cercano. rewrite <- (binada_comp q q' Hq H).
  set (e := Z.max (Num.binada q - 52) (-1074)).
  assert (Hm : Num.mitadPar (q / 2 ^ e) = Num.mitadPar (q' / 2 ^ e)).
  { apply mitadPar_comp. by rewrite H. }
  by rewrite Hm.
Qed.

Lemma binary64_comp q q' : (q == q')%Q -> Num.binary64 q = Num.binary64 q'.
Proof.
  intros H. unfold Num.binary64.
  assert (Hc : (q ?= 0)%Q = (q' ?= 0)%Q) by (by rewrite H).
  rewrite <- Hc. destruct (Qcompare_spec q 0) as [E|E|E]; [done| |].
  - rewrite (cercano_comp (- q) (- q')); [done|lra|by rewrite H].
  - by rewrite (cercano_comp q q').
Qed.

(** A positive rational below an integer of 53 bits rounds to a number that
    is not above this integer, at distance at most half a unit of its last
    place. *)
Lemma cercano_cota q N :
  (0 < q)%Q -> (q <= inject_Z N)%Q -> N < 2 ^ 53 ->
  exists r, Num.cercano q = Some r /\ (0 <= r <= inject_Z N)%Q /\
            (Qabs (r - q) <= 2 ^ Z.max (Num.binada q - 52) (-1074) / 2)%Q.
Proof.
  intros Hq HN H53. unfold Num.cercano.
  destruct (binada_spec q Hq) as [Hb1 Hb2].
  set (e := Z.max (Num.binada q - 52) (-1074)).
  assert (He : e <= 0).
  { assert (Num.binada q < 53); [|lia].
    apply (Qpower_lt_compat_l_inv 2); [|done].
    rewrite Zlt_Qlt in H53. rewrite dos_entero in H53 by lia. lra. }
  pose proof (dos_positivo e) as HE.
  assert (HEi : (inject_Z (2 ^ (- e)) * 2 ^ e == 1)%Q).
  { rewrite dos_entero by lia. rewrite Qpower_opp. field.
    intros E. rewrite E in HE. lra. }
  set (x := (q / 2 ^ e)%Q).
  assert (Hx : (x * 2 ^ e == q)%Q).
  { unfold x. field. intros E. rewrite E in HE. lra. }
  pose proof (mitadPar_cerca x) as Hc.
  assert (Hm : 0 <= Num.mitadPar x <= N * 2 ^ (- e)).
  { apply mitadPar_entre. rewrite inject_Z_mult.
    assert (0 < inject_Z (2 ^ (- e)))%Q.
    { rewrite dos_entero by lia. apply dos_positivo. }
    set (F := inject_Z (2 ^ (- e))) in *. set (E := (2 ^ e)%Q) in *.
    split; nra. }
  destruct Hm as [Hm1 Hm2]. rewrite Zle_Qle in Hm1, Hm2.
  rewrite inject_Z_mult in Hm2.
  set (m := inject_Z (Num.mitadPar x)) in *.
  set (F := inject_Z (2 ^ (- e))) in *. set (E := (2 ^ e)%Q) in *.
  assert (HF : (0 < F)%Q) by nra.
  assert (Hr : (0 <= m * E <= inject_Z N)%Q).
  { change (inject_Z 0) with 0%Q in Hm1. split; [nra|].
    assert (m * E <= inject_Z N * F * E)%Q by nra.
    assert (inject_Z N * F * E == inject_Z N)%Q by (rewrite <- Qmult_assoc, HEi; ring).
    lra. }
  assert (Hgrande : Qle_bool (2 ^ 1024) (m * E) = false).
  { destruct (Qle_bool _ _) eqn:B; [|done]. apply Qle_bool_iff in B.
    assert (inject_Z N < 2 ^ 1024)%Q; [|lra].
    rewrite Zlt_Qlt in H53. rewrite dos_entero in H53 by lia.
    assert (2 ^ 53 < 2 ^ 1024)%Q by (by apply Qpower_lt_compat_l).
    lra. }
  rewrite Hgrande. eexists. split; [reflexivity|]. rewrite Qred_correct.
  split; [done|]. apply Qabs_Qle_condition.
  assert (m * E - q == (m - x) * E)%Q by (rewrite <- Hx; ring).
  unfold Qdiv. change (/ 2)%Q with (1 # 2)%Q. split; nra.
Qed.

Lemma binary64_cero : Num.binary64 0 = Fin 0.
Proof. reflexivity. Qed.

(** Rounding keeps a number between zero and an integer of 53 bits. *)
Lemma binary64_cota q N :
  (0 <= q <= inject_Z N)%Q -> N < 2 ^ 53 ->
  exists r, Num.binary64 q = Fin r /\ (0 <= r <= inject_Z N)%Q.
Proof.
  intros [H0 HN] H53. unfold Num.binary64.
  destruct (Qcompare_spec q 0) as [E|E|E]; [|lra|].
  - exists 0%Q. split; [done|]. lra.
  - destruct (cercano_cota q N E HN H53) as (r & -> & Hr & _). eauto.
Qed.

(** In the normal range the relative error is at most 2^-53. *)
Lemma binary64_cerca q N :
  (2 ^ (-1022) <= q <= inject_Z N)%Q -> N < 2 ^ 53 ->
  exists r, Num.binary64 q = Fin r /\ (0 <= r <= inject_Z N)%Q /\
            (Qabs (r - q) <= q / 2 ^ 53)%Q.
Proof.
  intros [H0 HN] H53. unfold Num.binary64.
  pose proof (dos_positivo (-1022)) as Hmin.
  assert (Hq : (0 < q)%Q) by lra.
  destruct (Qcompare_spec q 0) as [E|E|E]; [lra|lra|].
  destruct (cercano_cota q N E HN H53) as (r & -> & Hr & Hd).
  exists r. split; [done|]. split; [done|].
  destruct (binada_spec q Hq) as [Hb1 Hb2].
  assert (Hb : -1022 <= Num.binada q).
  { assert (-1022 < Num.binada q + 1); [|lia].
    apply (Qpower_lt_compat_l_inv 2); [|done]. lra. }
  rewrite Z.max_l in Hd by lia.
  pose proof (dos_positivo 53) as H53'.
  assert (Hp : (2 ^ (Num.binada q - 52) * 2 ^ 53 == 2 ^ Num.binada q * 2)%Q).
  { rewrite <- Qpower_plus by done. rewrite <- dos_mas_uno. 
    replace (Num.binada q - 52 + 53) with (Num.binada q + 1) by lia. reflexivity. }
  apply Qle_shift_div_l; [done|].
  unfold Qdiv in Hd. change (/ 2)%Q with (1 # 2)%Q in Hd.
  set (u := (2 ^ (Num.binada q - 52))%Q) in *. set (P := (2 ^ 53)%Q) in *.
  set (B := (2 ^ Num.binada q)%Q) in *.
  assert (Habs : (0 <= Qabs (r - q))%Q) by apply Qabs_nonneg.
  set (a := Qabs (r - q)) in *. nra.
Qed.

Lemma Qred_entero z : Qred (inject_Z z) = inject_Z z.
Proof. apply Qcanon.Qred_identity. simpl. apply Z.gcd_1_r. Qed.

(** An integer of 53 bits is a binary64 number. *)
Lemma binary64_exacto q z :
  (q == inject_Z z)%Q -> Z.abs z < 2 ^ 53 -> Num.binary64 q = Fin (inject_Z z).
Proof.
  intros Hq Hz. rewrite (binary64_comp _ _ Hq). clear q Hq.
  assert (Hpos : forall n, 0 < n < 2 ^ 53 ->
            Num.cercano (inject_Z n) = Some (inject_Z n)).
  { intros n [Hn1 Hn2].
    assert (H0 : (0 < inject_Z n)%Q) by (change 0%Q with (inject_Z 0); by rewrite <- Zlt_Qlt).
    unfold Num.cercano.
    destruct (binada_spec _ H0) as [Hb1 Hb2].
    set (e := Z.max (Num.binada (inject_Z n) - 52) (-1074)).
    assert (He : e <= 0).
    { assert (Num.binada (inject_Z n) < 53); [|lia].
      apply (Qpower_lt_compat_l_inv 2); [|done].
      rewrite Zlt_Qlt in Hn2. rewrite dos_entero in Hn2 by lia. lra. }
    pose proof (dos_positivo e) as HE.
    assert (HEi : (inject_Z (2 ^ (- e)) * 2 ^ e == 1)%Q).
    { rewrite dos_entero by lia. rewrite Qpower_opp. field.
      intros E. rewrite E in HE. lra. }
    assert (Hx : (inject_Z n / 2 ^ e == inject_Z (n * 2 ^ (- e)))%Q).
    { rewrite inject_Z_mult. rewrite dos_entero by lia. rewrite Qpower_opp.
      field. intros E. rewrite E in HE. lra. }
    rewrite (mitadPar_comp _ _ Hx), mitadPar_entero.
    assert (Hr : (inject_Z (n * 2 ^ (- e)) * 2 ^ e == inject_Z n)%Q).
    { rewrite inject_Z_mult, <- Qmult_assoc, HEi. ring. }
    assert (Hgrande : Qle_bool (2 ^ 1024) (inject_Z (n * 2 ^ (- e)) * 2 ^ e) = false).
    { destruct (Qle_bool _ _) eqn:B; [|done]. apply Qle_bool_iff in B.
      rewrite Hr in B.
      rewrite Zlt_Qlt in Hn2. rewrite dos_entero in Hn2 by lia.
      assert (2 ^ 53 < 2 ^ 1024)%Q by (by apply Qpower_lt_compat_l).
      lra. }
    rewrite Hgrande. f_equal. rewrite (Qred_complete _ _ Hr). apply Qred_entero. }
  unfold Num.binary64.
  destruct (Qcompare_spec (inject_Z z) 0) as [E|E|E].
  - f_equal. unfold Qeq in E. simpl in E. assert (z = 0) as -> by lia. done.
  - change 0%Q with (inject_Z 0) in E. rewrite <- Zlt_Qlt in E.
    change (- inject_Z z)%Q with (inject_Z (- z)).
    rewrite Hpos by lia. simpl. unfold inject_Z, Qopp. simpl.
    by rewrite Z.opp_involutive.
  - change 0%Q with (inject_Z 0) in E. rewrite <- Zlt_Qlt in E.
    rewrite Hpos by lia. done.
Qed.

(** A number from 1 on does not round to zero. *)
Lemma cercano_positivo q r : (1 <= q)%Q -> Num.cercano q = Some r -> (0 < r)%Q.
Proof.
  intros Hq. unfold Num.cercano.
  assert (Hq0 : (0 < q)%Q) by lra.
  destruct (binada_spec q Hq0) as [Hb1 Hb2].
  assert (Hb : 0 <= Num.binada q).
  { assert (0 < Num.binada q + 1); [|lia].
    apply (Qpower_lt_compat_l_inv 2); [|done]. change (2 ^ 0)%Q with 1%Q. lra. }
  rewrite Z.max_l by lia.
  set (e := Num.binada q - 52).
  pose proof (dos_positivo e) as HE.
  set (x := (q / 2 ^ e)%Q).
  assert (Hx : (x * 2 ^ e == q)%Q).
  { unfold x. field. intros E. rewrite E in HE. lra. }
  assert (Hx1 : (1 <= x)%Q).
  { assert (Hp : (2 ^ e * 2 ^ 52 == 2 ^ Num.binada q)%Q).
    { rewrite <- Qpower_plus by done. unfold e.
      replace (Num.binada q - 52 + 52) with (Num.binada q) by lia. reflexivity. }
    change (2 ^ 52)%Q with 4503599627370496%Q in Hp.
    set (E := (2 ^ e)%Q) in *. set (B := (2 ^ Num.binada q)%Q) in *. nra. }
  pose proof (mitadPar_cerca x) as Hc.
  assert (Hm : 1 <= Num.mitadPar x).
  { assert (H : (0 < inject_Z (Num.mitadPar x))%Q) by lra.
    change 0%Q with (inject_Z 0) in H. rewrite <- Zlt_Qlt in H. lia. }
  rewrite Zle_Qle in Hm. change (inject_Z 1) with 1%Q in Hm.
  destruct (Qle_bool _ _); [done|]. intros [= <-]. rewrite Qred_correct.
  set (m := inject_Z (Num.mitadPar x)) in *. set (E := (2 ^ e)%Q) in *. nra.
Qed.

Lemma aDoble_exacto z : Z.abs z < 2 ^ 53 -> Num.aDoble z = Num.deZ z.
Proof. intros H. by apply binary64_exacto. Qed.

Lemma aDoble_positivo t :
  0 < t -> match Num.aDoble t with
           | Fin r => (0 < r)%Q
           | Inf p => p = true
           | NaN => False
           end.
Proof.
  intros Ht. unfold Num.aDoble, Num.binary64.
  assert (H1 : (1 <= inject_Z t)%Q).
  { change 1%Q with (inject_Z 1). rewrite <- Zle_Qle. lia. }
  destruct (Qcompare_spec (inject_Z t) 0) as [E|E|E]; [lra|lra|].
  destruct (Num.cercano (inject_Z t)) as [r|] eqn:Er; simpl; [|done].
  by apply (cercano_positivo (inject_Z t)).
Qed.

Lemma esCero_positivo r : (0 < r)%Q -> Num.esCero r = false.
Proof.
  intros H. unfold Num.esCero. destruct (Qeq_bool r 0) eqn:E; [|done].
  apply Qeq_bool_eq in E. lra.
Qed.

(** [$divide] by a count of at least one never fails. *)
Lemma divide_ok a t :
  0 < t -> divide a (Num.aDoble t) = Ok (Num.dividir a (Num.aDoble t)).
Proof.
  intros Ht. unfold divide. pose proof (aDoble_positivo t Ht) as H.
  destruct (Num.aDoble t) as [|p|r]; [done|done|]. by rewrite esCero_positivo.
Qed.

Lemma dos_53 : (2 ^ 53)%Q = 9007199254740992%Q.
Proof. reflexivity. Qed.

Lemma binary64_cerca' q N :
  (1 # 100000000000000000 <= q <= inject_Z N)%Q -> N < 2 ^ 53 ->
  exists r, Num.binary64 q = Fin r /\ (0 <= r <= inject_Z N)%Q /\
            (Qabs (r - q) <= q * (1 # 9007199254740992))%Q.
Proof.
  intros [H0 HN] H53.
  assert (Hmin : (2 ^ (-1022) <= 1 # 100000000000000000)%Q).
  { apply Qle_bool_iff. vm_compute. reflexivity. }
  destruct (binary64_cerca q N) as (r & Hr & Hc & Hd); [split; lra|done|].
  exists r. split; [done|]. split; [done|].
  rewrite dos_53 in Hd. unfold Qdiv in Hd.
  change (/ 9007199254740992)%Q with (1 # 9007199254740992)%Q in Hd. done.
Qed.

Lemma porcentaje_binary64 c t :
  0 <= c <= t -> 0 < t < 2 ^ 53 ->
  exists p k,
    porcentaje c t = Fin p /\
    (0 <= p <= 100)%Q /\
    0 <= k <= 1000 /\
    Num.binary64 (inject_Z k / 10) = Fin p /\
    (Qabs (p - inject_Z c / inject_Z t * 100) <= (1 # 20) + (1 # 10000000000000))%Q.
Proof.
  intros [Hc Hct] [Ht H53]. unfold porcentaje.
  rewrite !aDoble_exacto by lia. unfold Num.deZ, Num.dividir.
  rewrite esCero_positivo by (change 0%Q with (inject_Z 0); rewrite <- Zlt_Qlt; lia).
  assert (HT : (1 <= inject_Z t)%Q) by (change 1%Q with (inject_Z 1); rewrite <- Zle_Qle; lia).
  assert (HT' : (inject_Z t <= 9007199254740992)%Q).
  { change 9007199254740992%Q with (inject_Z (2 ^ 53)). rewrite <- Zle_Qle. lia. }
  assert (HC : (0 <= inject_Z c)%Q) by (change 0%Q with (inject_Z 0); rewrite <- Zle_Qle; lia).
  assert (HCT : (inject_Z c <= inject_Z t)%Q) by (rewrite <- Zle_Qle; lia).
  set (x0 := (inject_Z c / inject_Z t)%Q).
  assert (Hx0 : (x0 * inject_Z t == inject_Z c)%Q).
  { unfold x0. field. lra. }
  assert (Hx0' : (0 <= x0 <= 1)%Q).
  { unfold x0. split; [apply Qle_shift_div_l | apply Qle_shift_div_r]; lra. }
  destruct (decide (c = 0)) as [->|Hc0].
  - assert (E0 : (x0 == 0)%Q) by (unfold x0; change (inject_Z 0) with 0%Q; field; lra).
    rewrite (binary64_comp _ _ E0). change (Num.binary64 0) with (Fin 0).
    cbn [Num.multiplicar]. rewrite (binary64_comp (0 * 100) 0) by ring.
    change (Num.binary64 0) with (Fin 0). cbn [round].
    exists 0%Q, 0. split; [reflexivity|]. split; [lra|]. split; [lia|].
    split; [reflexivity|]. rewrite E0. apply Qabs_Qle_condition. split; lra.
  - assert (HC1 : (1 <= inject_Z c)%Q)
      by (change 1%Q with (inject_Z 1); rewrite <- Zle_Qle; lia).
    assert (Hx0min : (1 # 9007199254740992 <= x0)%Q) by nra.
    destruct (binary64_cerca' x0 1) as (x1 & -> & Hx1 & Hd1); [|done|].
    { change (inject_Z 1) with 1%Q. split; lra. }
    change (inject_Z 1) with 1%Q in Hx1.
    apply Qabs_Qle_condition in Hd1.
    cbn [Num.multiplicar].
    destruct (binary64_cerca' (x1 * 100) 100) as (x2 & -> & Hx2 & Hd2); [|done|].
    { change (inject_Z 100) with 100%Q. split; nra. }
    change (inject_Z 100) with 100%Q in Hx2.
    apply Qabs_Qle_condition in Hd2.
    cbn [round].
    destruct (redondear_1_decimal x2) as (k' & Hk' & Hd3).
    pose proof (redondear_1_entre x2 Hx2) as Hr.
    apply Qabs_Qle_condition in Hd3.
    set (r := Num.redondear 1 x2) in *.
    set (k := Num.mitadPar (x2 * 10)).
    assert (Hk : 0 <= k <= 1000).
    { apply mitadPar_entre. change (inject_Z 1000) with 1000%Q. lra. }
    assert (Erk : r = (inject_Z k / 10)%Q) by reflexivity.
    destruct (decide (k = 0)) as [Ek|Ek].
    + assert (Er0 : (r == 0)%Q).
      { rewrite Erk, Ek. reflexivity. }
      rewrite (binary64_comp _ _ Er0). change (Num.binary64 0) with (Fin 0).
      exists 0%Q, 0. split; [reflexivity|]. split; [lra|]. split; [lia|].
      split; [reflexivity|]. apply Qabs_Qle_condition.
      split; lra.
    + assert (Hk1 : (1 <= inject_Z k)%Q)
        by (change 1%Q with (inject_Z 1); rewrite <- Zle_Qle; lia).
      assert (Hr1 : (1 # 10 <= r)%Q).
      { rewrite Erk. unfold Qdiv. change (/ 10)%Q with (1 # 10)%Q. lra. }
      destruct (binary64_cerca' r 100) as (p & Hp & Hp100 & Hd4); [|done|].
      { change (inject_Z 100) with 100%Q. split; [|lra].
        lra. }
      change (inject_Z 100) with 100%Q in Hp100.
      apply Qabs_Qle_condition in Hd4.
      exists p, k. split; [exact Hp|]. split; [done|]. split; [done|].
      split; [by rewrite <- Erk|]. apply Qabs_Qle_condition.
      split; lra.
Qed.

Lemma filter_length_cota {A} (c : A -> bool) l : (length (List.filter c l) <= length l)%nat.
Proof. induction l; simpl; [lia|]. destruct (c a); simpl; lia. Qed.

Lemma contar_todos {A} (l : list A) : contar (fun _ => true) l = Z.of_nat (length l).
Proof. unfold contar. f_equal. induction l; simpl; congruence. Qed.

Lemma contar_cota {A} (c : A -> bool) l : 0 <= contar c l <= Z.of_nat (length l).
Proof. unfold contar. pose proof (filter_length_cota c l). lia. Qed.

Lemma contar_booleanos campo docs :
  Forall (booleano campo) docs ->
  contar (fun d => condVerdadero (leer d campo)) docs =
  Z.of_nat (length (List.filter (verdadero campo) docs)).
Proof.
  intros H. unfold contar. do 2 f_equal.
  induction H as [|d l [b Hb] _ IH]; [done|].
  simpl. unfold verdadero at 1. rewrite Hb, IH. by destruct b.
Qed.

(** C1, as the code has it. [obtenerEstadisticasJuegos] always answers (no
    division error); the percentage it reports is exactly 0 when there is
    no item and otherwise is what the server computes in binary64 from the
    two counts. For a collection of fewer than 2^53 items this is a number
    between 0 and 100, the double nearest to a multiple of one tenth, at
    distance at most 0.05 + 10^-13 from completed / total * 100. *)
Theorem obtenerEstadisticasJuegos_porcentajeCompletado (odm : Odm) (s : Store) :
  exists e,
    obtenerEstadisticasJuegos odm s = Ok e /\
    totalJuegos e = Z.of_nat (length (juegos s)) /\
    juegsCompletados e = contar (fun d => condVerdadero (leer d "completado")) (juegos s) /\
    (Forall (booleano "completado") (juegos s) ->
     juegsCompletados e =
     Z.of_nat (length (List.filter (verdadero "completado") (juegos s)))) /\
    (totalJuegos e = 0 -> porcentajeCompletado e = Fin 0) /\
    (totalJuegos e <> 0 ->
     porcentajeCompletado e = porcentaje (juegsCompletados e) (totalJuegos e)) /\
    (totalJuegos e < 2 ^ 53 ->
     exists p k,
       porcentajeCompletado e = Fin p /\
       (0 <= p <= 100)%Q /\
       0 <= k <= 1000 /\
       Num.binary64 (inject_Z k / 10) = Fin p /\
       (totalJuegos e <> 0 ->
        (Qabs (p - inject_Z (juegsCompletados e) / inject_Z (totalJuegos e) * 100)
         <= (1 # 20) + (1 # 10000000000000))%Q)).
Proof.
  destruct s as [js rs]. unfold obtenerEstadisticasJuegos. cbn [juegos].
  destruct js as [|d l].
  - simpl. eexists. split; [reflexivity|]. simpl.
    split; [done|]. split; [done|]. split; [done|]. split; [done|]. split; [done|].
    intros _. exists 0%Q, 0. split; [done|]. split; [lra|]. split; [lia|].
    split; [reflexivity|]. done.
  - unfold agrupar. cbn [mapM]. unfold proyectar at 1.
    cbn [g_totalJuegos g_juegsCompletados g_juegsConImagen].
    set (c := contar (fun d => condVerdadero (leer d "completado")) (d :: l)).
    set (t := contar (fun _ => true) (d :: l)).
    assert (Et : t = Z.of_nat (length (d :: l))) by apply contar_todos.
    assert (Ht : 0 < t) by (rewrite Et; simpl; lia).
    assert (Hc : 0 <= c <= t) by (rewrite Et; apply contar_cota).
    rewrite !divide_ok by lia. cbn [bind try_catch].
    eexists. split; [reflexivity|].
    cbn [totalJuegos juegsCompletados porcentajeCompletado].
    split; [done|]. split; [done|].
    split; [apply contar_booleanos|].
    split; [lia|]. split; [done|].
    intros H53.
    destruct (porcentaje_binary64 c t Hc (conj Ht H53)) as (p & k & Hp & Hr & Hk & Hb & Hd).
    exists p, k. done.
Qed.

(** C1 as stated fails at 23 completed items of 80. The exact percentage is
    28.75, which rounds to 28.8; the quotient of the server is a double
    below 23/80 and its product with 100 is the double below 28.75, which
    rounds to 28.7. *)
Lemma porcentajeCompletado_23_de_80 :
  exists e p,
    obtenerEstadisticasJuegos Prueba.odm Casos.ochentaJuegos = Ok e /\
    totalJuegos e = 80 /\
    juegsCompletados e = 23 /\
    porcentajeCompletado e = Fin p /\
    (Num.redondear 1 (inject_Z (juegsCompletados e) / inject_Z (totalJuegos e) * 100)
     == 288 # 10)%Q /\
    Num.binary64 (287 # 10) = Fin p /\
    (p < 2871 # 100)%Q /\
    ~ (p == Num.redondear 1
              (inject_Z (juegsCompletados e) / inject_Z (totalJuegos e) * 100))%Q.
Proof.
  eexists _, _. split; [vm_compute; reflexivity|].
  split; [reflexivity|]. split; [reflexivity|]. split; [reflexivity|].
  split; [vm_compute; reflexivity|]. split; [vm_compute; reflexivity|].
  split; [vm_compute; reflexivity|]. vm_compute. discriminate.
Qed.

Section Orden.
Context {A : Type} (le : A -> A -> bool) (P : A -> Prop).
Hypothesis le_total : forall x y, P x -> P y -> le x y = true \/ le y x = true.
Hypothesis le_trans : forall x y z, P x -> P y -> P z ->
  le x y = true -> le y z = true -> le x z = true.

Lemma insertarOrdenado_perm x l : insertarOrdenado le x l ≡ₚ x :: l.
Proof.
  induction l as [|y l IH]; simpl; [done|].
  destruct (le x y); [done|]. rewrite IH. apply Permutation_swap.
Qed.

Lemma ordenar_perm l : ordenar le l ≡ₚ l.
Proof.
  induction l as [|x l IH]; simpl; [done|].
  rewrite insertarOrdenado_perm. by rewrite IH.
Qed.

Lemma insertarOrdenado_sorted x l :
  P x -> Forall P l ->
  StronglySorted (fun a b => le a b = true) l ->
  StronglySorted (fun a b => le a b = true) (insertarOrdenado le x l).
Proof.
  intros Px HP Hs. induction Hs as [|y l Hs IH Hy]; simpl.
  - repeat constructor.
  - apply Forall_cons in HP as [Py HP].
    destruct (le x y) eqn:E.
    + constructor; [by constructor|]. constructor; [done|].
      apply Forall_forall. intros z Hz.
      rewrite Forall_forall in Hy, HP. eauto.
    + constructor; [by apply IH|].
      rewrite insertarOrdenado_perm. constructor; [|done].
      destruct (le_total x y Px Py); congruence.
Qed.

Lemma ordenar_sorted l :
  Forall P l -> StronglySorted (fun a b => le a b = true) (ordenar le l).
Proof.
  induction 1 as [|x l Px HP IH]; simpl; [constructor|].
  apply insertarOrdenado_sorted; [done| |done].
  by rewrite ordenar_perm.
Qed.

End Orden.



Lemma select_leer campos d k :
  k = "_id" \/ k ∈ campos -> leer (select campos d) k = leer d k.
Proof.
  intros Hk. unfold leer, select. destruct (d !! k) as [v|] eqn:E.
  - by erewrite (map_lookup_filter_Some_2 _ d k v).
  - by rewrite (map_lookup_filter_None_2 _ d k) by auto.
Qed.




(** The scenario of the specification: with 0, 5 and 10 hours and N = 2 the
    ranking is the 10-hour item and then the 5-hour item. *)
Example obtenerJuegosMasJugados_0_5_10 :
  exists ranking,
    obtenerJuegosMasJugados Prueba.odm (Some 2) Prueba.tresJuegos = Ok ranking /\
    (fun d => (leer d "nombre", leer d "horasJugadas")) <$> ranking =
    [ (VStr "Quake", VNum (Fin 10)); (VStr "Doom", VNum (Fin 5)) ].
Proof. eexists. split; vm_compute; reflexivity. Qed.

End Estadisticas.

(** ** Items and reviews in the store *)

Section Almacen.
Import Mongo.

Lemma quitar_incluido {A} (p : A -> bool) l x : x ∈ quitar p l -> x ∈ l.
Proof.
  induction l as [|y l IH]; simpl; [done|].
  destruct (p y); [by right|].
  intros [->|H]%elem_of_cons; [left | right; auto].
Qed.

Lemma quitar_conserva {A} (p : A -> bool) l x :
  x ∈ l -> p x = false -> x ∈ quitar p l.
Proof.
  induction l as [|y l IH]; simpl; [done|].
  intros [->|H]%elem_of_cons Hp.
  - rewrite Hp. left.
  - destruct (p y); [done|]. right. auto.
Qed.

Lemma eliminarJuego_almacen id s :
  (JuegoController.eliminarJuego id s).2 = (JuegoService.eliminar id s).2 /\
  ((JuegoController.eliminarJuego id s).2 = s \/
   exists hex, castObjectId id = Ok (Some hex) /\
     (JuegoController.eliminarJuego id s).2 =
     {| juegos := quitar (tieneId hex) (juegos s); resenias := resenias s |}).
Proof.
  unfold JuegoController.eliminarJuego, JuegoService.eliminar, findByIdAndDelete.
  destruct (castObjectId id) as [[hex|]|e]; simpl; [|auto..].
  destruct (List.find (tieneId hex) (juegos s)); simpl; [|auto].
  split; [done|]. right. eauto.
Qed.

End Almacen.

(** C9. Deleting an item, through the controller or through the service,
    leaves the review collection as it was, so every review is still found
    by its identifier and [obtenerReseniaPorId] still answers it; the item
    collection loses at most the item with the given identifier. *)
Theorem eliminarJuego_conserva_resenias (rt : Runtime) (id : JsVal) (s : Mongo.Store) :
  (JuegoService.eliminar id s).2 = (JuegoController.eliminarJuego id s).2 /\
  Mongo.resenias (JuegoController.eliminarJuego id s).2 = Mongo.resenias s /\
  (forall rid,
      Mongo.findById (Mongo.resenias (JuegoController.eliminarJuego id s).2) rid
      = Mongo.findById (Mongo.resenias s) rid) /\
  (forall rid resenia,
      Mongo.findById (Mongo.resenias s) rid = Ok (Some resenia) ->
      exists cuerpo,
        ReseniaController.obtenerReseniaPorId rt rid (JuegoController.eliminarJuego id s).2
        = Json 200 cuerpo) /\
  (forall d, d ∈ Mongo.juegos (JuegoController.eliminarJuego id s).2 -> d ∈ Mongo.juegos s) /\
  (forall d hex,
      d ∈ Mongo.juegos s ->
      Mongo.castObjectId id = Ok (Some hex) ->
      Mongo.tieneId hex d = false ->
      d ∈ Mongo.juegos (JuegoController.eliminarJuego id s).2).
Proof.
  destruct (eliminarJuego_almacen id s) as [Hs H].
  set (s' := (JuegoController.eliminarJuego id s).2) in *.
  assert (Hr : Mongo.resenias s' = Mongo.resenias s).
  { destruct H as [->|(hex & _ & ->)]; done. }
  split; [done|]. split; [done|]. split; [by intros; rewrite Hr|]. split.
  { intros rid r Hf. unfold ReseniaController.obtenerReseniaPorId.
    rewrite Hr, Hf. simpl.
    destruct (transformarReseniaAFrontend_total rt
      (VObj (Mongo.populate "juegoId" ["nombre"; "genero"] (Mongo.juegos s')
               (Mongo.hidratarResenia (DateNow rt) r)))) as [c ->].
    simpl. eauto. }
  split.
  - intros d. destruct H as [->|(hex & _ & ->)]; [done|]. apply quitar_incluido.
  - intros d hex Hd Hc Hid. destruct H as [->|(hex' & Hc' & ->)]; [done|].
    simpl. rewrite Hc in Hc'. injection Hc' as <-. by apply quitar_conserva.
Qed.

Lemma eliminarJuego_conserva_resenias_witness :
  Mongo.findById (Mongo.resenias Prueba.biblioteca) (VStr "65f0c0ffee0000000000000a")
  = Ok (Some Prueba.resenia) /\
  Mongo.juegos (JuegoController.eliminarJuego (VStr "65f0c0ffee00000000000001")
                  Prueba.biblioteca).2 = [] /\
  Mongo.resenias (JuegoController.eliminarJuego (VStr "65f0c0ffee00000000000001")
                    Prueba.biblioteca).2 = Mongo.resenias Prueba.biblioteca /\
  exists cuerpo,
    ReseniaController.obtenerReseniaPorId Prueba.rt (VStr "65f0c0ffee0000000000000a")
      (JuegoController.eliminarJuego (VStr "65f0c0ffee00000000000001") Prueba.biblioteca).2
    = Json 200 cuerpo.
Proof.
  assert (H1 : Mongo.findById (Mongo.resenias Prueba.biblioteca)
                 (VStr "65f0c0ffee0000000000000a") = Ok (Some Prueba.resenia))
    by (vm_compute; reflexivity).
  pose proof (eliminarJuego_conserva_resenias Prueba.rt
                (VStr "65f0c0ffee00000000000001") Prueba.biblioteca)
    as (_ & Hresenias & _ & Hconsulta & _).
  split; [exact H1|]. split; [vm_compute; reflexivity|]. split; [exact Hresenias|].
  exact (Hconsulta (VStr "65f0c0ffee0000000000000a") Prueba.resenia H1).
Defined.

(** C3, as the code has it. When the referenced identifier is well formed
    and resolves to no item, the handler of funciones/resenias/post.js
    answers 404 and [ReseniaService.crear] raises "Juego no encontrado". When
    the identifier is malformed the handler answers 400 and the service
    raises the cast error instead. In none of these cases is a review
    stored: the store is the one before the request. *)
Theorem crearResenia_juego_inexistente
    (rt : Runtime) (odm : Mongo.Odm) (env : Entorno)
    (o : gmap string JsVal) (s : Mongo.Store) :
  (Validation.validarObjectId rt (leer o "juegoId") = false ->
   FuncionesResenias.crearResenia rt odm env (VObj o) s =
   (Json 400 (objeto [("error", VStr "ID de juego no válido")]), s)) /\
  (Validation.validarObjectId rt (leer o "juegoId") = true ->
   Mongo.findById (Mongo.juegos s) (leer o "juegoId") = Ok None ->
   FuncionesResenias.crearResenia rt odm env (VObj o) s =
   (Json 404 (objeto [("error", VStr "Juego no encontrado")]), s)) /\
  (forall e,
   Validation.validarObjectId rt (leer o "juegoId") = true ->
   Mongo.findById (Mongo.juegos s) (leer o "juegoId") = Throw e ->
   FuncionesResenias.crearResenia rt odm env (VObj o) s = (Next e, s)) /\
  (Mongo.findById (Mongo.juegos s) (leer o "juegoId") = Ok None ->
   ReseniaService.crear rt odm env (VObj o) s =
   (Throw (Envuelto "Error creando reseña: " (Error "Juego no encontrado" None)), s)) /\
  (forall e,
   Mongo.findById (Mongo.juegos s) (leer o "juegoId") = Throw e ->
   ReseniaService.crear rt odm env (VObj o) s =
   (Throw (Envuelto "Error creando reseña: " e), s)).
Proof.
  unfold FuncionesResenias.crearResenia, ReseniaService.crear. simpl.
  repeat split.
  - by intros ->.
  - by intros -> ->.
  - by intros e -> ->.
  - by intros ->.
  - by intros e ->.
Qed.

Lemma crearResenia_juego_inexistente_witness :
  Validation.validarObjectId Prueba.rt (leer Prueba.reseniaSinJuego "juegoId") = true /\
  Mongo.findById (Mongo.juegos Prueba.biblioteca) (leer Prueba.reseniaSinJuego "juegoId")
  = Ok None /\
  FuncionesResenias.crearResenia Prueba.rt Prueba.odm Prueba.env
    (VObj Prueba.reseniaSinJuego) Prueba.biblioteca =
  (Json 404 (objeto [("error", VStr "Juego no encontrado")]), Prueba.biblioteca) /\
  ReseniaService.crear Prueba.rt Prueba.odm Prueba.env
    (VObj Prueba.reseniaSinJuego) Prueba.biblioteca =
  (Throw (Envuelto "Error creando reseña: " (Error "Juego no encontrado" None)),
   Prueba.biblioteca).
Proof.
  assert (H1 : Validation.validarObjectId Prueba.rt
                 (leer Prueba.reseniaSinJuego "juegoId") = true)
    by (vm_compute; reflexivity).
  assert (H2 : Mongo.findById (Mongo.juegos Prueba.biblioteca)
                 (leer Prueba.reseniaSinJuego "juegoId") = Ok None)
    by (vm_compute; reflexivity).
  pose proof (crearResenia_juego_inexistente
                Prueba.rt Prueba.odm Prueba.env Prueba.reseniaSinJuego Prueba.biblioteca)
    as (_ & H404 & _ & Hservicio & _).
  split; [exact H1|]. split; [exact H2|].
  split; [exact (H404 H1 H2) | exact (Hservicio H2)].
Defined.

(** C3 as stated fails on a malformed identifier: "abc" resolves to no item,
    yet the handler answers 400 "ID de juego no válido" rather than 404, and
    the service raises the cast error rather than "Juego no encontrado". *)
Lemma crearResenia_id_malformado :
  Mongo.findById (Mongo.juegos Prueba.biblioteca) (leer Prueba.reseniaIdMalformado "juegoId")
  = Throw CastError /\
  FuncionesResenias.crearResenia Prueba.rt Prueba.odm Prueba.env
    (VObj Prueba.reseniaIdMalformado) Prueba.biblioteca =
  (Json 400 (objeto [("error", VStr "ID de juego no válido")]), Prueba.biblioteca) /\
  ReseniaService.crear Prueba.rt Prueba.odm Prueba.env
    (VObj Prueba.reseniaIdMalformado) Prueba.biblioteca =
  (Throw (Envuelto "Error creando reseña: " CastError), Prueba.biblioteca).
Proof. repeat split; vm_compute; reflexivity. Qed.

(** ** Creating an item *)

Section Titulos.
Import Mongo Vocabulario Caracteres.

Lemma esLiteral_atomo c :
  esLiteral c = true ->
  RegExp.fueraDeFragmento c = false /\
  Ascii.eqb c "(" = false /\ Ascii.eqb c ")" = false /\ Ascii.eqb c "." = false /\
  Ascii.eqb c "^" = false /\ Ascii.eqb c "$" = false.
Proof.
  unfold esLiteral. intros [H1 H2]%andb_true_iff.
  apply negb_true_iff in H1. apply negb_true_iff, bool_decide_eq_false in H2.
  split; [done|].
  repeat split; apply Ascii.eqb_neq; intros ->; apply H2; set_solver.
Qed.

Lemma atomos_sencillo n :
  tituloSencillo n = true ->
  RegExp.atomos 0 (n +:+ "$") = Ok (literales n ++ [RegExp.Final]).
Proof.
  induction n as [|c n IH]; [done|].
  simpl. intros [Hc Hn]%andb_true_iff.
  destruct (esLiteral_atomo c Hc) as (_ & -> & -> & -> & -> & ->).
  by rewrite (IH Hn).
Qed.

Lemma todos_app p a b : todos p (a +:+ b) = todos p a && todos p b.
Proof. induction a as [|c a IH]; simpl; [done|]. by rewrite IH, andb_assoc. Qed.

Lemma nuevo_sencillo n :
  tituloSencillo n = true ->
  RegExp.nuevo ("^" +:+ n +:+ "$") =
  Some (Ok (RegExp.Inicio :: literales n ++ [RegExp.Final])).
Proof.
  intros Hn. unfold RegExp.nuevo.
  assert (Hf : todos (fun c => negb (RegExp.fueraDeFragmento c)) ("^" +:+ n +:+ "$") = true).
  { change ("^" +:+ n +:+ "$") with (String "^" (n +:+ "$")).
    simpl. rewrite todos_app. simpl. rewrite andb_true_r.
    clear -Hn. induction n as [|c n IH]; [done|]. simpl in *.
    apply andb_true_iff in Hn as [Hc Hn].
    destruct (esLiteral_atomo c Hc) as (-> & _). simpl. auto. }
  rewrite Hf. change ("^" +:+ n +:+ "$") with (String "^" (n +:+ "$")).
  simpl. by rewrite atomos_sencillo.
Qed.

Lemma coincideAqui_literales n i s :
  RegExp.coincideAqui (literales n ++ [RegExp.Final]) i s = igualSinCaja n s.
Proof.
  revert i s. induction n as [|c n IH]; intros i [|x s]; simpl; try done.
  by rewrite IH.
Qed.

Lemma buscar_inicio p i s : RegExp.buscar (RegExp.Inicio :: p) (S i) s = false.
Proof. revert i. induction s as [|x s IH]; intros i; simpl; [done|]. apply IH. Qed.

Lemma test_sencillo n s :
  RegExp.test (RegExp.Inicio :: literales n ++ [RegExp.Final]) s = igualSinCaja n s.
Proof.
  unfold RegExp.test. destruct s as [|x s]; simpl.
  - rewrite orb_false_r. apply coincideAqui_literales.
  - rewrite buscar_inicio, orb_false_r.
    apply (coincideAqui_literales n 0 (String x s)).
Qed.

Lemma findOne_titulo re n docs :
  (forall s, re s = igualSinCaja n s) ->
  findOne [Coincide "nombre" re] docs = None <-> existeTitulo n docs = false.
Proof.
  intros Hre. unfold findOne, existeTitulo.
  induction docs as [|d docs IH]; simpl; [done|].
  unfold coincideCampo at 1. rewrite andb_true_r.
  destruct (d !! "nombre") as [[]|]; simpl; try done.
  rewrite Hre. by destruct (igualSinCaja n s).
Qed.

Lemma idCanonico_cast hex :
  idCanonico hex = true -> castObjectId (VStr hex) = Ok (Some hex).
Proof.
  unfold idCanonico, castObjectId, Validation.validarObjectIdTexto.
  intros [Hl Hc]%andb_true_iff. rewrite Hl. simpl.
  assert (H : todos esHex hex = true /\ mapear aMinuscula hex = hex).
  { clear Hl. induction hex as [|c hex IH]; [done|]. simpl in *.
    apply andb_true_iff in Hc as [Hc Hh]. destruct (IH Hh) as [-> ->].
    assert (Hx : esHex c = true /\ aMinuscula c = c).
    { unfold esHex, aMinuscula, esMayuscula, esDigito, entre in *.
      destruct (N.leb_spec 48 (codigo c)), (N.leb_spec (codigo c) 57),
               (N.leb_spec 97 (codigo c)), (N.leb_spec (codigo c) 102),
               (N.leb_spec 65 (codigo c)), (N.leb_spec (codigo c) 90);
        simpl in *; try done; lia. }
    destruct Hx as [-> ->]. done. }
  destruct H as [-> ->]. done.
Qed.

(** A runtime that agrees with the fragment of [RegExp] treats the titles
    without syntax characters as a JavaScript engine does. *)
Lemma conforme_literal rt : conforme rt -> conformeLiteral rt.
Proof.
  intros Hrt n Hn. eexists. split; [exact (Hrt _ _ (nuevo_sencillo n Hn))|].
  apply test_sencillo.
Qed.

Lemma crearJuego_titulo_repetido rt odm env (o : gmap string JsVal) n s :
  conformeLiteral rt ->
  tituloSencillo n = true ->
  o !! "nombre" = Some (VStr n) ->
  existeTitulo n (juegos s) = true ->
  JuegoController.crearJuego rt odm env (VObj o) s =
  (Next (crearError "Ya existe un juego con ese nombre" 409), s) /\
  JuegoService.crear rt odm env (VObj o) s =
  (Throw (Envuelto "Error creando juego: "
            (Error "Ya existe un juego con ese nombre" None)), s).
Proof.
  intros Hrt Hn Ho He. destruct (Hrt n Hn) as (re & Hre & Htest).
  unfold JuegoController.crearJuego, JuegoService.crear. simpl.
  unfold leer. rewrite Ho. simpl. rewrite Hre. simpl.
  destruct (findOne _ _) eqn:Ef; [done|].
  apply (findOne_titulo re n) in Ef; [|done]. congruence.
Qed.

Lemma find_nuevo hex (doc : gmap string JsVal) docs :
  existsb (tieneId hex) docs = false ->
  tieneId hex doc = true ->
  List.find (tieneId hex) (docs ++ [doc]) = Some doc.
Proof.
  intros Hd Hdoc. induction docs as [|d docs IH]; simpl in *.
  - by rewrite Hdoc.
  - apply orb_false_iff in Hd as [-> Hd]. auto.
Qed.

Lemma transformarAFrontend_id rt (doc : gmap string JsVal) hex :
  doc !! "_id" = Some (VOid hex) ->
  fechaValida rt (leer doc "fechaCreacion") ->
  fechaValida rt (leer doc "fechaActualizacion") ->
  exists m, Transformer.transformarAFrontend rt (VObj doc) = Ok (VObj m) /\
            m !! "id" = Some (VStr hex).
Proof.
  intros Hid Hc Ha.
  destruct (fechaISO_valida _ _ Hc) as [c Ec].
  destruct (fechaISO_valida _ _ Ha) as [a Ea].
  unfold Transformer.transformarAFrontend. simpl.
  unfold leer at 1 2. rewrite Hid. simpl. rewrite Ec, Ea. simpl.
  eexists. split; [reflexivity|]. done.
Qed.

Lemma crearJuego_titulo_unico rt odm env (o campos : gmap string JsVal) n s :
  conformeLiteral rt ->
  tituloSencillo n = true ->
  o !! "nombre" = Some (VStr n) ->
  existeTitulo n (juegos s) = false ->
  nuevoJuego odm (<["fechaCreacion" := VDate (ahora env)]> o) = Ok campos ->
  fechaValida rt (leer campos "fechaCreacion") ->
  fechaValida rt (leer campos "fechaActualizacion") ->
  idCanonico (nuevoId env) = true ->
  existsb (tieneId (nuevoId env)) (juegos s) = false ->
  exists juego s',
    JuegoController.crearJuego rt odm env (VObj o) s =
    (Json 201 (objeto [("mensaje", VStr "Juego creado exitosamente");
                       ("juego", VObj juego)]), s') /\
    JuegoService.crear rt odm env (VObj o) s = (Ok (VObj juego), s') /\
    juego !! "id" = Some (VStr (nuevoId env)) /\
    JuegoController.obtenerJuegoPorId rt (VStr (nuevoId env)) s' = Json 200 (VObj juego) /\
    JuegoService.obtenerPorId rt (VStr (nuevoId env)) s' = Ok (VObj juego) /\
    resenias s' = resenias s.
Proof.
  intros Hrt Hn Ho He Hnuevo Hc Ha Hid Hfresh. destruct (Hrt n Hn) as (re & Hre & Htest).
  set (doc := <["_id" := VOid (nuevoId env)]> campos).
  assert (Hdoc : doc !! "_id" = Some (VOid (nuevoId env))) by apply lookup_insert_eq.
  destruct (transformarAFrontend_id rt doc (nuevoId env) Hdoc) as (juego & Hj & Hjid).
  { unfold doc, leer. by rewrite lookup_insert_ne. }
  { unfold doc, leer. by rewrite lookup_insert_ne. }
  exists juego, {| juegos := juegos s ++ [doc]; resenias := resenias s |}.
  assert (Hfind : findById (juegos s ++ [doc]) (VStr (nuevoId env)) = Ok (Some doc)).
  { unfold findById. rewrite idCanonico_cast by done. simpl.
    rewrite find_nuevo; [done|done|]. unfold tieneId. rewrite Hdoc. apply String.eqb_refl. }
  unfold JuegoController.crearJuego, JuegoService.crear,
    JuegoController.obtenerJuegoPorId, JuegoService.obtenerPorId. simpl.
  unfold leer at 1 2. rewrite Ho. simpl. rewrite Hre. simpl.
  apply (findOne_titulo re n) in He; [|done]. rewrite He. rewrite Hnuevo. simpl.
  unfold insertar. rewrite Hfresh. simpl. fold doc. rewrite Hj, Hfind. simpl.
  rewrite Hj. done.
Qed.

Lemma conforme_prueba : conforme Prueba.rt.
Proof.
  intros fuente r H. simpl. unfold Prueba.RegExpFragmento. rewrite H. by destruct r.
Qed.

Lemma conformeLiteral_prueba : conformeLiteral Prueba.rt.
Proof. apply conforme_literal, conforme_prueba. Qed.

(** C2 at the failing input. The store holds "Halo (2001)" and the request
    asks for "HALO (2001)", the same title up to case. The pattern built
    from the title reads its parentheses as a group, so it matches
    "HALO 2001" and not the stored title: no duplicate is reported, the
    controller answers 201, the service returns the record, and the store
    ends with two items whose titles are equal up to case. *)
Theorem crearJuego_titulo_con_parentesis :
  conforme Prueba.rt /\
  existeTitulo "HALO (2001)" (juegos Prueba.biblioteca) = true /\
  exists juego s',
    JuegoController.crearJuego Prueba.rt Prueba.odm Prueba.env Prueba.haloRepetido
      Prueba.biblioteca =
    (Json 201 (objeto [("mensaje", VStr "Juego creado exitosamente");
                       ("juego", juego)]), s') /\
    JuegoService.crear Prueba.rt Prueba.odm Prueba.env Prueba.haloRepetido
      Prueba.biblioteca = (Ok juego, s') /\
    fmap (fun d => leer d "nombre") (juegos s') = [VStr "Halo (2001)"; VStr "HALO (2001)"].
Proof.
  split; [apply conforme_prueba|]. split; [reflexivity|].
  do 2 eexists. repeat split; vm_compute; reflexivity.
Qed.

End Titulos.

(** ** Listings: pagination and sorting *)

Section Listados.
Import Mongo Vocabulario.

Ltac abrir_binds H :=
  repeat match type of H with
         | bind ?m _ = Ok _ => destruct m eqn:?; simpl in H; [|discriminate H]
         end.


Lemma consultaTodosLosJuegos_orden rt (query : gmap string JsVal) c :
  JuegoController.consultaTodosLosJuegos rt query = Ok c ->
  match orden c with
  | Some (campo, _) => campo ∈ JuegoController.ordenamientoValido
  | None => True
  end /\
  (leer query "ordenarPor" = VUndefined -> leer query "orden" = VUndefined ->
   orden c = Some ("fechaCreacion", -1)).
Proof.
  unfold JuegoController.consultaTodosLosJuegos. intros H. abrir_binds H.
  injection H as <-.
  match goal with
  | |- context [if ?b then conLimit ?n ?q else _] =>
      assert (Hq : orden (if b then conLimit n q else q) = orden q) by (by destruct b);
      rewrite Hq; clear Hq
  end.
  split.
  - destruct (JuegoController.incluye _ _) eqn:Ei; simpl; [|done].
    destruct (porDefecto (leer query "ordenarPor") _); simpl in Ei; try done.
    by apply bool_decide_eq_true in Ei.
  - by intros -> ->.
Qed.

(** C7 at the failing input. [JuegoService.obtenerTodos] is asked to sort by
    horasJugadas, a field that is not in the allow-list of the controller:
    the query it builds sorts by that field, and the listing comes back in
    descending order of usage hours. *)
Theorem obtenerTodos_ordena_sin_lista_permitida :
  ("horasJugadas" ∉ JuegoController.ordenamientoValido) /\
  (exists c, JuegoService.consultaObtenerTodos Prueba.rt
               {[ "ordenarPor" := VStr "horasJugadas" ]} = Ok c /\
             orden c = Some ("horasJugadas", -1)) /\
  exists listado,
    JuegoService.obtenerTodos Prueba.rt Prueba.odm
      {[ "ordenarPor" := VStr "horasJugadas" ]} Prueba.tresJuegos = Ok listado /\
    Prueba.nombres (JuegoService.juegos listado) = [VStr "Quake"; VStr "Doom"; VStr "Tetris"].
Proof.
  split.
  { intros H. repeat (apply elem_of_cons in H as [H|H]; [discriminate H|]).
    by apply elem_of_nil in H. }
  split.
  - eexists. split; vm_compute; reflexivity.
  - eexists. split; vm_compute; reflexivity.
Qed.

End Listados.

(** * Further properties of the handlers, services and mappers *)

(** ** The mappers, there and back *)

Section MapeoIdaYVuelta.

Lemma leer_copiarEntradas incluir (l : list (string * JsVal)) k v :
  NoDup l.*1 ->
  (k, v) ∈ l ->
  (incluir k v = false -> v = VUndefined) ->
  leer (TransformerLegacy.copiarEntradas incluir l) k = v.
Proof.
  intros Hnd Hin Hdef. unfold leer.
  destruct (TransformerLegacy.copiarEntradas incluir l !! k) as [v'|] eqn:E.
  - apply copiarEntradas_lookup in E as [Hin' Hinc]; [|done].
    pose proof (elem_of_list_to_map_1 (M := gmap string) l k v Hnd Hin) as E1.
    pose proof (elem_of_list_to_map_1 (M := gmap string) l k v' Hnd Hin') as E2.
    simpl. congruence.
  - simpl. destruct (incluir k v) eqn:Hinc.
    + assert (TransformerLegacy.copiarEntradas incluir l !! k = Some v) as E'
        by (apply copiarEntradas_lookup; done).
      congruence.
    + symmetry. auto.
Qed.

Lemma leer_copiarEntradas_ausente incluir (l : list (string * JsVal)) k :
  NoDup l.*1 ->
  k ∉ l.*1 ->
  leer (TransformerLegacy.copiarEntradas incluir l) k = VUndefined.
Proof.
  intros Hnd Hk. unfold leer.
  destruct (TransformerLegacy.copiarEntradas incluir l !! k) as [v'|] eqn:E; [|done].
  apply copiarEntradas_lookup in E as [Hin' _]; [|done].
  exfalso. apply Hk. apply list_elem_of_fmap. by exists (k, v').
Qed.

End MapeoIdaYVuelta.

Lemma leer_insert_ne (m : gmap string JsVal) k k' v :
  k <> k' -> leer (<[k := v]> m) k' = leer m k'.
Proof. intros. unfold leer. by rewrite lookup_insert_ne. Qed.

Lemma leer_insert_eq (m : gmap string JsVal) k v : leer (<[k := v]> m) k = v.
Proof. unfold leer. by rewrite lookup_insert_eq. Qed.

Ltac en_lista :=
  repeat first [ apply list_elem_of_here | apply list_elem_of_further ].

Ltac fuera_de_lista :=
  let H := fresh in
  intros H; repeat (apply elem_of_cons in H as [H|H]; [discriminate H|]);
  by apply elem_of_nil in H.

Ltac leer_entrada :=
  apply leer_copiarEntradas;
  [ claves_distintas
  | en_lista
  | simpl; try discriminate;
    repeat match goal with
           | |- context [is_undefined ?v] => destruct v; simpl; try discriminate; try reflexivity
           end ].

Lemma legacy_transformarABackend_leer (o : gmap string JsVal) :
  exists b,
    TransformerLegacy.transformarABackend (VObj o) = Ok b /\
    leer b "titulo" = leer o "nombre" /\
    leer b "añoLanzamiento" = leer o "año" /\
    leer b "imagenPortada" = or_ (leer o "imagen") (VStr "") /\
    leer b "descripcion" = or_ (leer o "resena") (VStr "") /\
    leer b "genero" = leer o "genero" /\
    leer b "plataforma" = leer o "plataforma" /\
    leer b "tienda" = or_ (leer o "tienda") (VStr "") /\
    leer b "desarrollador" = or_ (leer o "desarrollador") (VStr "") /\
    leer b "completado" =
      (if negb (is_undefined (leer o "completado")) then leer o "completado"
       else VBool false) /\
    leer b "horasJugadas" =
      (if negb (is_undefined (leer o "horasJugadas")) then leer o "horasJugadas"
       else VNum (Fin 0)) /\
    leer b "fechaCreacion" = VUndefined.
Proof.
  unfold TransformerLegacy.transformarABackend. simpl.
  set (b := TransformerLegacy.copiarEntradas _ _). exists b.
  split; [done|].
  split; [subst b; leer_entrada|].
  split; [subst b; leer_entrada|].
  split.
  { subst b; apply leer_copiarEntradas; [claves_distintas|en_lista|].
    simpl. unfold or_. destruct (truthy _) eqn:E; [|discriminate].
    destruct (leer o "imagen"); simpl in *; try discriminate; done. }
  split.
  { subst b; apply leer_copiarEntradas; [claves_distintas|en_lista|].
    simpl. unfold or_. destruct (truthy _) eqn:E; [|discriminate].
    destruct (leer o "resena"); simpl in *; try discriminate; done. }
  split; [subst b; leer_entrada|].
  split; [subst b; leer_entrada|].
  split.
  { subst b; apply leer_copiarEntradas; [claves_distintas|en_lista|].
    simpl. unfold or_. destruct (truthy _) eqn:E; [|discriminate].
    destruct (leer o "tienda"); simpl in *; try discriminate; done. }
  split.
  { subst b; apply leer_copiarEntradas; [claves_distintas|en_lista|].
    simpl. unfold or_. destruct (truthy _) eqn:E; [|discriminate].
    destruct (leer o "desarrollador"); simpl in *; try discriminate; done. }
  split.
  { subst b; apply leer_copiarEntradas; [claves_distintas|en_lista|].
    simpl. destruct (leer o "completado"); simpl; discriminate. }
  split.
  { subst b; apply leer_copiarEntradas; [claves_distintas|en_lista|].
    simpl. destruct (leer o "horasJugadas"); simpl; discriminate. }
  subst b; apply leer_copiarEntradas_ausente; [claves_distintas|].
  vm_compute. fuera_de_lista.
Qed.

(** X1. The mapper of the first schema, there and back. A payload mapped to
    the stored format and, once it carries an identifier, back to the
    frontend format keeps nombre, año, genero and plataforma as they were
    sent; the optional texts come back as sent or as the empty string,
    completado as a boolean, horasJugadas as sent or 0, the identifier as
    its hex digits and the missing creation date as null. *)
Theorem legacy_ida_y_vuelta (rt : Runtime) (o : gmap string JsVal) (hex : string) :
  exists b m,
    TransformerLegacy.transformarABackend (VObj o) = Ok b /\
    TransformerLegacy.transformarAFrontend rt (VObj (<["_id" := VOid hex]> b)) = Ok (VObj m) /\
    m !! "id" = Some (VStr hex) /\
    m !! "nombre" = Some (leer o "nombre") /\
    m !! "año" = Some (leer o "año") /\
    m !! "genero" = Some (leer o "genero") /\
    m !! "plataforma" = Some (leer o "plataforma") /\
    m !! "imagen" = Some (or_ (leer o "imagen") (VStr "")) /\
    m !! "resena" = Some (or_ (leer o "resena") (VStr "")) /\
    m !! "tienda" = Some (or_ (leer o "tienda") (VStr "")) /\
    m !! "desarrollador" = Some (or_ (leer o "desarrollador") (VStr "")) /\
    m !! "completado" = Some (VBool (truthy (leer o "completado"))) /\
    m !! "horasJugadas" = Some (or_ (leer o "horasJugadas") (VNum (Fin 0))) /\
    m !! "fechaCreacion" = Some VNull.
Proof.
  destruct (legacy_transformarABackend_leer o)
    as (b & Hb & E1 & E2 & E3 & E4 & E5 & E6 & E7 & E8 & E9 & E10 & E11).
  exists b. rewrite Hb.
  unfold TransformerLegacy.transformarAFrontend.
  cbn [truthy negb prop bind].
  rewrite leer_insert_eq.
  rewrite !leer_insert_ne by discriminate.
  rewrite E1, E2, E3, E4, E5, E6, E7, E8, E9, E10, E11.
  cbn [toString is_nullish ToString bind fechaISO truthy].
  eexists. split; [reflexivity|]. split; [reflexivity|].
  repeat split.
  - unfold or_. destruct (truthy (leer o "imagen")) eqn:E; simpl; rewrite ?E; done.
  - unfold or_. destruct (truthy (leer o "resena")) eqn:E; simpl; rewrite ?E; done.
  - unfold or_. destruct (truthy (leer o "tienda")) eqn:E; simpl; rewrite ?E; done.
  - unfold or_. destruct (truthy (leer o "desarrollador")) eqn:E; simpl; rewrite ?E; done.
  - destruct (leer o "completado"); done.
  - destruct (leer o "horasJugadas") as [| | |[]| | | | |]; try done.
Qed.

Lemma or_or_ a b : or_ (or_ a b) b = or_ a b.
Proof. unfold or_. destruct (truthy a) eqn:E; [by rewrite E|]. by destruct (truthy b). Qed.

Lemma or_undefined a b : or_ (or_ a VUndefined) b = or_ a b.
Proof. unfold or_. destruct (truthy a) eqn:E; [by rewrite E|]. done. Qed.

Lemma or_nullish a b : is_nullish b = false -> is_nullish (or_ a b) = false.
Proof. unfold or_. destruct (truthy a) eqn:E; [|done]. by destruct a. Qed.

Lemma or_numero rt h :
  or_ (VNum (Number rt (or_ (VNum h) (VNum (Fin 0))))) (VNum (Fin 0)) =
  or_ (VNum h) (VNum (Fin 0)).
Proof.
  unfold or_ at 2 3. destruct (truthy (VNum h)) eqn:E; cbn [Number].
  - unfold or_. by rewrite E.
  - reflexivity.
Qed.

(** X2. The mapper of the second schema, there and back. The round trip
    always yields a record: every field that was sent truthy comes back
    unchanged, a falsy nombre, genero or plataforma comes back as the empty
    string, a falsy año as the current year, completado as a boolean and
    horasJugadas as the number it converts to, or 0. *)
Theorem transformar_ida_y_vuelta (rt : Runtime) (o : gmap string JsVal) (hex : string) :
  exists b m,
    Transformer.transformarABackend rt (VObj o) = Ok b /\
    Transformer.transformarAFrontend rt (VObj (<["_id" := VOid hex]> b)) = Ok (VObj m) /\
    m !! "id" = Some (VStr hex) /\
    m !! "nombre" = Some (or_ (leer o "nombre") (VStr "")) /\
    m !! "año" = Some (or_ (leer o "año") (VNum (Fin (inject_Z (anioActual rt))))) /\
    m !! "genero" = Some (or_ (leer o "genero") (VStr "")) /\
    m !! "plataforma" = Some (or_ (leer o "plataforma") (VStr "")) /\
    m !! "imagen" = Some (or_ (leer o "imagen") (VStr "")) /\
    m !! "resena" = Some (or_ (leer o "resena") (VStr "")) /\
    m !! "tienda" = Some (or_ (leer o "tienda") (VStr "")) /\
    m !! "desarrollador" = Some (or_ (leer o "desarrollador") (VStr "")) /\
    m !! "completado" = Some (VBool (truthy (leer o "completado"))) /\
    m !! "horasJugadas" =
      Some (or_ (VNum (Number rt (leer o "horasJugadas"))) (VNum (Fin 0))) /\
    m !! "fechaCreacion" = Some VNull /\
    m !! "fechaActualizacion" = Some VNull.
Proof.
  unfold Transformer.transformarABackend.
  change (negb (truthy (VObj o)) || negb (String.eqb (typeof (VObj o)) "object"))
    with false.
  cbn [prop bind].
  unfold Transformer.copiarEntradas.
  set (b := TransformerLegacy.copiarEntradas _ _). exists b.
  assert (leer b "nombre" = leer o "nombre") as E1.
  { subst b; apply leer_copiarEntradas; [claves_distintas|en_lista|]. discriminate. }
  assert (leer b "año" = leer o "año") as E2.
  { subst b; apply leer_copiarEntradas; [claves_distintas|en_lista|]. discriminate. }
  assert (leer b "genero" = leer o "genero") as E5.
  { subst b; apply leer_copiarEntradas; [claves_distintas|en_lista|]. discriminate. }
  assert (leer b "plataforma" = leer o "plataforma") as E6.
  { subst b; apply leer_copiarEntradas; [claves_distintas|en_lista|]. discriminate. }
  assert (leer b "imagen" = or_ (leer o "imagen") (VStr "")) as E3.
  { subst b; apply leer_copiarEntradas; [claves_distintas|en_lista|].
    cbn [orb Transformer.esRequeridoJuego]. rewrite or_nullish by done. discriminate. }
  assert (leer b "resena" = or_ (leer o "resena") (VStr "")) as E4.
  { subst b; apply leer_copiarEntradas; [claves_distintas|en_lista|].
    cbn [orb Transformer.esRequeridoJuego]. rewrite or_nullish by done. discriminate. }
  assert (leer b "tienda" = or_ (leer o "tienda") (VStr "")) as E7.
  { subst b; apply leer_copiarEntradas; [claves_distintas|en_lista|].
    cbn [orb Transformer.esRequeridoJuego]. rewrite or_nullish by done. discriminate. }
  assert (leer b "desarrollador" = or_ (leer o "desarrollador") (VStr "")) as E8.
  { subst b; apply leer_copiarEntradas; [claves_distintas|en_lista|].
    cbn [orb Transformer.esRequeridoJuego]. rewrite or_nullish by done. discriminate. }
  assert (leer b "completado" = VBool (truthy (leer o "completado"))) as E9.
  { replace (VBool (truthy (leer o "completado"))) with
      (if negb (is_undefined (leer o "completado"))
       then VBool (truthy (leer o "completado")) else VBool false)
      by (by destruct (leer o "completado")).
    subst b. apply leer_copiarEntradas; [claves_distintas|en_lista|].
    destruct (negb _); intros H; apply orb_false_elim in H as [_ H]; discriminate H. }
  assert (leer b "horasJugadas" =
          or_ (VNum (Number rt (leer o "horasJugadas"))) (VNum (Fin 0))) as E10.
  { replace (or_ (VNum (Number rt (leer o "horasJugadas"))) (VNum (Fin 0))) with
      (if negb (is_undefined (leer o "horasJugadas"))
       then or_ (VNum (Number rt (leer o "horasJugadas"))) (VNum (Fin 0))
       else VNum (Fin 0))
      by (by destruct (leer o "horasJugadas")).
    subst b. apply leer_copiarEntradas; [claves_distintas|en_lista|].
    intros H; apply orb_false_elim in H as [_ H].
    destruct (leer o "horasJugadas"); cbn [negb is_undefined] in H; cbv iota in H;
      try (rewrite or_nullish in H by done); simpl in H; discriminate H. }
  assert (forall k, k ∈ ["titulo"; "añoLanzamiento"; "imagenPortada"; "descripcion";
                         "fechaCreacion"; "fechaActualizacion"] ->
                    leer b k = VUndefined) as E11.
  { intros k Hk. subst b; apply leer_copiarEntradas_ausente; [claves_distintas|].
    vm_compute. intros H.
    repeat (apply elem_of_cons in Hk as [->|Hk];
            [repeat (apply elem_of_cons in H as [H|H]; [discriminate H|]);
             by apply elem_of_nil in H|]).
    by apply elem_of_nil in Hk. }
  clearbody b.
  unfold Transformer.transformarAFrontend.
  cbn [truthy negb prop bind].
  rewrite leer_insert_eq.
  rewrite !leer_insert_ne by discriminate.
  rewrite E1, E2, E3, E4, E5, E6, E7, E8, E9, E10.
  rewrite !E11 by en_lista.
  cbn [toString is_nullish ToString bind fechaISO truthy try_catch].
  eexists. split; [reflexivity|]. split; [reflexivity|].
  rewrite !or_undefined, !or_or_.
  rewrite or_numero.
  repeat split.
Qed.

Ltac abrir_cuerpo :=
  repeat match goal with
         | |- context [bind ?m _] => destruct m; cbn [bind try_catch]
         | |- context [if ?c then _ else _] => destruct c; cbn [bind try_catch]
         end.

Lemma transformarAFrontend_forma rt v :
  exists r, Transformer.transformarAFrontend rt v = Ok r /\
            (r = VNull \/ exists m, r = VObj m).
Proof.
  unfold Transformer.transformarAFrontend.
  destruct (negb (truthy v)); [eauto|].
  abrir_cuerpo; eauto.
Qed.

Lemma transformarReseniaAFrontend_forma rt v :
  exists r, Transformer.transformarReseniaAFrontend rt v = Ok r /\
            (r = VNull \/ exists m, r = VObj m).
Proof.
  unfold Transformer.transformarReseniaAFrontend.
  destruct (negb (truthy v)); [eauto|].
  abrir_cuerpo; eauto.
Qed.

Lemma mapM_forma {A B} (f : A -> Res B) (P : B -> Prop) l :
  (forall x, exists y, f x = Ok y /\ P y) ->
  exists ys, mapM f l = Ok ys /\ Forall P ys /\ length ys = length l.
Proof.
  intros Hf. induction l as [|x l IH]; simpl.
  - exists []. auto.
  - destruct (Hf x) as (y & -> & Hy). destruct IH as (ys & -> & Hys & Hlen).
    simpl. exists (y :: ys). repeat split; [by constructor | simpl; by rewrite Hlen].
Qed.

Lemma filtrar_nulos l :
  Forall (fun r => r = VNull \/ exists m : gmap string JsVal, r = VObj m) l ->
  Forall (fun r => exists m : gmap string JsVal, r = VObj m)
         (filter (fun r => is_null r = false) l) /\
  (length (filter (fun r => is_null r = false) l) <= length l)%nat.
Proof.
  intros H. split.
  - induction H as [|r l Hr _ IH]; [constructor|].
    destruct Hr as [->|[m ->]].
    + rewrite filter_cons_False; [done|]. simpl. done.
    + rewrite filter_cons_True; [|done]. constructor; eauto.
  - apply length_filter.
Qed.


(** X3. The frontend-bound mappers of src/utils/transformer.js never raise:
    on any value they answer null or a record, and their array variants
    answer a list of records no longer than the input, empty for a value
    that is not an array. *)
Theorem transformador_nunca_lanza (rt : Runtime) (v : JsVal) :
  (exists r, Transformer.transformarAFrontend rt v = Ok r /\
             (r = VNull \/ exists m, r = VObj m)) /\
  (exists r, Transformer.transformarReseniaAFrontend rt v = Ok r /\
             (r = VNull \/ exists m, r = VObj m)) /\
  (exists l, Transformer.transformarArrayAFrontend rt v = Ok l /\
             Forall (fun j => exists m, j = VObj m) l /\
             (forall xs, v = VArr xs -> (length l <= length xs)%nat) /\
             ((forall xs, v <> VArr xs) -> l = [])) /\
  (exists l, Transformer.transformarArrayReseniasAFrontend rt v = Ok l /\
             Forall (fun j => exists m, j = VObj m) l /\
             (forall xs, v = VArr xs -> (length l <= length xs)%nat) /\
             ((forall xs, v <> VArr xs) -> l = [])).
Proof.
  split; [apply transformarAFrontend_forma|].
  split; [apply transformarReseniaAFrontend_forma|].
  split.
  - unfold Transformer.transformarArrayAFrontend.
    destruct v as [| |b|n|s|h|t|o|xs];
      try (exists []; split; [done|]; split; [constructor|]; split; [by intros ? [=]|done]).
    destruct (mapM_forma (Transformer.transformarAFrontend rt) _ xs
                (transformarAFrontend_forma rt)) as (ys & -> & Hys & Hlen).
    cbn [bind]. eexists; split; [reflexivity|].
    destruct (filtrar_nulos ys Hys) as [Hobj Hcota].
    repeat split; [done| |].
    + intros ? [= <-]. by rewrite <- Hlen.
    + intros Hno. by destruct (Hno xs).
  - unfold Transformer.transformarArrayReseniasAFrontend.
    destruct v as [| |b|n|s|h|t|o|xs];
      try (exists []; split; [done|]; split; [constructor|]; split; [by intros ? [=]|done]).
    destruct (mapM_forma (Transformer.transformarReseniaAFrontend rt) _ xs
                (transformarReseniaAFrontend_forma rt)) as (ys & -> & Hys & Hlen).
    cbn [bind]. eexists; split; [reflexivity|].
    destruct (filtrar_nulos ys Hys) as [Hobj Hcota].
    repeat split; [done| |].
    + intros ? [= <-]. by rewrite <- Hlen.
    + intros Hno. by destruct (Hno xs).
Qed.

Section MapeoResenia.

Lemma or_truthy a b : truthy b = true -> truthy (or_ a b) = true.
Proof. unfold or_. intros Hb. destruct (truthy a) eqn:E; done. Qed.

Lemma truthy_incluido v :
  truthy v = true ->
  negb (is_nullish v) && negb (match v with VStr s => String.eqb s "" | _ => false end) = true.
Proof. destruct v; simpl; done. Qed.

(** X4. The backend-bound review mapper of src/utils/transformer.js fills in
    its defaults: autor "Anónimo", dificultad "Normal", recomendaria true
    when the field is absent, horasJugadas 0 when it is falsy. Its output
    has only the seven review fields and holds no null, no undefined and
    no empty string: a content or a rating that was not sent under any of
    its names is left out. *)
Theorem transformarReseniaABackend_defaults (rt : Runtime) (o : gmap string JsVal) :
  exists b,
    Transformer.transformarReseniaABackend rt (VObj o) = Ok b /\
    b !! "autor" = Some (or_ (leer o "autor") (VStr "Anónimo")) /\
    b !! "dificultad" = Some (or_ (leer o "dificultad") (VStr "Normal")) /\
    b !! "recomendaria" =
      Some (VBool (if is_undefined (leer o "recomendaria") then true
                   else truthy (leer o "recomendaria"))) /\
    (exists h, b !! "horasJugadas" = Some (VNum h) /\
               (truthy (leer o "horasJugadas") = false -> h = Fin 0) /\
               (truthy (leer o "horasJugadas") = true ->
                h = Number rt (leer o "horasJugadas"))) /\
    (leer o "contenido" = VUndefined -> leer o "texto" = VUndefined ->
     leer o "textoResena" = VUndefined -> b !! "contenido" = None) /\
    (leer o "calificacion" = VUndefined -> leer o "puntuacion" = VUndefined ->
     b !! "calificacion" = None) /\
    (forall k v, b !! k = Some v ->
       is_nullish v = false /\ v <> VStr "" /\
       k ∈ ["juegoId"; "contenido"; "calificacion"; "autor"; "dificultad";
            "recomendaria"; "horasJugadas"]).
Proof.
  unfold Transformer.transformarReseniaABackend. cbn [is_undefined].
  change (negb (truthy (VObj o)) || negb (String.eqb (typeof (VObj o)) "object"))
    with false.
  cbn [prop bind]. unfold Transformer.copiarEntradas.
  set (l := [("juegoId", leer o "juegoId"); _; _; _; _; _; _]).
  assert (NoDup l.*1) as Hnd by (subst l; claves_distintas).
  eexists. split; [reflexivity|].
  split.
  { apply copiarEntradas_lookup; [done|]. split; [subst l; solve [en_lista]|].
    apply truthy_incluido, or_truthy. done. }
  split.
  { apply copiarEntradas_lookup; [done|]. split; [|].
    - subst l. solve [en_lista].
    - apply truthy_incluido, or_truthy. done. }
  split.
  { apply copiarEntradas_lookup; [done|].
    destruct (is_undefined (leer o "recomendaria")) eqn:E; subst l; cbn [negb].
    - rewrite ?E. cbn [negb]. split; [solve [en_lista]|done].
    - rewrite ?E. cbn [negb]. split; [solve [en_lista]|done]. }
  split.
  { exists (if truthy (leer o "horasJugadas") then Number rt (leer o "horasJugadas")
            else Fin 0).
    split.
    - apply copiarEntradas_lookup; [done|]. subst l.
      destruct (truthy (leer o "horasJugadas")); split; try solve [en_lista]; done.
    - split; intros ->; done. }
  split.
  { intros H1 H2 H3.
    destruct (TransformerLegacy.copiarEntradas _ l !! "contenido") as [v|] eqn:E; [|done].
    apply copiarEntradas_lookup in E as [Hin Hinc]; [|done].
    subst l. buscar_entrada Hin. injection Hin as ->.
    rewrite H1, H2, H3 in Hinc. done. }
  split.
  { intros H1 H2.
    destruct (TransformerLegacy.copiarEntradas _ l !! "calificacion") as [v|] eqn:E; [|done].
    apply copiarEntradas_lookup in E as [Hin Hinc]; [|done].
    subst l. buscar_entrada Hin. injection Hin as ->.
    rewrite H1, H2 in Hinc. done. }
  intros k v E.
  apply copiarEntradas_lookup in E as [Hin Hinc]; [|done].
  apply andb_prop in Hinc as [Hn He].
  split; [by apply negb_true_iff in Hn|].
  split; [intros ->; done|].
  apply (list_elem_of_fmap_2 fst) in Hin. exact Hin.
Qed.

End MapeoResenia.

(** ** Reviews, distributions and comparison of genres *)

Section Reportes.
Import Mongo EstadisticasService EstadisticasReportes Vocabulario.


Lemma agregarAGrupo_perm odm clave d grupos :
  concat (snd <$> agregarAGrupo odm clave d grupos) ≡ₚ concat (snd <$> grupos) ++ [d].
Proof.
  induction grupos as [|[k ds] resto IH]; simpl; [done|].
  destruct (mismaClave odm k clave); simpl.
  - rewrite <- !(assoc_L (++)). f_equiv. apply Permutation_app_comm.
  - rewrite IH. by rewrite (assoc_L (++)).
Qed.

Lemma agregarAGrupo_no_vacio odm clave d grupos :
  Forall (fun g : JsVal * list (gmap string JsVal) => g.2 <> []) grupos ->
  Forall (fun g : JsVal * list (gmap string JsVal) => g.2 <> [])
         (agregarAGrupo odm clave d grupos).
Proof.
  induction 1 as [|[k ds] resto Hg Hresto IH]; simpl.
  - by repeat constructor.
  - destruct (mismaClave odm k clave); constructor; try done.
    simpl. intros E. by apply app_eq_nil in E as [_ ?].
Qed.

Lemma agruparPor_perm odm campo docs :
  concat (snd <$> agruparPor odm campo docs) ≡ₚ docs /\
  Forall (fun g : JsVal * list (gmap string JsVal) => g.2 <> [])
         (agruparPor odm campo docs).
Proof.
  unfold agruparPor.
  cut (forall acc,
          Forall (fun g : JsVal * list (gmap string JsVal) => g.2 <> []) acc ->
          concat (snd <$> foldl (fun grupos d =>
                     agregarAGrupo odm (claveGrupo (leer d campo)) d grupos) acc docs)
          ≡ₚ concat (snd <$> acc) ++ docs /\
          Forall (fun g : JsVal * list (gmap string JsVal) => g.2 <> [])
            (foldl (fun grupos d =>
                     agregarAGrupo odm (claveGrupo (leer d campo)) d grupos) acc docs)).
  { intros H. apply (H []). constructor. }
  induction docs as [|d docs IH]; intros acc Hacc; simpl.
  - by rewrite app_nil_r.
  - destruct (IH (agregarAGrupo odm (claveGrupo (leer d campo)) d acc)) as [Hp Hn].
    { by apply agregarAGrupo_no_vacio. }
    split; [|done]. rewrite Hp, agregarAGrupo_perm.
    by rewrite <- (assoc_L (++)).
Qed.

Lemma contar_app {A} (c : A -> bool) l1 l2 : contar c (l1 ++ l2) = contar c l1 + contar c l2.
Proof. unfold contar. rewrite List.filter_app, length_app. lia. Qed.

Lemma contar_perm {A} (c : A -> bool) l1 l2 : l1 ≡ₚ l2 -> contar c l1 = contar c l2.
Proof.
  induction 1; unfold contar in *; simpl; try done.
  - destruct (c x); simpl; lia.
  - destruct (c x), (c y); simpl; lia.
  - lia.
Qed.

Lemma contar_concat {A} (c : A -> bool) (ls : list (list A)) :
  contar c (concat ls) = foldr Z.add 0 (contar c <$> ls).
Proof.
  induction ls as [|l ls IH]; simpl; [done|].
  by rewrite contar_app, IH.
Qed.

Lemma suma_perm (l1 l2 : list Z) : l1 ≡ₚ l2 -> foldr Z.add 0 l1 = foldr Z.add 0 l2.
Proof. induction 1; simpl; lia. Qed.

Lemma proyectarDistribucion_ok conPromedio (g : JsVal * list (gmap string JsVal)) :
  g.2 <> [] ->
  exists f,
    proyectarDistribucion conPromedio g = Ok f /\
    valor f = g.1 /\
    cantidad f = Z.of_nat (length g.2) /\
    completados f = contar (fun d => condVerdadero (leer d "completado")) g.2 /\
    pendientes f = cantidad f - completados f /\
    (if conPromedio then d_promedioHoras f <> None else d_promedioHoras f = None) /\
    d_porcentajeCompletado f = porcentaje (completados f) (cantidad f) /\
    (cantidad f < 2 ^ 53 ->
     cercaDeLaCuota (completados f) (cantidad f) (d_porcentajeCompletado f)).
Proof.
  intros Hg. unfold proyectarDistribucion.
  set (c := contar (fun d => condVerdadero (leer d "completado")) g.2).
  set (t := contar (fun _ => true) g.2).
  assert (Et : t = Z.of_nat (length g.2)) by apply contar_todos.
  assert (Ht : 0 < t) by (rewrite Et; destruct g.2; [done|simpl; lia]).
  assert (Hc : 0 <= c <= t) by (rewrite Et; apply contar_cota).
  rewrite divide_ok by lia. cbn [bind].
  eexists. split; [reflexivity|].
  cbn [valor cantidad completados pendientes d_promedioHoras d_porcentajeCompletado].
  split; [done|]. split; [done|]. split; [done|]. split; [done|].
  split; [by destruct conPromedio|]. split; [done|].
  intros H53.
  destruct (porcentaje_binary64 c t Hc (conj Ht H53)) as (p & k & Hp & Hr & _ & _ & Hd).
  exists p. done.
Qed.

Lemma mapM_proyectar conPromedio (grupos : list (JsVal * list (gmap string JsVal))) :
  Forall (fun g => g.2 <> []) grupos ->
  exists filas,
    mapM (proyectarDistribucion conPromedio) grupos = Ok filas /\
    cantidad <$> filas = (fun g => Z.of_nat (length g.2)) <$> grupos /\
    completados <$> filas =
      (fun g => contar (fun d => condVerdadero (leer d "completado")) g.2) <$> grupos /\
    valor <$> filas = fst <$> grupos /\
    Forall (fun f =>
      1 <= cantidad f /\
      0 <= completados f <= cantidad f /\
      pendientes f = cantidad f - completados f /\
      (if conPromedio then d_promedioHoras f <> None else d_promedioHoras f = None) /\
      d_porcentajeCompletado f = porcentaje (completados f) (cantidad f) /\
      (cantidad f < 2 ^ 53 ->
       cercaDeLaCuota (completados f) (cantidad f) (d_porcentajeCompletado f))) filas.
Proof.
  induction 1 as [|g grupos Hg _ IH]; simpl.
  - exists []. repeat split; constructor.
  - destruct (proyectarDistribucion_ok conPromedio g Hg)
      as (f & -> & Hv & Hn & Hc & Hp & Hprom & Hpc & Hcerca).
    destruct IH as (filas & -> & E1 & E2 & E3 & HF).
    simpl. exists (f :: filas). split; [done|].
    rewrite !fmap_cons, E1, E2, E3, Hv, Hn, Hc.
    repeat split; try done.
    constructor; [|done].
    split; [rewrite Hn; destruct g.2; [done|simpl; lia]|].
    split; [rewrite Hc, Hn; apply contar_cota|].
    split; [done|]. split; [done|]. done.
Qed.

Lemma suma_longitudes {A} (ls : list (list A)) :
  foldr Z.add 0 ((fun l => Z.of_nat (length l)) <$> ls) = Z.of_nat (length (concat ls)).
Proof.
  induction ls as [|l ls IH]; [done|].
  rewrite fmap_cons. cbn [foldr concat]. rewrite IH, length_app. lia.
Qed.

Lemma ordenado_impl {A} (R S : A -> A -> Prop) l :
  (forall a b, R a b -> S a b) -> StronglySorted R l -> StronglySorted S l.
Proof.
  intros HRS. induction 1 as [|x l _ IH Hx]; constructor; [done|].
  eapply Forall_impl; [exact Hx|]. intros y. apply HRS.
Qed.

Lemma porCantidad_sorted filas :
  StronglySorted (fun a b => cantidad b <= cantidad a) (porCantidad filas).
Proof.
  unfold porCantidad.
  pose proof (ordenar_sorted (fun a b : Distribucion => cantidad b <=? cantidad a)
                (fun _ => True)) as H.
  eapply ordenado_impl; [|apply H].
  - intros a b E. simpl in E. by apply Z.leb_le.
  - intros x y _ _. destruct (Z.leb_spec (cantidad y) (cantidad x)); [by left|right].
    apply Z.leb_le. lia.
  - intros x y z _ _ _ E1 E2. apply Z.leb_le. apply Z.leb_le in E1, E2. lia.
  - by apply Forall_forall.
Qed.

Lemma distribucion_general odm campo conPromedio docs :
  exists filas,
    (filas <- mapM (proyectarDistribucion conPromedio) (agruparPor odm campo docs) ;;
     Ok (porCantidad filas)) = Ok filas /\
    foldr Z.add 0 (cantidad <$> filas) = Z.of_nat (length docs) /\
    foldr Z.add 0 (completados <$> filas) =
      contar (fun d => condVerdadero (leer d "completado")) docs /\
    Forall (fun f =>
      1 <= cantidad f /\
      0 <= completados f <= cantidad f /\
      pendientes f = cantidad f - completados f /\
      (if conPromedio then d_promedioHoras f <> None else d_promedioHoras f = None) /\
      d_porcentajeCompletado f = porcentaje (completados f) (cantidad f) /\
      (cantidad f < 2 ^ 53 ->
       cercaDeLaCuota (completados f) (cantidad f) (d_porcentajeCompletado f))) filas /\
    StronglySorted (fun a b => cantidad b <= cantidad a) filas.
Proof.
  destruct (agruparPor_perm odm campo docs) as [Hperm Hnv].
  destruct (mapM_proyectar conPromedio _ Hnv) as (filas & -> & E1 & E2 & _ & HF).
  cbn [bind]. exists (porCantidad filas). split; [done|].
  assert (porCantidad filas ≡ₚ filas) as Hp by apply ordenar_perm.
  split; [|split; [|split]].
  - rewrite (suma_perm _ (cantidad <$> filas)) by (by rewrite Hp).
    rewrite E1.
    rewrite <- (Permutation_length Hperm), <- suma_longitudes.
    by rewrite <- list_fmap_compose.
  - rewrite (suma_perm _ (completados <$> filas)) by (by rewrite Hp).
    rewrite E2.
    rewrite <- (contar_perm _ _ _ Hperm), contar_concat.
    by rewrite <- list_fmap_compose.
  - by rewrite Hp.
  - apply porCantidad_sorted.
Qed.

(** X5. The distributions by genre and by platform always answer. Their rows
    partition the collection: the counts add up to the number of items and
    the completed counts to the number of completed items; every row counts
    at least one item, has pendientes = cantidad - completados, and the
    percentage that the server computes in binary64 from its two counts:
    for a row of fewer than 2^53 items, a number between 0 and 100 at
    distance at most 0.05 + 10^-13 from the share of completed items. The
    rows come sorted by count, largest first. Only the rows by genre carry
    an average. *)
Theorem distribucion_invariantes (odm : Odm) (s : Store) (porGenero : bool) :
  exists filas,
    (if porGenero then obtenerDistribucionGeneros odm s
     else obtenerDistribucionPlataformas odm s) = Ok filas /\
    foldr Z.add 0 (cantidad <$> filas) = Z.of_nat (length (juegos s)) /\
    foldr Z.add 0 (completados <$> filas) =
      contar (fun d => condVerdadero (leer d "completado")) (juegos s) /\
    Forall (fun f =>
      1 <= cantidad f /\
      0 <= completados f <= cantidad f /\
      pendientes f = cantidad f - completados f /\
      (if porGenero then d_promedioHoras f <> None else d_promedioHoras f = None) /\
      d_porcentajeCompletado f = porcentaje (completados f) (cantidad f) /\
      (cantidad f < 2 ^ 53 ->
       cercaDeLaCuota (completados f) (cantidad f) (d_porcentajeCompletado f))) filas /\
    StronglySorted (fun a b => cantidad b <= cantidad a) filas.
Proof.
  destruct porGenero.
  - unfold obtenerDistribucionGeneros.
    destruct (distribucion_general odm "genero" true (juegos s)) as (filas & -> & H).
    by exists filas.
  - unfold obtenerDistribucionPlataformas.
    destruct (distribucion_general odm "plataforma" false (juegos s)) as (filas & -> & H).
    by exists filas.
Qed.

(** X6. [obtenerEstadisticasResenias] always answers. Without reviews it
    returns the fallback object (percentage 0, average 0, no maximum,
    minimum or count of recommendations); otherwise the percentage of
    recommendations is what the server computes in binary64 from the two
    counts: for fewer than 2^53 reviews, a number between 0 and 100 at
    distance at most 0.05 + 10^-13 from recommendations / total * 100. *)
Theorem obtenerEstadisticasResenias_porcentaje (odm : Odm) (s : Store) :
  exists e,
    obtenerEstadisticasResenias odm s = Ok e /\
    totalResenias e = Z.of_nat (length (resenias s)) /\
    (resenias s = [] ->
     porcentajeRecomendacion e = Fin 0 /\ promedioCalificacion e = VNum (Fin 0) /\
     calificacionMaxima e = None /\ calificacionMinima e = None /\
     recomendaciones e = None) /\
    (resenias s <> [] ->
     exists r,
       recomendaciones e = Some r /\
       r = contar (fun d => condVerdadero (leer d "recomendaria")) (resenias s) /\
       0 <= r <= totalResenias e /\
       (Forall (booleano "recomendaria") (resenias s) ->
        r = Z.of_nat (length (List.filter (verdadero "recomendaria") (resenias s)))) /\
       porcentajeRecomendacion e = porcentaje r (totalResenias e) /\
       (totalResenias e < 2 ^ 53 ->
        cercaDeLaCuota r (totalResenias e) (porcentajeRecomendacion e))).
Proof.
  destruct s as [js rs]. unfold obtenerEstadisticasResenias. cbn [resenias].
  destruct rs as [|d l].
  - simpl. eexists. split; [reflexivity|]. simpl.
    repeat split; done.
  - unfold resumirResenias.
    set (c := contar (fun d => condVerdadero (leer d "recomendaria")) (d :: l)).
    set (t := contar (fun _ => true) (d :: l)).
    assert (Et : t = Z.of_nat (length (d :: l))) by apply contar_todos.
    assert (Ht : 0 < t) by (rewrite Et; simpl; lia).
    assert (Hc : 0 <= c <= t) by (rewrite Et; apply contar_cota).
    rewrite divide_ok by lia. cbn [bind try_catch].
    eexists. split; [reflexivity|].
    cbn [totalResenias porcentajeRecomendacion recomendaciones].
    split; [done|]. split; [done|]. intros _. exists c.
    split; [done|]. split; [done|]. split; [done|].
    split; [apply contar_booleanos|]. split; [done|].
    intros H53.
    destruct (porcentaje_binary64 c t Hc (conj Ht H53)) as (p & k & Hp & Hr & _ & _ & Hd).
    exists p. done.
Qed.

Lemma foldl_elige {A} (f : A -> A -> A) x xs :
  (forall a b, f a b = a \/ f a b = b) -> foldl f x xs ∈ x :: xs.
Proof.
  intros Hf. revert x. induction xs as [|y xs IH]; intros x; simpl.
  - apply list_elem_of_here.
  - destruct (Hf x y) as [->| ->].
    + specialize (IH x). apply elem_of_cons in IH as [->|IH].
      * apply list_elem_of_here.
      * by do 2 apply list_elem_of_further.
    + apply list_elem_of_further, IH.
Qed.

Lemma filaComparativa_cantidad (grupos : list (JsVal * list (gmap string JsVal))) :
  f_cantidad <$> (filaComparativa <$> grupos) =
  (fun l => Z.of_nat (length l)) <$> (snd <$> grupos).
Proof.
  rewrite <- !list_fmap_compose. apply list_fmap_ext. intros _ g _. simpl.
  apply contar_todos.
Qed.

(** X7. [obtenerComparativaGeneros] fails on an empty collection: [reduce]
    has no element to start from, and the TypeError leaves wrapped in
    "Error en comparativa de géneros: ". On a collection that is not empty
    it answers; masPopular is the genre of the first row, whose count no
    other row exceeds, the counts add up to the number of items, and
    masJugado and masCompletado are genres of rows of the comparison. *)
Theorem obtenerComparativaGeneros_vacio (rt : Runtime) (odm : Odm) (s : Store) :
  (juegos s = [] ->
   obtenerComparativaGeneros rt odm s =
   Throw (Envuelto "Error en comparativa de géneros: " TypeError)) /\
  (juegos s <> [] ->
   exists c primera,
     obtenerComparativaGeneros rt odm s = Ok c /\
     head (comparativa c) = Some primera /\
     masPopular c = f_genero primera /\
     Forall (fun f => 1 <= f_cantidad f <= f_cantidad primera) (comparativa c) /\
     foldr Z.add 0 (f_cantidad <$> comparativa c) = Z.of_nat (length (juegos s)) /\
     (exists f, f ∈ comparativa c /\ masJugado c = f_genero f) /\
     (exists f, f ∈ comparativa c /\ masCompletado c = f_genero f)).
Proof.
  unfold obtenerComparativaGeneros. split.
  - intros ->. reflexivity.
  - intros Hne.
    destruct (agruparPor_perm odm "genero" (juegos s)) as [Hperm Hnv].
    set (grupos := agruparPor odm "genero" (juegos s)) in *.
    set (filas := ordenar _ (filaComparativa <$> grupos)).
    assert (filas ≡ₚ filaComparativa <$> grupos) as Hp by apply ordenar_perm.
    assert (StronglySorted (fun a b => f_cantidad b <= f_cantidad a) filas) as Hs.
    { subst filas.
      pose proof (ordenar_sorted (fun a b : FilaComparativa => f_cantidad b <=? f_cantidad a)
                    (fun _ => True)) as H.
      eapply ordenado_impl; [|apply H].
      - intros a b E. simpl in E. by apply Z.leb_le.
      - intros x y _ _. destruct (Z.leb_spec (f_cantidad y) (f_cantidad x)); [by left|right].
        apply Z.leb_le. lia.
      - intros x y z _ _ _ E1 E2. apply Z.leb_le. apply Z.leb_le in E1, E2. lia.
      - by apply Forall_forall. }
    assert (Forall (fun f => 1 <= f_cantidad f) filas) as Hpos.
    { rewrite Hp. apply Forall_fmap. eapply Forall_impl; [exact Hnv|].
      intros [k [|d ds]] Hg; [done|]. unfold compose, filaComparativa.
      cbn [f_cantidad snd]. rewrite contar_todos. simpl. lia. }
    assert (foldr Z.add 0 (f_cantidad <$> filas) = Z.of_nat (length (juegos s))) as Hsum.
    { rewrite (suma_perm _ (f_cantidad <$> (filaComparativa <$> grupos)))
        by (by rewrite Hp).
      rewrite filaComparativa_cantidad, suma_longitudes.
      by rewrite (Permutation_length Hperm). }
    clearbody filas.
    destruct filas as [|primera resto].
    { simpl in Hsum. destruct (juegos s); [done|simpl in Hsum; lia]. }
    cbn [reduce bind try_catch head from_option].
    eexists _, primera. split; [reflexivity|].
    cbn [comparativa masPopular masJugado masCompletado].
    split; [done|]. split; [done|]. split.
    { apply StronglySorted_inv in Hs as [_ Hs].
      apply Forall_cons in Hpos as [H1 Hpos]. constructor; [lia|].
      apply Forall_forall. intros f Hf.
      rewrite Forall_forall in Hs, Hpos. split; [by apply Hpos|by apply Hs]. }
    split; [done|]. split.
    + eexists. split; [|reflexivity]. apply foldl_elige.
      intros a b. destruct (mayor _ _ _); auto.
    + eexists. split; [|reflexivity]. apply foldl_elige.
      intros a b. destruct (mayor _ _ _); auto.
Qed.

End Reportes.

(** ** Listings *)

Ltac abrir H :=
  repeat match type of H with
         | bind ?m _ = Ok _ => destruct m eqn:?; cbn [bind] in H; [|discriminate H]
         end.

Section Consultas.
Import Mongo.

Lemma sort_perm odm campo direccion docs : sort odm campo direccion docs ≡ₚ docs.
Proof. unfold sort. destruct (direccion =? 1); apply ordenar_perm. Qed.

Lemma filter_elem {A} (p : A -> bool) l x : x ∈ List.filter p l <-> x ∈ l /\ p x = true.
Proof. rewrite !list_elem_of_In. apply filter_In. Qed.

Lemma exec_resultado odm c docs l :
  exec odm c docs = Ok l ->
  (forall d, d ∈ l -> d ∈ docs /\ evaluar (filtro c) d = true) /\
  (length l <= length (List.filter (evaluar (filtro c)) docs))%nat /\
  (forall n, limite c = Some (Some n) -> n <> 0 -> Z.of_nat (length l) <= Z.abs n).
Proof.
  unfold exec.
  set (encontrados := List.filter (evaluar (filtro c)) docs).
  set (ordenados := match orden c with
                    | Some (campo, direccion) => sort odm campo direccion encontrados
                    | None => encontrados
                    end).
  assert (ordenados ≡ₚ encontrados) as Hp.
  { subst ordenados. destruct (orden c) as [[campo direccion]|]; [apply sort_perm|done]. }
  clearbody ordenados.
  assert (forall saltados, saltados `sublist_of` ordenados ->
            forall l, match limite c with
                      | None => Ok saltados
                      | Some None => Throw CastError
                      | Some (Some n) =>
                          if n =? 0 then Ok saltados
                          else Ok (take (Z.to_nat (Z.abs n)) saltados)
                      end = Ok l ->
            l `sublist_of` ordenados /\
            (forall n, limite c = Some (Some n) -> n <> 0 ->
                       Z.of_nat (length l) <= Z.abs n)) as Hlim.
  { intros saltados Hsub l0 E. destruct (limite c) as [[n|]|]; [| done |].
    - destruct (Z.eqb_spec n 0) as [Hn|Hn]; injection E as <-.
      + split; [done|]. intros ? [= <-]. done.
      + split; [etrans; [apply sublist_take|done]|].
        intros ? [= <-] _. rewrite length_take. lia.
    - injection E as <-. split; [done|]. intros ? [=]. }
  intros E.
  assert (l `sublist_of` ordenados /\
          (forall n, limite c = Some (Some n) -> n <> 0 ->
                     Z.of_nat (length l) <= Z.abs n)) as [Hsub Hn].
  { destruct (salto c) as [[n|]|]; cbn [bind] in E; [| done |].
    - destruct (n <? 0); [done|]. cbn [bind] in E.
      eapply Hlim; [|exact E]. apply sublist_drop.
    - eapply Hlim; [|exact E]. done. }
  split; [|split; [|done]].
  - intros d Hd. apply filter_elem. fold encontrados. rewrite <- Hp.
    by eapply elem_of_sublist.
  - rewrite <- (Permutation_length Hp). by apply sublist_length.
Qed.

Lemma mapM_Forall2 {A B} (f : A -> Res B) l ys :
  mapM f l = Ok ys -> Forall2 (fun x y => f x = Ok y) l ys.
Proof.
  revert ys. induction l as [|x l IH]; intros ys; simpl.
  - intros [= <-]. constructor.
  - destruct (f x) as [y|] eqn:E; [|done]. cbn [bind].
    destruct (mapM f l) as [ys'|]; [|done]. cbn [bind].
    intros [= <-]. constructor; [done|]. by apply IH.
Qed.

Lemma mapM_length {A B} (f : A -> Res B) l ys :
  mapM f l = Ok ys -> length ys = length l.
Proof. intros H. apply mapM_Forall2 in H. symmetry. by eapply Forall2_length. Qed.

Lemma transformarAFrontend_campos rt (d m : gmap string JsVal) :
  Transformer.transformarAFrontend rt (VObj d) = Ok (VObj m) ->
  m !! "completado" = Some (VBool (truthy (leer d "completado"))) /\
  m !! "nombre" = Some (or_ (or_ (leer d "nombre") (leer d "titulo")) (VStr "")) /\
  m !! "genero" = Some (or_ (leer d "genero") (VStr "")) /\
  m !! "plataforma" = Some (or_ (leer d "plataforma") (VStr "")).
Proof.
  unfold Transformer.transformarAFrontend. cbn [truthy negb prop bind].
  destruct (if truthy (leer d "_id") then toString rt (leer d "_id") else Ok (VStr ""));
    cbn [bind try_catch]; [|done].
  destruct (fechaISO rt (leer d "fechaCreacion")); cbn [bind try_catch]; [|done].
  destruct (fechaISO rt (leer d "fechaActualizacion")); cbn [bind try_catch]; [|done].
  intros [= <-]. repeat split.
Qed.

Lemma transformarArrayAFrontend_origen rt (docs : list (gmap string JsVal)) l :
  Transformer.transformarArrayAFrontend rt (VArr (VObj <$> docs)) = Ok l ->
  (length l <= length docs)%nat /\
  Forall (fun j => exists d m, d ∈ docs /\ j = VObj m /\
                     Transformer.transformarAFrontend rt (VObj d) = Ok (VObj m)) l.
Proof.
  unfold Transformer.transformarArrayAFrontend.
  destruct (mapM _ _) as [ys|] eqn:E; [|done]. cbn [bind]. intros [= <-].
  pose proof (mapM_length _ _ _ E) as Hlen. rewrite length_fmap in Hlen.
  split.
  { rewrite <- Hlen. apply length_filter. }
  apply mapM_Forall2 in E.
  apply Forall_forall. intros j Hj.
  apply list_elem_of_filter in Hj as [Hnn Hj].
  apply list_elem_of_lookup in Hj as [i Hi].
  destruct (Forall2_lookup_r _ _ _ _ _ E Hi) as (x & Hx & Hfx).
  apply list_lookup_fmap_Some in Hx as (d & -> & Hd).
  destruct (transformarAFrontend_forma rt (VObj d)) as (r & Hr & [->|[m ->]]).
  - rewrite Hr in Hfx. injection Hfx as <-. done.
  - rewrite Hr in Hfx. injection Hfx as <-.
    exists d, m. split; [by eapply list_elem_of_lookup_2|]. done.
Qed.

Lemma igualBson_bool v b : igualBson v (VBool b) = true -> v = VBool b.
Proof. destruct v as [| |b'|[]| | | | |]; simpl; try done. intros H. by apply eqb_prop in H as ->. Qed.



Lemma consultaObtenerTodos_completado rt (filtros : gmap string JsVal) c :
  JuegoService.consultaObtenerTodos rt filtros = Ok c ->
  leer filtros "completado" <> VUndefined ->
  Igual "completado" (VBool (esTexto (leer filtros "completado") "true")) ∈ filtro c.
Proof.
  unfold JuegoService.consultaObtenerTodos. intros H Hdef.
  abrir H.
  destruct (JuegoService.cotaNaN _ || JuegoService.cotaNaN _) in H; [discriminate H|].
  injection H as <-.
  cbn [filtro conSkip conLimit conSort find].
  assert (is_undefined (leer filtros "completado") = false) as ->
    by (by destruct (leer filtros "completado")).
  cbn [negb]. apply elem_of_app. right. apply elem_of_app. right.
  apply elem_of_app. left. apply list_elem_of_here.
Qed.

Lemma consultaTodosLosJuegos_completado rt (query : gmap string JsVal) c :
  JuegoController.consultaTodosLosJuegos rt query = Ok c ->
  leer query "completado" <> VUndefined ->
  Igual "completado" (VBool (esTexto (leer query "completado") "true")) ∈ filtro c.
Proof.
  unfold JuegoController.consultaTodosLosJuegos. intros H Hdef.
  abrir H. injection H as <-.
  assert (is_undefined (leer query "completado") = false) as ->
    by (by destruct (leer query "completado")).
  cbn [negb].
  match goal with
  | |- _ ∈ filtro (if ?b then conLimit ?n ?q else ?q) =>
      replace (filtro (if b then conLimit n q else q)) with (filtro q)
        by (by destruct b)
  end.
  destruct (JuegoController.incluye _ _); cbn [filtro conSort find];
    (apply elem_of_app; right; apply elem_of_app; right;
     apply elem_of_app; left; apply list_elem_of_here).
Qed.

Lemma filtrados_completado rt odm c (b : bool) docs js l :
  Igual "completado" (VBool b) ∈ filtro c ->
  exec odm c docs = Ok js ->
  Transformer.transformarArrayAFrontend rt (VArr (VObj <$> js)) = Ok l ->
  Forall (fun j => exists m, j = VObj m /\ m !! "completado" = Some (VBool b)) l.
Proof.
  intros Hc E Hl.
  apply exec_resultado in E as (Hin & _).
  apply transformarArrayAFrontend_origen in Hl as [_ Hl].
  eapply Forall_impl; [exact Hl|]. intros j (d & m & Hd & -> & Hm).
  exists m. split; [done|].
  apply transformarAFrontend_campos in Hm as [-> _].
  destruct (Hin d Hd) as [_ Hev]. unfold evaluar in Hev.
  rewrite forallb_forall in Hev. apply list_elem_of_In in Hc.
  specialize (Hev _ Hc). simpl in Hev. apply igualBson_bool in Hev. by rewrite Hev.
Qed.

(** X9. The listing filter on completion. When the request carries
    [completado], every item listed by [JuegoService.obtenerTodos] and by
    the controller's [obtenerTodosLosJuegos] has completado equal to
    (completado === "true"): any value other than the text "true" lists the
    items that are not completed. *)
Theorem filtro_completado (rt : Runtime) (odm : Odm) (filtros : gmap string JsVal)
    (s : Store) :
  leer filtros "completado" <> VUndefined ->
  (forall listado,
      JuegoService.obtenerTodos rt odm filtros s = Ok listado ->
      Forall (fun j => exists m, j = VObj m /\
                m !! "completado" =
                Some (VBool (esTexto (leer filtros "completado") "true")))
             (JuegoService.juegos listado)) /\
  (forall l,
      JuegoController.obtenerTodosLosJuegos rt odm filtros s = Json 200 (VArr l) ->
      Forall (fun j => exists m, j = VObj m /\
                m !! "completado" =
                Some (VBool (esTexto (leer filtros "completado") "true"))) l).
Proof.
  intros Hdef. split.
  - intros listado. unfold JuegoService.obtenerTodos.
    destruct (JuegoService.consultaObtenerTodos rt filtros) as [c|] eqn:Ec; [|done].
    cbn [bind]. destruct (exec odm c (juegos s)) as [js|] eqn:Ex; [|done].
    cbn [bind].
    destruct (Transformer.transformarArrayAFrontend rt _) as [l|] eqn:El; [|done].
    cbn [bind try_catch]. intros [= <-]. cbn [JuegoService.juegos].
    eapply filtrados_completado; [|exact Ex|exact El].
    by apply (consultaObtenerTodos_completado rt).
  - intros l. unfold JuegoController.obtenerTodosLosJuegos.
    destruct (JuegoController.consultaTodosLosJuegos rt filtros) as [c|] eqn:Ec; [|done].
    cbn [bind]. destruct (exec odm c (juegos s)) as [js|] eqn:Ex; [|done].
    cbn [bind].
    destruct (Transformer.transformarArrayAFrontend rt _) as [l'|] eqn:El; [|done].
    cbn [bind]. intros [= <-].
    eapply filtrados_completado; [|exact Ex|exact El].
    by apply (consultaTodosLosJuegos_completado rt).
Qed.

Lemma filtro_completado_witness :
  leer ({[ "completado" := VStr "si" ]} : gmap string JsVal) "completado" <> VUndefined /\
  (exists listado,
      JuegoService.obtenerTodos Prueba.rt Prueba.odm {[ "completado" := VStr "si" ]}
        Prueba.tresJuegos = Ok listado /\
      length (JuegoService.juegos listado) = 2%nat) /\
  (forall listado,
      JuegoService.obtenerTodos Prueba.rt Prueba.odm {[ "completado" := VStr "si" ]}
        Prueba.tresJuegos = Ok listado ->
      Forall (fun j => exists m, j = VObj m /\
                m !! "completado" =
                Some (VBool (esTexto (leer {[ "completado" := VStr "si" ]} "completado")
                               "true")))
             (JuegoService.juegos listado)) /\
  (forall l,
      JuegoController.obtenerTodosLosJuegos Prueba.rt Prueba.odm
        {[ "completado" := VStr "si" ]} Prueba.tresJuegos = Json 200 (VArr l) ->
      Forall (fun j => exists m, j = VObj m /\
                m !! "completado" =
                Some (VBool (esTexto (leer {[ "completado" := VStr "si" ]} "completado")
                               "true"))) l).
Proof.
  split; [discriminate|].
  split; [eexists; split; [vm_compute; reflexivity|reflexivity]|].
  apply (filtro_completado Prueba.rt Prueba.odm {[ "completado" := VStr "si" ]}
           Prueba.tresJuegos).
  discriminate.
Defined.

Lemma incluye_texto l v :
  JuegoController.incluye l v = true -> exists campo, v = VStr campo /\ campo ∈ l.
Proof.
  destruct v; simpl; try done. intros H. apply bool_decide_eq_true in H. eauto.
Qed.

(** X10. The sort allow-list of [obtenerTodosLosJuegos] in the controller.
    A field outside the list is not sorted by at all (the default order is
    not applied in its place either), a field of the list is applied with
    direction 1 for "asc" and -1 for anything else, the query never skips,
    and an unsorted query without limit returns the matching items in
    storage order. *)
Theorem obtenerTodosLosJuegos_lista_permitida
    (rt : Runtime) (odm : Odm) (query : gmap string JsVal) (c : Consulta) :
  JuegoController.consultaTodosLosJuegos rt query = Ok c ->
  (JuegoController.incluye JuegoController.ordenamientoValido
     (porDefecto (leer query "ordenarPor") (VStr "fechaCreacion")) = false ->
   orden c = None) /\
  (forall campo,
      porDefecto (leer query "ordenarPor") (VStr "fechaCreacion") = VStr campo ->
      campo ∈ JuegoController.ordenamientoValido ->
      orden c = Some (campo,
                      if esTexto (porDefecto (leer query "orden") (VStr "desc")) "asc"
                      then 1 else -1)) /\
  (forall campo direccion,
      orden c = Some (campo, direccion) ->
      campo ∈ JuegoController.ordenamientoValido /\ (direccion = 1 \/ direccion = -1)) /\
  salto c = None /\
  (orden c = None -> limite c = None ->
   forall docs, exec odm c docs = Ok (List.filter (evaluar (filtro c)) docs)).
Proof.
  unfold JuegoController.consultaTodosLosJuegos. intros H.
  abrir H. injection H as <-.
  set (ordenarPor := porDefecto (leer query "ordenarPor") (VStr "fechaCreacion")).
  set (dir := if esTexto (porDefecto (leer query "orden") (VStr "desc")) "asc"
              then 1 else -1).
  assert (dir = 1 \/ dir = -1) as Hdir by (subst dir; destruct (esTexto _ _); auto).
  match goal with
  | |- context [if ?b then conLimit ?n ?q else ?q] =>
      assert (orden (if b then conLimit n q else q) = orden q) as ->
        by (by destruct b);
      assert (salto (if b then conLimit n q else q) = salto q) as ->
        by (by destruct b);
      set (c := if b then conLimit n q else q)
  end.
  split; [|split; [|split; [|split]]].
  - intros ->. done.
  - intros campo E Hin.
    assert (JuegoController.incluye JuegoController.ordenamientoValido ordenarPor = true)
      as -> by (rewrite E; simpl; by apply bool_decide_eq_true).
    cbn [orden conSort]. by rewrite E.
  - intros campo direccion.
    destruct (JuegoController.incluye _ _) eqn:E; [|done].
    apply incluye_texto in E as (campo' & -> & Hin).
    cbn [orden conSort ToString]. intros [= <- <-]. done.
  - by destruct (JuegoController.incluye _ _).
  - intros Ho Hl docs. unfold exec.
    assert (salto c = None) as ->.
    { subst c. match goal with |- salto (if ?b then _ else _) = _ => destruct b end;
        by destruct (JuegoController.incluye _ _). }
    assert (orden c = None) as ->.
    { subst c. match goal with |- orden (if ?b then _ else _) = _ => destruct b end;
        exact Ho. }
    rewrite Hl. done.
Qed.

Lemma obtenerTodosLosJuegos_lista_permitida_witness :
  JuegoController.consultaTodosLosJuegos Prueba.rt
    {[ "ordenarPor" := VStr "horasJugadas" ]} = Ok (find []) /\
  orden (find []) = None /\
  forall docs, exec Prueba.odm (find []) docs = Ok (List.filter (evaluar []) docs).
Proof.
  assert (JuegoController.consultaTodosLosJuegos Prueba.rt
            {[ "ordenarPor" := VStr "horasJugadas" ]} = Ok (find [])) as E
    by reflexivity.
  split; [exact E|].
  destruct (obtenerTodosLosJuegos_lista_permitida Prueba.rt Prueba.odm
              {[ "ordenarPor" := VStr "horasJugadas" ]} (find []) E)
    as (H1 & _ & _ & _ & H5).
  split; [apply H1; reflexivity|].
  apply H5; reflexivity.
Defined.

Lemma legacy_transformarArrayAFrontend_length rt xs l :
  TransformerLegacy.transformarArrayAFrontend rt (VArr xs) = Ok l ->
  (length l <= length xs)%nat.
Proof.
  unfold TransformerLegacy.transformarArrayAFrontend.
  destruct (mapM _ _) as [ys|] eqn:E; [|done]. cbn [bind]. intros [= <-].
  rewrite <- (mapM_length _ _ _ E). apply length_filter.
Qed.

Lemma sanitizarConsulta_limite rt (consulta : gmap string JsVal) :
  truthy (leer consulta "limite") = true ->
  ValidationJuegos.c_limite (ValidationJuegos.sanitizarConsulta rt consulta) =
  Some match ValidationJuegos.parseInt10 rt (leer consulta "limite") with
       | Some n => if (0 <? n) && (n <=? 100) then n else 50
       | None => 50
       end.
Proof.
  intros Ht. unfold ValidationJuegos.sanitizarConsulta. cbn [ValidationJuegos.c_limite].
  rewrite Ht. destruct (ValidationJuegos.parseInt10 rt _) as [n|]; [|done].
  by destruct (_ && _).
Qed.

(** X11. The listing of funciones/juegos/get.js never hands an error to
    [next]: it answers 200 with an array or 500 with the fixed error body.
    The array is never longer than the collection. When a limit is given
    and reads as an integer from 1 to 100, the array has at most that many
    items; when it reads as any other integer or as no number at all, the
    array has at most 50 items: an out-of-range limit is replaced by 50,
    not clamped to 100. *)
Theorem legacy_listado_acotado (rt : Runtime) (odm : Odm) (query : gmap string JsVal)
    (s : Store) :
  (forall e, FuncionesJuegos.obtenerTodosLosJuegos rt odm query s <> Next e) /\
  (forall status cuerpo,
      FuncionesJuegos.obtenerTodosLosJuegos rt odm query s = Json status cuerpo ->
      (status = 200 /\ exists l, cuerpo = VArr l) \/
      (status = 500 /\ cuerpo = objeto [("error", VStr "Error interno del servidor")])) /\
  (forall l,
      FuncionesJuegos.obtenerTodosLosJuegos rt odm query s = Json 200 (VArr l) ->
      (length l <= length (juegos s))%nat /\
      (truthy (leer query "limite") = true ->
       (forall n,
           ValidationJuegos.parseInt10 rt (leer query "limite") = Some n ->
           1 <= n <= 100 ->
           Z.of_nat (length l) <= n) /\
       ((forall n,
            ValidationJuegos.parseInt10 rt (leer query "limite") = Some n ->
            n < 1 \/ 100 < n) ->
        Z.of_nat (length l) <= 50))).
Proof.
  unfold FuncionesJuegos.obtenerTodosLosJuegos.
  destruct (FuncionesJuegos.consultaTodosLosJuegos rt query) as [c|] eqn:Ec; cbn [bind];
    [|split; [done|]; split; [intros ? ? [= <- <-]; by right|done]].
  destruct (exec odm c (juegos s)) as [js|] eqn:Ex; cbn [bind];
    [|split; [done|]; split; [intros ? ? [= <- <-]; by right|done]].
  destruct (TransformerLegacy.transformarArrayAFrontend rt _) as [l|] eqn:El; cbn [bind];
    [|split; [done|]; split; [intros ? ? [= <- <-]; by right|done]].
  split; [done|]. split; [intros ? ? [= <- <-]; left; eauto|].
  intros ? [= <-].
  apply legacy_transformarArrayAFrontend_length in El. rewrite length_fmap in El.
  apply exec_resultado in Ex as (_ & Hlen & Hlim).
  split.
  - etrans; [exact El|]. etrans; [exact Hlen|]. apply filter_length_cota.
  - intros Ht.
    unfold FuncionesJuegos.consultaTodosLosJuegos in Ec. abrir Ec.
    rewrite (sanitizarConsulta_limite _ _ Ht) in Ec.
    set (cota := match ValidationJuegos.parseInt10 rt (leer query "limite") with
                 | Some n => if (0 <? n) && (n <=? 100) then n else 50
                 | None => 50
                 end) in *.
    assert (Hcota : Z.of_nat (length l) <= cota).
    { assert (1 <= cota) as H1.
      { unfold cota. destruct (ValidationJuegos.parseInt10 rt _) as [n|]; [|lia].
        destruct (Z.ltb_spec 0 n); cbn [andb]; [|lia].
        destruct (Z.leb_spec n 100); lia. }
      destruct (Z.eqb_spec cota 0); [lia|]. injection Ec as <-.
      specialize (Hlim cota eq_refl). lia. }
    split.
    + intros n En [Hn1 Hn2]. unfold cota in Hcota. rewrite En in Hcota.
      destruct (Z.ltb_spec 0 n); [|lia]. destruct (Z.leb_spec n 100); [|lia].
      exact Hcota.
    + intros Hfuera. unfold cota in Hcota.
      destruct (ValidationJuegos.parseInt10 rt _) as [n|]; [|exact Hcota].
      destruct (Hfuera n eq_refl).
      * destruct (Z.ltb_spec 0 n); [lia|]. exact Hcota.
      * destruct (Z.ltb_spec 0 n); cbn [andb] in Hcota; [|exact Hcota].
        destruct (Z.leb_spec n 100); [lia|]. exact Hcota.
Qed.

End Consultas.

(** ** Pagination *)

Section Paginacion.
Import Mongo Vocabulario.









End Paginacion.




(** ** Items: statuses and effects on the store *)

Section Juegos.
Import Mongo Vocabulario.

Lemma findById_error docs id e : findById docs id = Throw e -> e = CastError.
Proof.
  unfold findById, castObjectId.
  destruct id as [| |b|n|s|h|t|o|xs]; cbn [bind]; try done; try (by intros [= <-]).
  destruct (Validation.validarObjectIdTexto s); cbn [bind]; [done|by intros [= <-]].
Qed.


Lemma quitar_uno {A} (p : A -> bool) l x :
  List.find p l = Some x -> length l = S (length (quitar p l)).
Proof.
  induction l as [|y l IH]; simpl; [done|].
  destruct (p y); [done|]. intros H. simpl. by rewrite (IH H).
Qed.

Lemma quitar_unico {A B} (f : A -> B) (p : A -> bool) (k : B) l :
  NoDup (f <$> l) ->
  (forall x, p x = true -> f x = k) ->
  List.find p (quitar p l) = None.
Proof.
  intros Hnd Hp. induction l as [|y l IH]; simpl; [done|].
  rewrite fmap_cons in Hnd. apply NoDup_cons in Hnd as [Hy Hnd].
  destruct (p y) eqn:Ey.
  - destruct (List.find p l) as [z|] eqn:Ez; [|done].
    apply find_some in Ez as [Hz Epz]. exfalso. apply Hy.
    rewrite (Hp y Ey), <- (Hp z Epz). apply list_elem_of_fmap_2.
    by apply list_elem_of_In.
  - simpl. rewrite Ey. by apply IH.
Qed.

Lemma tieneId_leer hex d : tieneId hex d = true -> leer d "_id" = VOid hex.
Proof.
  unfold tieneId, leer. destruct (d !! "_id") as [[| | | | |h| | |]|]; try done.
  intros H. apply String.eqb_eq in H as ->. done.
Qed.

(** X13. Deleting one item, through the error handler: 404 and 400 from the
    handler that queries the model, 500 from the one that calls the service
    for an unknown and for a malformed identifier, the store unchanged in
    all these cases. A delete that succeeds removes exactly one item in
    both, and when the stored identifiers are distinct the identifier no
    longer resolves afterwards. *)
Theorem eliminarJuego_estados (rt : Runtime) (id : JsVal) (s : Store) :
  (findById (juegos s) id = Ok None ->
   JuegoController.eliminarJuego id s = (Next (crearError "Juego no encontrado" 404), s) /\
   Middleware.estadoFinal (JuegoController.eliminarJuego id s).1 = 404 /\
   JuegoControllerServicio.eliminarJuego id s =
     (Next (Envuelto "Error eliminando juego: " (Error "Juego no encontrado" None)), s) /\
   Middleware.estadoFinal (JuegoControllerServicio.eliminarJuego id s).1 = 500) /\
  (forall e,
      findById (juegos s) id = Throw e ->
      JuegoController.eliminarJuego id s = (Next CastError, s) /\
      Middleware.estadoFinal (JuegoController.eliminarJuego id s).1 = 400 /\
      JuegoControllerServicio.eliminarJuego id s =
        (Next (Envuelto "Error eliminando juego: " CastError), s) /\
      Middleware.estadoFinal (JuegoControllerServicio.eliminarJuego id s).1 = 500) /\
  (forall juego,
      findById (juegos s) id = Ok (Some juego) ->
      exists cuerpo cuerpo' s',
        JuegoController.eliminarJuego id s = (Json 200 cuerpo, s') /\
        JuegoControllerServicio.eliminarJuego id s = (Json 200 cuerpo', s') /\
        prop cuerpo' "id" = Ok (leer juego "_id") /\
        length (juegos s) = S (length (juegos s')) /\
        (NoDup ((fun d => leer d "_id") <$> juegos s) ->
         findById (juegos s') id = Ok None /\
         JuegoController.obtenerJuegoPorId rt id s' =
           Next (crearError "Juego no encontrado" 404))).
Proof.
  unfold JuegoControllerServicio.eliminarJuego, JuegoService.eliminar,
    JuegoController.eliminarJuego, JuegoController.obtenerJuegoPorId,
    findByIdAndDelete, findById.
  destruct (castObjectId id) as [[hex|]|e] eqn:Ec; cbn [bind].
  - split; [|split].
    + intros [= E]. rewrite E. done.
    + intros e [=].
    + intros juego [= E]. rewrite E.
      eexists _, _, _. split; [reflexivity|]. split; [reflexivity|].
      split; [reflexivity|]. cbn [juegos].
      split; [by eapply quitar_uno|].
      intros Hnd.
      rewrite (quitar_unico (fun d => leer d "_id") (tieneId hex) (VOid hex));
        [done|done|apply tieneId_leer].
  - split; [|split].
    + intros _. done.
    + intros e [=].
    + intros juego [=].
  - split; [|split].
    + intros [=].
    + intros e' [= <-].
      assert (e = CastError) as ->.
      { apply (findById_error [] id). unfold findById. by rewrite Ec. }
      done.
    + intros juego [=].
Qed.

(** X14. Creating an item whose title, free of pattern syntax, is already
    stored up to case, on a runtime whose regular expressions match such a
    title as a JavaScript engine does: the handler that queries the model
    answers 409, the handler that calls the service answers 500, and
    neither changes the store. *)
Theorem crearJuego_duplicado_estados
    (rt : Runtime) (odm : Odm) (env : Entorno) (o : gmap string JsVal) (n : string)
    (s : Store) :
  conformeLiteral rt ->
  tituloSencillo n = true ->
  o !! "nombre" = Some (VStr n) ->
  existeTitulo n (juegos s) = true ->
  JuegoController.crearJuego rt odm env (VObj o) s =
    (Next (crearError "Ya existe un juego con ese nombre" 409), s) /\
  Middleware.estadoFinal (JuegoController.crearJuego rt odm env (VObj o) s).1 = 409 /\
  JuegoControllerServicio.crearJuego rt odm env (VObj o) s =
    (Next (Envuelto "Error creando juego: "
             (Error "Ya existe un juego con ese nombre" None)), s) /\
  Middleware.estadoFinal (JuegoControllerServicio.crearJuego rt odm env (VObj o) s).1 = 500.
Proof.
  intros Hc Hn Ho He.
  destruct (crearJuego_titulo_repetido rt odm env o n s Hc Hn Ho He) as [H1 H2].
  unfold JuegoControllerServicio.crearJuego. cbn [prop].
  rewrite H1, H2. done.
Qed.

Lemma crearJuego_duplicado_estados_witness :
  conformeLiteral Prueba.rt /\
  tituloSencillo "DOOM" = true /\
  ({[ "nombre" := VStr "DOOM" ]} : gmap string JsVal) !! "nombre" = Some (VStr "DOOM") /\
  existeTitulo "DOOM" (juegos Prueba.tresJuegos) = true /\
  JuegoController.crearJuego Prueba.rt Prueba.odm Prueba.env
    (VObj {[ "nombre" := VStr "DOOM" ]}) Prueba.tresJuegos =
    (Next (crearError "Ya existe un juego con ese nombre" 409), Prueba.tresJuegos) /\
  Middleware.estadoFinal
    (JuegoController.crearJuego Prueba.rt Prueba.odm Prueba.env
       (VObj {[ "nombre" := VStr "DOOM" ]}) Prueba.tresJuegos).1 = 409 /\
  JuegoControllerServicio.crearJuego Prueba.rt Prueba.odm Prueba.env
    (VObj {[ "nombre" := VStr "DOOM" ]}) Prueba.tresJuegos =
    (Next (Envuelto "Error creando juego: "
             (Error "Ya existe un juego con ese nombre" None)), Prueba.tresJuegos) /\
  Middleware.estadoFinal
    (JuegoControllerServicio.crearJuego Prueba.rt Prueba.odm Prueba.env
       (VObj {[ "nombre" := VStr "DOOM" ]}) Prueba.tresJuegos).1 = 500.
Proof.
  split; [apply conformeLiteral_prueba|].
  split; [reflexivity|]. split; [reflexivity|]. split; [reflexivity|].
  apply (crearJuego_duplicado_estados Prueba.rt Prueba.odm Prueba.env
           {[ "nombre" := VStr "DOOM" ]} "DOOM" Prueba.tresJuegos);
    [apply conformeLiteral_prueba | reflexivity | reflexivity | reflexivity].
Defined.

Lemma igualSinCaja_refl n : igualSinCaja n n = true.
Proof.
  induction n as [|c n IH]; simpl; [done|]. rewrite IH.
  unfold RegExp.igualSinCaja. by rewrite Ascii.eqb_refl.
Qed.

Lemma existeTitulo_app n docs (doc : gmap string JsVal) :
  doc !! "nombre" = Some (VStr n) -> existeTitulo n (docs ++ [doc]) = true.
Proof.
  intros Hd. unfold existeTitulo. rewrite existsb_app. simpl. rewrite Hd.
  rewrite igualSinCaja_refl. by rewrite orb_true_r.
Qed.

Lemma crearJuego_almacen rt odm env (o campos : gmap string JsVal) n s :
  conformeLiteral rt ->
  tituloSencillo n = true ->
  o !! "nombre" = Some (VStr n) ->
  existeTitulo n (juegos s) = false ->
  nuevoJuego odm (<["fechaCreacion" := VDate (ahora env)]> o) = Ok campos ->
  existsb (tieneId (nuevoId env)) (juegos s) = false ->
  exists r,
    JuegoController.crearJuego rt odm env (VObj o) s =
    (r, {| juegos := juegos s ++ [<["_id" := VOid (nuevoId env)]> campos];
           resenias := resenias s |}).
Proof.
  intros Hc Hn Ho He Hcampos Hid. destruct (Hc n Hn) as (re & Hre & Htest).
  unfold JuegoController.crearJuego. simpl.
  unfold leer at 1. rewrite Ho. simpl. rewrite Hre. simpl.
  apply (findOne_titulo re n) in He; [|done]. rewrite He. rewrite Hcampos. simpl.
  unfold insertar. rewrite Hid. simpl.
  destruct (Transformer.transformarAFrontend rt _); eauto.
Qed.

(** X15. Creating the same item twice, on a runtime whose regular
    expressions match a title free of pattern syntax as a JavaScript engine
    does. When such a title is not stored yet and the model keeps it as
    sent, the first request appends exactly one document with the generated
    identifier and leaves the reviews alone; every later request with the
    same body is refused as a duplicate and changes nothing. *)
Theorem crearJuego_dos_veces
    (rt : Runtime) (odm : Odm) (env : Entorno) (o campos : gmap string JsVal)
    (n : string) (s : Store) :
  conformeLiteral rt ->
  tituloSencillo n = true ->
  o !! "nombre" = Some (VStr n) ->
  existeTitulo n (juegos s) = false ->
  nuevoJuego odm (<["fechaCreacion" := VDate (ahora env)]> o) = Ok campos ->
  campos !! "nombre" = Some (VStr n) ->
  existsb (tieneId (nuevoId env)) (juegos s) = false ->
  exists r s',
    JuegoController.crearJuego rt odm env (VObj o) s = (r, s') /\
    juegos s' = juegos s ++ [<["_id" := VOid (nuevoId env)]> campos] /\
    resenias s' = resenias s /\
    (forall env',
        JuegoController.crearJuego rt odm env' (VObj o) s' =
          (Next (crearError "Ya existe un juego con ese nombre" 409), s') /\
        JuegoService.crear rt odm env' (VObj o) s' =
          (Throw (Envuelto "Error creando juego: "
                    (Error "Ya existe un juego con ese nombre" None)), s')).
Proof.
  intros Hc Hn Ho He Hcampos Hnombre Hid.
  destruct (crearJuego_almacen rt odm env o campos n s Hc Hn Ho He Hcampos Hid) as [r Hr].
  eexists r, _. split; [exact Hr|]. cbn [juegos resenias].
  split; [done|]. split; [done|]. intros env'.
  apply (crearJuego_titulo_repetido rt odm env' o n); try done. cbn [juegos].
  apply existeTitulo_app. by rewrite lookup_insert_ne.
Qed.

Lemma crearJuego_dos_veces_witness :
  conformeLiteral Prueba.rt /\
  tituloSencillo "Portal" = true /\
  ({[ "nombre" := VStr "Portal" ]} : gmap string JsVal) !! "nombre" = Some (VStr "Portal") /\
  existeTitulo "Portal" (juegos Prueba.tresJuegos) = false /\
  nuevoJuego Prueba.odm
    (<["fechaCreacion" := VDate (ahora Prueba.env)]> {[ "nombre" := VStr "Portal" ]})
  = Ok (<["fechaCreacion" := VDate (ahora Prueba.env)]> {[ "nombre" := VStr "Portal" ]}) /\
  (<["fechaCreacion" := VDate (ahora Prueba.env)]> {[ "nombre" := VStr "Portal" ]}
     : gmap string JsVal) !! "nombre" = Some (VStr "Portal") /\
  existsb (tieneId (nuevoId Prueba.env)) (juegos Prueba.tresJuegos) = false /\
  exists r s',
    JuegoController.crearJuego Prueba.rt Prueba.odm Prueba.env
      (VObj {[ "nombre" := VStr "Portal" ]}) Prueba.tresJuegos = (r, s') /\
    length (juegos s') = 4%nat /\
    forall env',
      JuegoController.crearJuego Prueba.rt Prueba.odm env'
        (VObj {[ "nombre" := VStr "Portal" ]}) s' =
      (Next (crearError "Ya existe un juego con ese nombre" 409), s').
Proof.
  split; [apply conformeLiteral_prueba|].
  split; [reflexivity|]. split; [reflexivity|]. split; [reflexivity|].
  split; [reflexivity|]. split; [reflexivity|]. split; [reflexivity|].
  destruct (crearJuego_dos_veces Prueba.rt Prueba.odm Prueba.env
              {[ "nombre" := VStr "Portal" ]}
              (<["fechaCreacion" := VDate (ahora Prueba.env)]> {[ "nombre" := VStr "Portal" ]})
              "Portal" Prueba.tresJuegos)
    as (r & s' & H1 & H2 & _ & H4);
    [apply conformeLiteral_prueba | reflexivity | reflexivity | reflexivity | reflexivity
    | reflexivity | reflexivity |].
  exists r, s'. split; [exact H1|]. split; [by rewrite H2|].
  intros env'. apply H4.
Defined.

End Juegos.

Section Legado.
Import Mongo Vocabulario.

Lemma validarJuego_valido rt (datos : gmap string JsVal) :
  ValidationJuegos.valido (ValidationJuegos.validarJuego rt datos) = true <->
  ValidationJuegos.errores (ValidationJuegos.validarJuego rt datos) = [].
Proof.
  unfold ValidationJuegos.validarJuego.
  cbn [ValidationJuegos.valido ValidationJuegos.errores].
  by destruct (_ ++ _).
Qed.

Lemma validarJuego_requeridos rt (datos : gmap string JsVal) :
  ValidationJuegos.valido (ValidationJuegos.validarJuego rt datos) = true ->
  ValidationJuegos.textoAusente rt (leer datos "titulo") = false /\
  ValidationJuegos.textoAusente rt (leer datos "genero") = false /\
  ValidationJuegos.textoAusente rt (leer datos "plataforma") = false /\
  (is_nullish (leer datos "añoLanzamiento") = false ->
   esTexto (leer datos "añoLanzamiento") "" = false ->
   exists a, ValidationJuegos.parseInt10 rt (leer datos "añoLanzamiento") = Some a /\
             1950 <= a <= anioActual rt + 5) /\
  (is_nullish (leer datos "tienda") = false -> exists t, leer datos "tienda" = VStr t).
Proof.
  intros H. apply validarJuego_valido in H.
  unfold ValidationJuegos.validarJuego in H. cbn [ValidationJuegos.errores] in H.
  apply app_eq_nil in H as [H1 H]. apply app_eq_nil in H as [H2 H].
  apply app_eq_nil in H as [H3 H]. apply app_eq_nil in H as [H4 H5].
  split; [by destruct (ValidationJuegos.textoAusente rt (leer datos "titulo"))|].
  split; [by destruct (ValidationJuegos.textoAusente rt (leer datos "genero"))|].
  split; [by destruct (ValidationJuegos.textoAusente rt (leer datos "plataforma"))|].
  split.
  - intros Hn He. rewrite Hn, He in H4. cbn [negb andb] in H4.
    destruct (ValidationJuegos.parseInt10 rt _) as [a|]; [|done].
    exists a. split; [done|].
    destruct (Z.ltb_spec a 1950); [done|].
    destruct (Z.ltb_spec (anioActual rt + 5) a); [done|]. lia.
  - intros Hn. rewrite Hn in H5. cbn [negb] in H5.
    destruct (leer datos "tienda"); try done. eauto.
Qed.

(** X16. The create handler of funciones/juegos/post.js validates what the
    mapper produced. A nombre, genero or plataforma that is missing, not a
    string or blank is answered with 400 and the list of messages, and
    nothing is stored. Whenever the store changes, the three fields were
    non-blank strings, exactly one document with the generated identifier
    was appended, the reviews are untouched and a JSON answer has status
    201. *)
Theorem legacy_crearJuego_valida
    (rt : Runtime) (odm : Odm) (env : Entorno) (o : gmap string JsVal) (s : Store) :
  (ValidationJuegos.textoAusente rt (leer o "nombre") = true \/
   ValidationJuegos.textoAusente rt (leer o "genero") = true \/
   ValidationJuegos.textoAusente rt (leer o "plataforma") = true ->
   exists detalles,
     detalles <> [] /\
     FuncionesJuegos.crearJuego rt odm env (VObj o) s =
     (Json 400 (objeto [("error", VStr "Datos de validación incorrectos");
                        ("detalles", VArr (VStr <$> detalles))]), s)) /\
  (forall r s',
      FuncionesJuegos.crearJuego rt odm env (VObj o) s = (r, s') ->
      s' <> s ->
      ValidationJuegos.textoAusente rt (leer o "nombre") = false /\
      ValidationJuegos.textoAusente rt (leer o "genero") = false /\
      ValidationJuegos.textoAusente rt (leer o "plataforma") = false /\
      resenias s' = resenias s /\
      exists doc, juegos s' = juegos s ++ [doc] /\
                  doc !! "_id" = Some (VOid (nuevoId env)) /\
                  (forall st cuerpo, r = Json st cuerpo -> st = 201)).
Proof.
  unfold FuncionesJuegos.crearJuego.
  destruct (legacy_transformarABackend_leer o)
    as (b & -> & E1 & _ & _ & _ & E5 & E6 & _).
  cbn [bind].
  pose proof (validarJuego_requeridos rt b) as Hreq.
  pose proof (validarJuego_valido rt b) as Hval.
  rewrite E1, E5, E6 in Hreq.
  destruct (ValidationJuegos.valido (ValidationJuegos.validarJuego rt b)) eqn:Ev;
    cbn [negb].
  - destruct (Hreq eq_refl) as (H1 & H2 & H3 & _).
    split.
    { intros [H|[H|H]]; congruence. }
    intros r s' Hrs Hne.
    split; [done|]. split; [done|]. split; [done|].
    destruct (nuevoJuego odm _) as [campos|e]; cbn [bind] in Hrs;
      [|injection Hrs as _ <-; done].
    unfold insertar in Hrs.
    destruct (existsb _ _); cbn [bind] in Hrs; [injection Hrs as _ <-; done|].
    cbn [fst snd] in Hrs.
    destruct (TransformerLegacy.transformarAFrontend rt _) as [j|e] eqn:Ej;
      injection Hrs as <- <-; cbn [juegos resenias];
      (split; [done|]); eexists; (split; [reflexivity|]);
      (split; [by rewrite lookup_insert_eq|]).
    + by intros ? ? [= <- _].
    + done.
  - split.
    + intros _. exists (ValidationJuegos.errores (ValidationJuegos.validarJuego rt b)).
      split; [|done]. intros E. apply Hval in E. done.
    + intros r s' [= _ <-]. done.
Qed.

(** X17. [obtenerJuegoPorId] of funciones/juegos/get.js always answers with
    a status and a body: 400 for an identifier that is not 24 hex digits,
    without querying; otherwise the cast of the identifier cannot fail, and
    the answer is 404 when no item has it, 200 with the mapped item, or 500
    exactly when the mapper raises on the stored item. *)
Theorem legacy_obtenerJuegoPorId_estados (rt : Runtime) (id : string) (s : Store) :
  exists status cuerpo,
    FuncionesJuegos.obtenerJuegoPorId rt (VStr id) s = Json status cuerpo /\
    (Validation.validarObjectIdTexto id = false ->
     status = 400 /\ cuerpo = objeto [("error", VStr "ID no válido")]) /\
    (Validation.validarObjectIdTexto id = true ->
     exists hex,
       castObjectId (VStr id) = Ok (Some hex) /\
       match List.find (tieneId hex) (juegos s) with
       | None => status = 404 /\ cuerpo = objeto [("error", VStr "Juego no encontrado")]
       | Some juego =>
           (status = 200 /\
            TransformerLegacy.transformarAFrontend rt (VObj juego) = Ok cuerpo) \/
           (status = 500 /\
            cuerpo = objeto [("error", VStr "Error interno del servidor")] /\
            exists e, TransformerLegacy.transformarAFrontend rt (VObj juego) = Throw e)
       end).
Proof.
  unfold FuncionesJuegos.obtenerJuegoPorId, Validation.validarObjectId, findById,
    castObjectId.
  cbn [ToString].
  destruct (Validation.validarObjectIdTexto id); cbn [negb bind].
  - destruct (List.find _ (juegos s)) as [juego|] eqn:Ef.
    + destruct (TransformerLegacy.transformarAFrontend rt (VObj juego)) as [j|e] eqn:Ej;
        cbn [bind]; eexists _, _; (split; [reflexivity|]); (split; [done|]);
        intros _; eexists; (split; [reflexivity|]); rewrite Ef.
      * left. done.
      * right. split; [done|]. split; [done|]. eauto.
    + eexists _, _. split; [reflexivity|]. split; [done|]. intros _.
      eexists. split; [reflexivity|]. by rewrite Ef.
  - eexists _, _. split; [reflexivity|]. split; [done|]. done.
Qed.

(** X18. [eliminarJuego] of funciones/juegos/delete.js never touches the
    reviews. An identifier that is not 24 hex digits is answered with 400
    and an unknown one with 404, the store unchanged; a stored one is
    answered with 204 and no body, exactly one item is removed and, when
    the stored identifiers are distinct, reading it afterwards answers
    404. *)
Theorem legacy_eliminarJuego_efecto (rt : Runtime) (id : string) (s : Store) :
  resenias (FuncionesJuegos.eliminarJuego rt (VStr id) s).2 = resenias s /\
  (Validation.validarObjectIdTexto id = false ->
   FuncionesJuegos.eliminarJuego rt (VStr id) s =
   (FuncionesJuegos.Con (Json 400 (objeto [("error", VStr "ID no válido")])), s)) /\
  (Validation.validarObjectIdTexto id = true ->
   exists hex,
     castObjectId (VStr id) = Ok (Some hex) /\
     match List.find (tieneId hex) (juegos s) with
     | None =>
         FuncionesJuegos.eliminarJuego rt (VStr id) s =
         (FuncionesJuegos.Con (Json 404 (objeto [("error", VStr "Juego no encontrado")])), s)
     | Some juego =>
         FuncionesJuegos.eliminarJuego rt (VStr id) s =
         (FuncionesJuegos.SinCuerpo 204,
          {| juegos := quitar (tieneId hex) (juegos s); resenias := resenias s |}) /\
         length (juegos s) = S (length (quitar (tieneId hex) (juegos s))) /\
         (NoDup ((fun d => leer d "_id") <$> juegos s) ->
          exists cuerpo,
            FuncionesJuegos.obtenerJuegoPorId rt (VStr id)
              (FuncionesJuegos.eliminarJuego rt (VStr id) s).2 = Json 404 cuerpo)
     end).
Proof.
  unfold FuncionesJuegos.eliminarJuego, FuncionesJuegos.obtenerJuegoPorId,
    findByIdAndDelete, findById, Validation.validarObjectId, castObjectId.
  cbn [ToString].
  destruct (Validation.validarObjectIdTexto id); cbn [negb bind].
  - destruct (List.find _ (juegos s)) as [juego|] eqn:Ef.
    + split; [done|]. split; [done|]. intros _. eexists. split; [reflexivity|].
      rewrite Ef. split; [done|]. split; [by eapply quitar_uno|].
      intros Hnd. cbn [snd juegos].
      rewrite (quitar_unico (fun d => leer d "_id") _ (VOid (Caracteres.mapear
                 Caracteres.aMinuscula id))); [|done|apply tieneId_leer].
      eauto.
    + split; [done|]. split; [done|]. intros _. eexists. split; [reflexivity|].
      by rewrite Ef.
  - split; [done|]. split; [done|]. done.
Qed.

End Legado.

(** ** Reviews: effects on the store *)

Section Resenias.
Import Mongo Vocabulario.

Lemma find_existe {A} (p : A -> bool) l x :
  x ∈ l -> p x = true -> exists y, List.find p l = Some y.
Proof.
  intros Hx Hp. destruct (List.find p l) as [y|] eqn:E; [eauto|].
  exfalso. apply list_elem_of_In in Hx.
  pose proof (find_none _ _ E _ Hx). congruence.
Qed.

(** X19. One review per author and item in [ReseniaService.crear]: when the
    item exists and a stored review of it carries the same author, a
    non-empty name other than "Anónimo", the request fails with "Ya tienes
    una reseña para este juego" and the store is unchanged. *)
Theorem crearResenia_autor_repetido
    (rt : Runtime) (odm : Odm) (env : Entorno) (o : gmap string JsVal) (s : Store)
    (hex a : string) (juego previa : gmap string JsVal) :
  findById (juegos s) (leer o "juegoId") = Ok (Some juego) ->
  castObjectId (leer o "juegoId") = Ok (Some hex) ->
  leer o "autor" = VStr a ->
  a <> "" ->
  a <> "Anónimo" ->
  previa ∈ resenias s ->
  leer previa "juegoId" = VOid hex ->
  leer previa "autor" = VStr a ->
  ReseniaService.crear rt odm env (VObj o) s =
  (Throw (Envuelto "Error creando reseña: "
            (Error "Ya tienes una reseña para este juego" None)), s).
Proof.
  intros Hj Hc Ha Hne Han Hp Hpj Hpa.
  unfold ReseniaService.crear. cbn [prop bind].
  rewrite Hj. cbn [bind]. rewrite Hc. cbn [bind]. rewrite Ha.
  assert (truthy (VStr a) = true) as ->.
  { simpl. destruct (String.eqb_spec a ""); done. }
  assert (esTexto (VStr a) "Anónimo" = false) as ->.
  { simpl. destruct (String.eqb_spec a "Anónimo"); done. }
  cbn [andb negb bind from_option].
  destruct (find_existe
              (evaluar [Igual "juegoId" (VOid hex); Igual "autor" (VStr a)])
              (resenias s) previa Hp) as [y Hy].
  { simpl. rewrite Hpj, Hpa. simpl. by rewrite !String.eqb_refl. }
  unfold findOne. rewrite Hy. done.
Qed.

Lemma crearResenia_autor_repetido_witness :
  findById (juegos Casos.bibliotecaConAna) (leer Casos.otraReseniaDeAna "juegoId")
  = Ok (Some Prueba.halo) /\
  castObjectId (leer Casos.otraReseniaDeAna "juegoId")
  = Ok (Some "65f0c0ffee00000000000001") /\
  leer Casos.otraReseniaDeAna "autor" = VStr "Ana" /\
  "Ana" <> "" /\
  "Ana" <> "Anónimo" /\
  Casos.reseniaDeAna ∈ resenias Casos.bibliotecaConAna /\
  leer Casos.reseniaDeAna "juegoId" = VOid "65f0c0ffee00000000000001" /\
  leer Casos.reseniaDeAna "autor" = VStr "Ana" /\
  ReseniaService.crear Prueba.rt Prueba.odm Prueba.env (VObj Casos.otraReseniaDeAna)
    Casos.bibliotecaConAna =
  (Throw (Envuelto "Error creando reseña: "
            (Error "Ya tienes una reseña para este juego" None)), Casos.bibliotecaConAna).
Proof.
  assert (Casos.reseniaDeAna ∈ resenias Casos.bibliotecaConAna) as Hin
    by apply list_elem_of_here.
  split; [reflexivity|]. split; [reflexivity|]. split; [reflexivity|].
  split; [discriminate|]. split; [discriminate|]. split; [exact Hin|].
  split; [reflexivity|]. split; [reflexivity|].
  apply (crearResenia_autor_repetido Prueba.rt Prueba.odm Prueba.env
           Casos.otraReseniaDeAna Casos.bibliotecaConAna
           "65f0c0ffee00000000000001" "Ana" Prueba.halo Casos.reseniaDeAna);
    [reflexivity | reflexivity | reflexivity | discriminate | discriminate
    | exact Hin | reflexivity | reflexivity].
Defined.

(** X20. What funciones/resenias/post.js can do to the store. The items are
    never changed. The reviews change only by one appended document with
    the generated identifier, and only when the identifier of the item is
    24 hex digits and resolves, comentario, puntuacion and nombreUsuario
    are truthy, the rating is neither below 1 nor above 5 (a rating that
    converts to NaN passes both comparisons) and the answer is 201. *)
Theorem crearResenia_efecto
    (rt : Runtime) (odm : Odm) (env : Entorno) (body : JsVal) (s : Store) :
  juegos (FuncionesResenias.crearResenia rt odm env body s).2 = juegos s /\
  ((FuncionesResenias.crearResenia rt odm env body s).2 = s \/
   exists juegoId comentario puntuacion nombreUsuario juego campos cuerpo,
     prop body "juegoId" = Ok juegoId /\
     prop body "comentario" = Ok comentario /\
     prop body "puntuacion" = Ok puntuacion /\
     prop body "nombreUsuario" = Ok nombreUsuario /\
     Validation.validarObjectId rt juegoId = true /\
     findById (juegos s) juegoId = Ok (Some juego) /\
     truthy comentario = true /\ truthy puntuacion = true /\
     truthy nombreUsuario = true /\
     Num.menorNum (Number rt puntuacion) (Fin 1) = false /\
     Num.menorNum (Fin 5) (Number rt puntuacion) = false /\
     existsb (tieneId (nuevoId env)) (resenias s) = false /\
     resenias (FuncionesResenias.crearResenia rt odm env body s).2 =
       resenias s ++ [<["_id" := VOid (nuevoId env)]> campos] /\
     (FuncionesResenias.crearResenia rt odm env body s).1 = Json 201 cuerpo).
Proof.
  unfold FuncionesResenias.crearResenia.
  destruct (prop body "juegoId") as [juegoId|] eqn:E1; cbn [bind]; [|by split; [|left]].
  destruct (prop body "comentario") as [comentario|] eqn:E2; cbn [bind];
    [|by split; [|left]].
  destruct (prop body "puntuacion") as [puntuacion|] eqn:E3; cbn [bind];
    [|by split; [|left]].
  destruct (prop body "nombreUsuario") as [nombreUsuario|] eqn:E4; cbn [bind];
    [|by split; [|left]].
  destruct (Validation.validarObjectId rt juegoId) eqn:Ev; cbn [negb];
    [|by split; [|left]].
  destruct (findById (juegos s) juegoId) as [[juego|]|] eqn:Ef; cbn [bind];
    [| by split; [|left] | by split; [|left]].
  destruct (truthy comentario) eqn:T1; cbn [negb orb]; [|by split; [|left]].
  destruct (truthy puntuacion) eqn:T2; cbn [negb orb]; [|by split; [|left]].
  destruct (truthy nombreUsuario) eqn:T3; cbn [negb orb]; [|by split; [|left]].
  destruct (Num.menorNum (Number rt puntuacion) (Fin 1)) eqn:R1; cbn [orb];
    [by split; [|left]|].
  destruct (Num.menorNum (Fin 5) (Number rt puntuacion)) eqn:R2; [by split; [|left]|].
  destruct (nuevaResenia odm _) as [campos|] eqn:En; cbn [bind]; [|by split; [|left]].
  unfold insertar.
  destruct (existsb (tieneId (nuevoId env)) (resenias s)) eqn:Ex; cbn [bind];
    [by split; [|left]|].
  cbn [fst snd juegos resenias]. split; [done|]. right.
  eexists juegoId, comentario, puntuacion, nombreUsuario, juego, campos, _.
  repeat split; done.
Qed.

End Resenias.

(** ** Validation middleware *)

Section Saneamiento.
Import Middleware.

Lemma copiarRecortado_inv rt datos campo (m m' : gmap string JsVal) :
  copiarRecortado rt datos campo m = Ok m' ->
  m' = m \/ exists t, m' = <[campo := VStr t]> m.
Proof.
  unfold copiarRecortado. destruct (prop datos campo) as [v|]; cbn [bind]; [|done].
  destruct (truthy v); [|intros [= <-]; by left].
  destruct v; cbn [recortar bind]; try done. intros [= <-]. right. eauto.
Qed.

Lemma insert_forall (P : string -> JsVal -> Prop) (m : gmap string JsVal) k v :
  P k v -> map_Forall P m -> map_Forall P (<[k := v]> m).
Proof. intros. by apply map_Forall_insert_2. Qed.

Lemma copiarRecortado_forall (P : string -> JsVal -> Prop) rt datos campo
    (m m' : gmap string JsVal) :
  (forall t, P campo (VStr t)) ->
  map_Forall P m ->
  copiarRecortado rt datos campo m = Ok m' ->
  map_Forall P m'.
Proof.
  intros HP Hm H. apply copiarRecortado_inv in H as [->|[t ->]]; [done|].
  by apply insert_forall.
Qed.

(** X21. The sanitizers keep an allow-list of fields. Whatever the body
    holds, [sanitizarJuego] returns only the seven text fields as strings,
    año and horasJugadas as numbers and completado as a boolean, and
    [sanitizarResenia] only juegoId, contenido, autor and calificacion: an
    identifier, a date, dificultad, recomendaria or the hours of a review
    never pass. *)
Theorem sanitizar_lista_blanca (rt : Runtime) (tx : Texto) (datos : JsVal) :
  (forall m,
      sanitizarJuego rt tx datos = Ok m ->
      forall k v, m !! k = Some v ->
        (k ∈ ["nombre"; "genero"; "plataforma"; "imagen"; "resena";
              "desarrollador"; "tienda"] /\ exists t, v = VStr t) \/
        (k ∈ ["año"; "horasJugadas"] /\ exists n, v = VNum n) \/
        (k = "completado" /\ exists b, v = VBool b)) /\
  (forall m,
      sanitizarResenia rt datos = Ok m ->
      forall k v, m !! k = Some v ->
        (k = "juegoId" /\ prop datos "juegoId" = Ok v /\ truthy v = true) \/
        (k ∈ ["contenido"; "autor"] /\ exists t, v = VStr t) \/
        (k = "calificacion" /\ exists n, v = VNum n)).
Proof.
  split.
  - intros m H.
    set (P := fun (k : string) (v : JsVal) =>
      (k ∈ ["nombre"; "genero"; "plataforma"; "imagen"; "resena";
            "desarrollador"; "tienda"] /\ exists t, v = VStr t) \/
      (k ∈ ["año"; "horasJugadas"] /\ exists n, v = VNum n) \/
      (k = "completado" /\ exists b, v = VBool b)).
    cut (map_Forall P m); [intros Hm k v Hk; exact (Hm k v Hk)|].
    unfold sanitizarJuego in H. abrir H. injection H as <-.
    assert (forall campo, campo ∈ ["nombre"; "genero"; "plataforma"; "imagen"; "resena";
                                   "desarrollador"; "tienda"] ->
                          forall t, P campo (VStr t)) as Htexto.
    { intros campo Hc t. left. eauto. }
    assert (map_Forall P (∅ : gmap string JsVal)) as H0 by apply map_Forall_empty.
    repeat match goal with
           | E : copiarRecortado rt datos ?campo ?m0 = Ok ?m1, Hm : map_Forall P ?m0 |- _ =>
               assert (map_Forall P m1)
                 by (apply (copiarRecortado_forall P rt datos campo m0 m1);
                     [apply Htexto; solve [en_lista]|exact Hm|exact E]);
               clear E
           end.
    repeat match goal with
           | |- map_Forall P (if ?c then _ else _) => destruct c
           | |- map_Forall P (<["completado" := _]> _) =>
               apply insert_forall; [right; right; split; [reflexivity|eauto]|]
           | |- map_Forall P (<[_ := _]> _) =>
               apply insert_forall; [right; left; split; [solve [en_lista]|eauto]|]
           end; assumption.
  - intros m H.
    set (P := fun (k : string) (v : JsVal) =>
      (k = "juegoId" /\ prop datos "juegoId" = Ok v /\ truthy v = true) \/
      (k ∈ ["contenido"; "autor"] /\ exists t, v = VStr t) \/
      (k = "calificacion" /\ exists n, v = VNum n)).
    cut (map_Forall P m); [intros Hm k v Hk; exact (Hm k v Hk)|].
    unfold sanitizarResenia in H.
    destruct (prop datos "juegoId") as [juegoId|] eqn:Ej; cbn [bind] in H; [|done].
    destruct (copiarRecortado rt datos "contenido" _) as [s2|] eqn:E2; cbn [bind] in H;
      [|done].
    destruct (prop datos "calificacion") as [calificacion|] eqn:Ec; cbn [bind] in H;
      [|done].
    assert (forall campo, campo ∈ ["contenido"; "autor"] -> forall t, P campo (VStr t))
      as Htexto.
    { intros campo Hc t. right. left. eauto. }
    eapply (copiarRecortado_forall P rt datos "autor");
      [apply Htexto; solve [en_lista]| |exact H].
    assert (map_Forall P s2) as Hs2.
    { eapply (copiarRecortado_forall P rt datos "contenido");
        [apply Htexto; solve [en_lista]| |exact E2].
      destruct (truthy juegoId) eqn:Et; [|apply map_Forall_empty].
      apply map_Forall_singleton. left. done. }
    destruct (truthy calificacion); [|done].
    apply insert_forall; [|done]. right. right. eauto.
Qed.

Lemma erroresJuego_vacio rt tx (o : gmap string JsVal) :
  erroresJuego rt tx o = [] ->
  textoAusente rt (leer o "nombre") = false /\
  (truthy (leer o "año") = true /\
   exists a, entero (leer o "año") = Some a /\ 1970 <= a <= anioActual rt + 2) /\
  textoAusente rt (leer o "genero") = false /\
  textoAusente rt (leer o "plataforma") = false /\
  noEsTexto (leer o "imagen") = false /\
  noEsTexto (leer o "resena") = false /\
  excede rt tx (leer o "nombre") 100 = false /\
  excede rt tx (leer o "resena") 1000 = false.
Proof.
  unfold erroresJuego. intros H.
  apply app_eq_nil in H as [H1 H]. apply app_eq_nil in H as [H2 H].
  apply app_eq_nil in H as [H3 H]. apply app_eq_nil in H as [H4 H].
  apply app_eq_nil in H as [H5 H]. apply app_eq_nil in H as [H6 H].
  apply app_eq_nil in H as [H7 H8].
  split; [by destruct (textoAusente rt (leer o "nombre"))|].
  split.
  { destruct (truthy (leer o "año")); cbn [negb orb] in H2; [|done].
    split; [done|]. destruct (entero (leer o "año")) as [a|]; [|done].
    exists a. split; [done|].
    destruct (Z.ltb_spec a 1970); [done|].
    destruct (Z.ltb_spec (anioActual rt + 2) a); [done|]. lia. }
  split; [by destruct (textoAusente rt (leer o "genero"))|].
  split; [by destruct (textoAusente rt (leer o "plataforma"))|].
  split; [by destruct (noEsTexto (leer o "imagen"))|].
  split; [by destruct (noEsTexto (leer o "resena"))|].
  split; [by destruct (excede rt tx (leer o "nombre") 100)|].
  by destruct (excede rt tx (leer o "resena") 1000).
Qed.

Lemma textoAusente_false rt v :
  textoAusente rt v = false -> exists t, v = VStr t /\ t <> "" /\ trim rt t <> "".
Proof.
  unfold textoAusente. intros H. apply orb_false_elim in H as [H1 H2].
  apply negb_false_iff in H1.
  destruct v; try done. exists s. split; [done|].
  split.
  - simpl in H1. intros ->. done.
  - intros E. rewrite E in H2. done.
Qed.

Lemma noEsTexto_false v :
  noEsTexto v = false -> truthy v = false \/ exists t, v = VStr t.
Proof.
  unfold noEsTexto. destruct (truthy v); [|by left].
  destruct v; try done. right. eauto.
Qed.

Lemma copiarRecortado_texto rt (o : gmap string JsVal) campo t (m : gmap string JsVal) :
  leer o campo = VStr t -> t <> "" ->
  copiarRecortado rt (VObj o) campo m = Ok (<[campo := VStr (trim rt t)]> m).
Proof.
  intros E Ht. unfold copiarRecortado. cbn [prop bind]. rewrite E.
  assert (truthy (VStr t) = true) as ->
    by (simpl; by destruct (String.eqb_spec t "")).
  done.
Qed.

Lemma copiarRecortado_opcional rt (o : gmap string JsVal) campo (m : gmap string JsVal) :
  noEsTexto (leer o campo) = false ->
  exists m', copiarRecortado rt (VObj o) campo m = Ok m' /\
             forall k, k <> campo -> m' !! k = m !! k.
Proof.
  intros H. unfold copiarRecortado. cbn [prop bind].
  apply noEsTexto_false in H as [->|[t ->]].
  - eauto.
  - destruct (truthy (VStr t)); cbn [recortar bind]; [|eauto].
    eexists. split; [done|]. intros k Hk. by rewrite lookup_insert_ne.
Qed.

Lemma copiarRecortado_ne rt datos campo (m m' : gmap string JsVal) k :
  copiarRecortado rt datos campo m = Ok m' -> k <> campo -> m' !! k = m !! k.
Proof.
  intros H Hk. apply copiarRecortado_inv in H as [->|[t ->]]; [done|].
  by rewrite lookup_insert_ne.
Qed.

Lemma copiarRecortado_falla rt (o : gmap string JsVal) campo (m : gmap string JsVal) :
  noEsTexto (leer o campo) = true ->
  copiarRecortado rt (VObj o) campo m = Throw TypeError.
Proof.
  intros H. unfold copiarRecortado. cbn [prop bind].
  unfold noEsTexto in H. apply andb_prop in H as [-> H].
  by destruct (leer o campo).
Qed.

Ltac capas :=
  repeat match goal with
         | |- context [if ?c then _ else _] => destruct c
         end;
  rewrite ?lookup_insert_ne by done; reflexivity.

(** X22. The middleware [validarJuego]. A rejection is an error with status
    400 that the error handler answers as such. An accepted body had
    nombre, genero and plataforma as non-blank strings, which are passed on
    trimmed, a nombre of at most 100 code units and an integer año between
    1970 and the current year plus 2; the body passed on carries neither
    an identifier nor a creation date. *)
Theorem validarJuego_resultado (rt : Runtime) (tx : Texto) (body : JsVal) :
  (forall e,
      validarJuego rt tx body = Ok (inl e) ->
      exists mensaje, e = crearError mensaje 400 /\ errorHandler e = (400, mensaje)) /\
  (forall m,
      validarJuego rt tx body = Ok (inr m) ->
      exists n g p a,
        leer (propias body) "nombre" = VStr n /\ trim rt n <> "" /\
        m !! "nombre" = Some (VStr (trim rt n)) /\
        leer (propias body) "genero" = VStr g /\ trim rt g <> "" /\
        m !! "genero" = Some (VStr (trim rt g)) /\
        leer (propias body) "plataforma" = VStr p /\ trim rt p <> "" /\
        m !! "plataforma" = Some (VStr (trim rt p)) /\
        entero (leer (propias body) "año") = Some a /\
        1970 <= a <= anioActual rt + 2 /\
        Num.menorNum (Num.deZ 100) (Num.deZ (longitud tx n)) = false /\
        m !! "_id" = None /\ m !! "fechaCreacion" = None).
Proof.
  unfold validarJuego.
  destruct (prop body "nombre") as [x|] eqn:Ep; cbn [bind]; [|done].
  destruct (erroresJuego rt tx (propias body)) as [|e1 es] eqn:Ee.
  - split; [by destruct (sanitizarJuego rt tx body)|].
    intros m H.
    destruct (sanitizarJuego rt tx body) as [m'|] eqn:Es; cbn [bind] in H; [|done].
    injection H as ->.
    destruct (erroresJuego_vacio _ _ _ Ee)
      as (Hn & (Hat & a & Ha & Hr) & Hg & Hp & Hi & Hre & Hex & _).
    apply textoAusente_false in Hn as (n & En & Hn0 & Hn).
    apply textoAusente_false in Hg as (g & Eg & Hg0 & Hg).
    apply textoAusente_false in Hp as (p & Epl & Hp0 & Hp).
    assert (exists o, body = VObj o) as [o ->].
    { destruct body; try done. eauto. }
    cbn [propias] in *.
    exists n, g, p, a.
    unfold sanitizarJuego in Es.
    rewrite (copiarRecortado_texto rt o "nombre" n) in Es by done. cbn [bind] in Es.
    rewrite (copiarRecortado_texto rt o "genero" g) in Es by done. cbn [bind] in Es.
    rewrite (copiarRecortado_texto rt o "plataforma" p) in Es by done. cbn [bind] in Es.
    destruct (copiarRecortado rt (VObj o) "imagen" _) as [m4|] eqn:E4; cbn [bind] in Es;
      [|done].
    destruct (copiarRecortado rt (VObj o) "resena" _) as [m5|] eqn:E5; cbn [bind] in Es;
      [|done].
    destruct (copiarRecortado rt (VObj o) "desarrollador" _) as [m6|] eqn:E6;
      cbn [bind] in Es; [|done].
    destruct (copiarRecortado rt (VObj o) "tienda" _) as [m7|] eqn:E7; cbn [bind] in Es;
      [|done].
    cbn [prop bind] in Es. injection Es as <-.
    assert (forall k, k ∈ ["nombre"; "genero"; "plataforma"; "_id"; "fechaCreacion"] ->
              m7 !! k = (<["plataforma" := VStr (trim rt p)]>
                          (<["genero" := VStr (trim rt g)]>
                            (<["nombre" := VStr (trim rt n)]> ∅)) : gmap string JsVal) !! k)
      as Hm7.
    { intros k Hk.
      assert (k <> "imagen" /\ k <> "resena" /\ k <> "desarrollador" /\ k <> "tienda")
        as (N1 & N2 & N3 & N4).
      { repeat (apply elem_of_cons in Hk as [->|Hk]; [done|]). by apply elem_of_nil in Hk. }
      rewrite (copiarRecortado_ne _ _ _ _ _ k E7 N4).
      rewrite (copiarRecortado_ne _ _ _ _ _ k E6 N3).
      rewrite (copiarRecortado_ne _ _ _ _ _ k E5 N2).
      by rewrite (copiarRecortado_ne _ _ _ _ _ k E4 N1). }
    split; [done|]. split; [done|].
    split.
    { transitivity (m7 !! "nombre"); [capas|].
      rewrite Hm7 by solve [en_lista].
      rewrite !lookup_insert_ne by done. by rewrite lookup_insert_eq. }
    split; [done|]. split; [done|].
    split.
    { transitivity (m7 !! "genero"); [capas|].
      rewrite Hm7 by solve [en_lista].
      rewrite lookup_insert_ne by done. by rewrite lookup_insert_eq. }
    split; [done|]. split; [done|].
    split.
    { transitivity (m7 !! "plataforma"); [capas|].
      rewrite Hm7 by solve [en_lista]. by rewrite lookup_insert_eq. }
    split; [done|]. split; [done|].
    split.
    { unfold excede in Hex. rewrite En in Hex.
      assert (truthy (VStr n) = true) as Ht
        by (simpl; by destruct (String.eqb_spec n "")).
      rewrite Ht in Hex. exact Hex. }
    split.
    { transitivity (m7 !! "_id"); [capas|].
      rewrite Hm7 by solve [en_lista]. by rewrite !lookup_insert_ne by done. }
    { transitivity (m7 !! "fechaCreacion"); [capas|].
      rewrite Hm7 by solve [en_lista]. by rewrite !lookup_insert_ne by done. }
  - split; [|done].
    intros e [= <-]. eexists. split; [reflexivity|]. reflexivity.
Qed.

(** X23. [validarJuego] does not check the type of desarrollador and tienda,
    and [sanitizarJuego] calls [trim] on them: a body that passes every
    check and carries a truthy desarrollador or tienda that is not a string
    raises a TypeError, which the error handler answers with 500. *)
Theorem validarJuego_desarrollador_no_texto
    (rt : Runtime) (tx : Texto) (o : gmap string JsVal) :
  erroresJuego rt tx o = [] ->
  noEsTexto (leer o "desarrollador") = true \/ noEsTexto (leer o "tienda") = true ->
  validarJuego rt tx (VObj o) = Throw TypeError /\
  errorHandler TypeError = (500, "Error interno del servidor").
Proof.
  intros Ee Hno. split; [|done].
  unfold validarJuego. cbn [prop bind propias]. rewrite Ee.
  destruct (erroresJuego_vacio _ _ _ Ee) as (Hn & _ & Hg & Hp & Hi & Hre & _).
  apply textoAusente_false in Hn as (n & En & Hn0 & Hn).
  apply textoAusente_false in Hg as (g & Eg & Hg0 & Hg).
  apply textoAusente_false in Hp as (p & Epl & Hp0 & Hp).
  unfold sanitizarJuego.
  rewrite (copiarRecortado_texto rt o "nombre" n) by done. cbn [bind].
  rewrite (copiarRecortado_texto rt o "genero" g) by done. cbn [bind].
  rewrite (copiarRecortado_texto rt o "plataforma" p) by done. cbn [bind].
  destruct (copiarRecortado_opcional rt o "imagen"
              (<["plataforma" := VStr (trim rt p)]>
                 (<["genero" := VStr (trim rt g)]> (<["nombre" := VStr (trim rt n)]> ∅))) Hi)
    as (m4 & -> & _).
  cbn [bind].
  destruct (copiarRecortado_opcional rt o "resena" m4 Hre) as (m5 & -> & _).
  cbn [bind].
  destruct (noEsTexto (leer o "desarrollador")) eqn:Ed.
  - rewrite copiarRecortado_falla by done. done.
  - destruct (copiarRecortado_opcional rt o "desarrollador" m5 Ed) as (m6 & -> & _).
    cbn [bind]. destruct Hno as [Hno|Hno]; [done|].
    rewrite copiarRecortado_falla by done. done.
Qed.

Lemma validarJuego_desarrollador_no_texto_witness :
  erroresJuego Prueba.rt Casos.tx Casos.juegoConDesarrolladorNumerico = [] /\
  noEsTexto (leer Casos.juegoConDesarrolladorNumerico "desarrollador") = true /\
  validarJuego Prueba.rt Casos.tx (VObj Casos.juegoConDesarrolladorNumerico)
  = Throw TypeError /\
  errorHandler TypeError = (500, "Error interno del servidor").
Proof.
  split; [reflexivity|]. split; [reflexivity|].
  apply (validarJuego_desarrollador_no_texto Prueba.rt Casos.tx
           Casos.juegoConDesarrolladorNumerico); [reflexivity|left; reflexivity].
Defined.

End Saneamiento.
